(** * ovirt-vmconsole: session establishment, verified against the Python source

  Shallow embedding of
    - [ovirt_vmconsole/common/utils.py]
        ([selectConsole], [ProcessUtils.simpleDaemon], [ProcessUtils.executeJson]),
    - [ovirt_vmconsole/ovirt_vmconsole_proxy_shell/__main__.py]
        ([Main.doAccept], [Main.doConnect], [Main.main]),
    - [ovirt_vmconsole/ovirt_vmconsole_host_shell/__main__.py]
        ([Main.doConnect], [Main.main]).

  Python text is a Rocq [string]; every character stands for one code point
  below 256.  Effects (standard streams, the file system, processes, the
  system calls made) are threaded through an explicit [world]; exceptions
  are the [Raise] outcome of the monad [M]. *)

From Stdlib Require Import ZArith Ascii String List Bool Lia.
From stdpp Require Import base strings list gmap.

Local Open Scope string_scope.
Local Open Scope Z_scope.
Local Open Scope list_scope.

(* ===================================================================== *)
(** * Python primitives *)
(* ===================================================================== *)

Module Py.

(** ** Exceptions

    The classes this program raises or meets, each with its message.
    [UserExit] and [UserVisibleRuntimeError] derive from [RuntimeError]
    (utils.py, lines 35-40); [json.JSONDecodeError] is a [ValueError];
    [KeyboardInterrupt] and [SystemExit] derive from [BaseException]
    only, so [except Exception] does not catch them. *)
Inductive exn : Type :=
| UserExit
| UserVisibleRuntimeError (msg : string)
| RuntimeError (msg : string)
| RecursionError (msg : string)
| JSONDecodeError (msg : string)
| ValueError (msg : string)
| TypeError (msg : string)
| OSError (msg : string)
| KeyError (key : string)
| IndexError (msg : string)
| AttributeError (msg : string)
| KeyboardInterrupt
| SystemExit (code : Z).

(** [isinstance(e, Exception)]. *)
Definition is_Exception (e : exn) : bool :=
  match e with
  | KeyboardInterrupt | SystemExit _ => false
  | _ => true
  end.

(** ** Text *)

Definition chr (n : nat) : ascii := ascii_of_nat n.
Definition ord (c : ascii) : nat := nat_of_ascii c.

Definition NL : ascii := chr 10.
Definition CR : ascii := chr 13.
Definition nl : string := String NL "".

Definition mem_ascii (c : ascii) (cs : list ascii) : bool :=
  existsb (Ascii.eqb c) cs.

Fixpoint contains (c : ascii) (s : string) : bool :=
  match s with
  | EmptyString => false
  | String x r => Ascii.eqb x c || contains c r
  end.

Definition hex_digit (n : nat) : ascii :=
  if (n <? 10)%nat then chr (48 + n) else chr (87 + n).

(** [c.isprintable()] below 256: not the control characters, the
    no-break space or the soft hyphen. *)
Definition isprintable (c : ascii) : bool :=
  let n := ord c in
  ((32 <=? n) && (n <=? 126) || (161 <=? n) && negb (n =? 173))%nat.

(** The body of [repr(s)] between the quotes [quote]. *)
Fixpoint repr_chars (quote : ascii) (s : string) : string :=
  match s with
  | EmptyString => EmptyString
  | String c r =>
      let n := ord c in
      (if Ascii.eqb c quote || Ascii.eqb c "\" then String "\" (String c EmptyString)
       else if (n =? 9)%nat then "\t"
       else if (n =? 10)%nat then "\n"
       else if (n =? 13)%nat then "\r"
       else if isprintable c then String c EmptyString
       else "\x" +:+ String (hex_digit (n / 16)) (String (hex_digit (n mod 16)) EmptyString))
      +:+ repr_chars quote r
  end.

(** [repr(s)] of a [str]: in single quotes, unless it holds a single
    quote and no double quote. *)
Definition repr (s : string) : string :=
  let quote := if contains "'" s && negb (contains "034" s) then "034"%char else "'"%char in
  String quote (repr_chars quote s) +:+ String quote EmptyString.

(** [str(e)].  The message of an [OSError] is kept as [str] shows it,
    with the error number in front and the file name behind; [str] of a
    [KeyError] is the [repr] of its key.  Of a [JSONDecodeError] only
    [e.msg] is kept: the position [str] appends to it is not. *)
Definition str_exn (e : exn) : string :=
  match e with
  | UserExit | KeyboardInterrupt => ""
  | UserVisibleRuntimeError m | RuntimeError m | RecursionError m | JSONDecodeError m
  | ValueError m | TypeError m | OSError m | IndexError m | AttributeError m => m
  | KeyError k => repr k
  | SystemExit _ => ""
  end.

(** [s.rstrip(chars)]: drop the longest suffix made of [chars]. *)
Fixpoint rstrip (chars : list ascii) (s : string) : string :=
  match s with
  | EmptyString => EmptyString
  | String c r =>
      match rstrip chars r with
      | EmptyString => if mem_ascii c chars then EmptyString else String c EmptyString
      | r' => String c r'
      end
  end.

(** [s.lstrip(chars)]. *)
Fixpoint lstrip (chars : list ascii) (s : string) : string :=
  match s with
  | EmptyString => EmptyString
  | String c r => if mem_ascii c chars then lstrip chars r else s
  end.

(** The code points below 256 that [int] skips around a literal: the
    six of C's [isspace], and the two above 127 for which [str.isspace]
    holds.  The separators U+001C to U+001F are spaces for [str.isspace]
    but not for [int]: below 127 the text is handed on as it is, and
    the parser of the literal only skips C's white space. *)
Definition whitespace : list ascii :=
  map chr [9; 10; 11; 12; 13; 32; 133; 160]%nat.

Definition strip (s : string) : string := lstrip whitespace (rstrip whitespace s).

Definition digit_val (c : ascii) : option Z :=
  let n := ord c in
  if ((48 <=? n) && (n <=? 57))%nat then Some (Z.of_nat n - 48) else None.

(** Digits of an integer literal: [digit (["_"] digit)*].  [seen] is the
    number of digits read, [after_digit] tells whether the previous
    character was a digit. *)
Fixpoint int_digits (s : string) (acc : Z) (seen : nat) (after_digit : bool)
  : option (Z * nat) :=
  match s with
  | EmptyString => if after_digit then Some (acc, seen) else None
  | String c r =>
      if Ascii.eqb c "_" then
        if after_digit then int_digits r acc seen false else None
      else
        match digit_val c with
        | Some d => int_digits r (10 * acc + d) (S seen) true
        | None => None
        end
  end.

(** [sys.int_info.default_max_str_digits]. *)
Definition int_max_str_digits : nat := 4300.

Definition int_unsigned (s : string) : option Z :=
  match int_digits s 0 0%nat false with
  | Some (v, seen) => if (seen <=? int_max_str_digits)%nat then Some v else None
  | None => None
  end.

(** [int(s)] in base 10; [None] stands for [ValueError]. *)
Definition int (s : string) : option Z :=
  match strip s with
  | String "+" r => int_unsigned r
  | String "-" r => Z.opp <$> int_unsigned r
  | t => int_unsigned t
  end.

(** [str(n)] for a natural number. *)
Fixpoint dec_digits (fuel n : nat) (acc : string) : string :=
  match fuel with
  | O => acc
  | S fuel' =>
      let acc' := String (chr (48 + n mod 10)) acc in
      if (n / 10 =? 0)%nat then acc' else dec_digits fuel' (n / 10)%nat acc'
  end.

Definition str_nat (n : nat) : string := dec_digits (S n) n "".

(** The digits [int] has counted when it looks at their number: those
    before the first character that is neither a digit nor an
    underscore.  There is no count when an underscore comes twice in a
    row or last: this ends the conversion before. *)
Fixpoint int_counted (s : string) (seen : nat) (after_underscore : bool) : option nat :=
  match s with
  | EmptyString => if after_underscore then None else Some seen
  | String c r =>
      if Ascii.eqb c "_" then
        if after_underscore then None else int_counted r seen true
      else
        match digit_val c with
        | Some _ => int_counted r (S seen) false
        | None => if after_underscore then None else Some seen
        end
  end.

Fixpoint take_chars (n : nat) (s : string) : string :=
  match n, s with
  | S n', String c r => String c (take_chars n' r)
  | _, _ => EmptyString
  end.

(** The message of the [ValueError] of [int(s)]: the number of digits,
    when more than the limit have been counted, and else the [repr] of
    [s], of which 200 characters are shown. *)
Definition int_error (s : string) : string :=
  let t := match strip s with
           | String "+" r | String "-" r => r
           | t => t
           end in
  let counted := match t with
                 | String "_" _ => None
                 | _ => int_counted t 0 false
                 end in
  match counted with
  | Some n =>
      if (int_max_str_digits <? n)%nat then
        "Exceeds the limit (4300 digits) for integer string conversion: value has "
        +:+ str_nat n +:+ " digits; use sys.set_int_max_str_digits() to increase the limit"
      else "invalid literal for int() with base 10: " +:+ take_chars 200 (repr s)
  | None => "invalid literal for int() with base 10: " +:+ take_chars 200 (repr s)
  end.

(** ['{:02}'.format(n)]: at least two digits, padded with zeros. *)
Definition format_02 (n : nat) : string :=
  if (n <? 10)%nat then "0" +:+ str_nat n else str_nat n.

(** [str(z)] for an integer. *)
Definition str_int (z : Z) : string :=
  if z <? 0 then "-" +:+ str_nat (Z.to_nat (- z)) else str_nat (Z.to_nat z).

(** Truthiness of [str] and of an optional [str] ([None] is falsy). *)
Definition truthy_str (s : string) : bool := negb (String.eqb s "").

Definition truthy_opt (o : option string) : bool :=
  match o with
  | Some s => truthy_str s
  | None => false
  end.

(** What a file opened in text mode gives to read: with universal
    newlines, a carriage return, alone or before a line feed, is read
    as a line feed. *)
Fixpoint universal_newlines (s : string) : string :=
  match s with
  | EmptyString => EmptyString
  | String c r =>
      if Ascii.eqb c CR then
        match r with
        | String c' r' =>
            if Ascii.eqb c' NL then String NL (universal_newlines r')
            else String NL (universal_newlines r)
        | EmptyString => String NL EmptyString
        end
      else String c (universal_newlines r)
  end.

(** ** Paths ([posixpath]) *)

Fixpoint has_sep (p : string) : bool :=
  match p with
  | EmptyString => false
  | String c r => Ascii.eqb c "/" || has_sep r
  end.

(** [os.path.basename(p)]: what follows the last ["/"]. *)
Fixpoint basename (p : string) : string :=
  match p with
  | EmptyString => EmptyString
  | String c r =>
      if has_sep r then basename r
      else if Ascii.eqb c "/" then r else p
  end.

Fixpoint ends_with_sep (p : string) : bool :=
  match p with
  | EmptyString => false
  | String c EmptyString => Ascii.eqb c "/"
  | String _ r => ends_with_sep r
  end.

(** [os.path.join(a, b)]. *)
Definition path_join (a b : string) : string :=
  match b with
  | String "/" _ => b
  | _ =>
      if String.eqb a "" || ends_with_sep a then a +:+ b
      else a +:+ "/" +:+ b
  end.

End Py.

(* ===================================================================== *)
(** * [str.format] *)
(* ===================================================================== *)

Module Format.
Import Py.

(** A keyword argument of [str.format]: text or an integer. *)
Inductive fval : Type :=
| FStr (s : string)
| FInt (z : Z).

Fixpoint kwarg (name : string) (kw : list (string * fval)) : option fval :=
  match kw with
  | [] => None
  | (n, v) :: r => if String.eqb n name then Some v else kwarg name r
  end.

(** Split a replacement field ["name:spec"] at its first colon. *)
Fixpoint split_spec (field : string) : string * option string :=
  match field with
  | EmptyString => (EmptyString, None)
  | String c r =>
      if Ascii.eqb c ":" then (EmptyString, Some r)
      else let '(n, s) := split_spec r in (String c n, s)
  end.

(** One replacement field of the program's own templates: a plain
    keyword, or a keyword with the specification [02] on an integer.
    Only templates written in the program are given to [format]; those
    read from the configuration, where any field of [str.format] may
    stand, go through [Sys.str_format]. *)
Definition field_value (field : string) (kw : list (string * fval)) : exn + string :=
  let '(name, spec) := split_spec field in
  match kwarg name kw with
  | None => inl (KeyError name)
  | Some v =>
      match spec, v with
      | None, FStr s | Some EmptyString, FStr s => inr s
      | None, FInt z | Some EmptyString, FInt z => inr (str_int z)
      | Some "02", FInt z =>
          inr (if z <? 0 then str_int z else format_02 (Z.to_nat z))
      | Some _, _ => inl (ValueError "Invalid format specifier")
      end
  end.

(** [tpl.format] with the keyword arguments [kw].  [field] is [Some f] while the characters of a
    replacement field are being collected into [f]. *)
Fixpoint format_from (tpl : string) (field : option string)
         (kw : list (string * fval)) : exn + string :=
  match field, tpl with
  | None, EmptyString => inr EmptyString
  | None, String "{" (String "{" r) =>
      match format_from r None kw with inr s => inr (String "{" s) | inl e => inl e end
  | None, String "}" (String "}" r) =>
      match format_from r None kw with inr s => inr (String "}" s) | inl e => inl e end
  | None, String "{" r => format_from r (Some EmptyString) kw
  | None, String "}" _ => inl (ValueError "Single '}' encountered in format string")
  | None, String c r =>
      match format_from r None kw with inr s => inr (String c s) | inl e => inl e end
  | Some f, EmptyString => inl (ValueError "expected '}' before end of string")
  | Some f, String "}" r =>
      match field_value f kw with
      | inl e => inl e
      | inr v =>
          match format_from r None kw with inr s => inr (v +:+ s) | inl e => inl e end
      end
  | Some f, String "{" _ => inl (ValueError "unexpected '{' in field name")
  | Some f, String c r => format_from r (Some (f +:+ String c EmptyString)) kw
  end.

Definition format (tpl : string) (kw : list (string * fval)) : exn + string :=
  format_from tpl None kw.

Fixpoint all_digits (s : string) : bool :=
  match s with
  | EmptyString => true
  | String c r => match digit_val c with Some _ => all_digits r | None => false end
  end.

Fixpoint lacks_any (cs : list ascii) (s : string) : bool :=
  match s with
  | EmptyString => true
  | String c r => negb (mem_ascii c cs) && lacks_any cs r
  end.

(** A replacement field that is nothing but a keyword: not empty, not a
    number (a positional argument), and with no attribute, index,
    conversion or format specification. *)
Definition plain_name (field : string) : bool :=
  negb (String.eqb field "") && negb (all_digits field)
  && lacks_any ["."; "["; "]"; "!"; ":"; "{"; "}"]%char field.

(** A template made of text, doubled braces and plain keyword fields.
    [field] as in [format_from]. *)
Fixpoint simple_from (tpl : string) (field : option string) : bool :=
  match field, tpl with
  | None, EmptyString => true
  | None, String "{" (String "{" r) => simple_from r None
  | None, String "}" (String "}" r) => simple_from r None
  | None, String "{" r => simple_from r (Some EmptyString)
  | None, String "}" _ => false
  | None, String _ r => simple_from r None
  | Some f, EmptyString => false
  | Some f, String "}" r => plain_name f && simple_from r None
  | Some f, String "{" _ => false
  | Some f, String c r => simple_from r (Some (f +:+ String c EmptyString))
  end.

Definition simple (tpl : string) : bool := simple_from tpl None.

End Format.

(* ===================================================================== *)
(** * The world of one session, and the monad of effects *)
(* ===================================================================== *)

Module Sys.
Import Py Format.

(** What [sys.stdin] gives: a character of its text (a text stream,
    its newlines already translated), or the interrupt key, which
    Python turns into [KeyboardInterrupt] in the blocked reader. *)
Inductive key : Type :=
| Chr (c : ascii)
| Intr.

Fixpoint keys (s : string) : list key :=
  match s with
  | EmptyString => []
  | String c r => Chr c :: keys r
  end.

Record file : Type := File {
  f_data : string;     (* its content, as text *)
  f_mode : N;          (* permission bits *)
  f_uid : nat;         (* owner *)
  f_gid : nat          (* group *)
}.

(** Statements of a detached task (the closure handed to
    [simpleDaemon]). *)
Inductive action : Type :=
| Sleep (seconds : Z)
| Unlink (name : string).

(** A detached process, waiting in [time.sleep]. *)
Record proc : Type := Proc {
  p_pid : nat;
  p_sid : nat;                  (* session id *)
  p_cwd : string;
  p_fds : gmap nat string;      (* descriptor -> what it is open on *)
  p_wake : Z;                   (* when its sleep ends *)
  p_code : list action          (* what is left to run *)
}.

Inductive syscall : Type :=
| SysAccess (path : string) (mode : N)
| SysOpenRead (path : string)
| SysMkstemp (path : string)
| SysWrite (path data : string)
| SysFork (parent child : nat)
| SysWaitpid (child : nat) (status : Z)
| SysPopen (command : string)
| SysConnect (path : string)
| SysExecv (path : string) (argv : list string)
| SysUnlink (pid : nat) (name : string) (done : bool)
| SysExit (pid : nat) (status : Z).

Inductive level : Type := DEBUG | INFO | ERROR.

Record world : Type := World {
  w_stdin : list key;               (* what sys.stdin has still to give *)
  w_stdout : string;                (* written to sys.stdout so far *)
  w_stderr : string;                (* written to sys.stderr so far *)
  w_syslog : list (level * string); (* records handed to the logger *)
  w_fs : gmap string file;          (* path -> file *)
  w_now : Z;                        (* the clock, in seconds *)
  w_pid : nat;                      (* this process *)
  w_sid : nat;                      (* its session *)
  w_fds : gmap nat string;          (* its open descriptors *)
  w_next_pid : nat;                 (* the next process id to hand out *)
  w_nproc : nat;                    (* processes that may still be created *)
  w_procs : list proc;              (* detached processes alive *)
  w_trace : list syscall            (* system calls made, oldest first *)
}.

Definition with_stdin (ks : list key) (w : world) : world :=
  World ks (w_stdout w) (w_stderr w) (w_syslog w) (w_fs w) (w_now w)
        (w_pid w) (w_sid w) (w_fds w)
        (w_next_pid w) (w_nproc w) (w_procs w) (w_trace w).
Definition with_stdout (s : string) (w : world) : world :=
  World (w_stdin w) s (w_stderr w) (w_syslog w) (w_fs w) (w_now w)
        (w_pid w) (w_sid w) (w_fds w)
        (w_next_pid w) (w_nproc w) (w_procs w) (w_trace w).
Definition with_stderr (s : string) (w : world) : world :=
  World (w_stdin w) (w_stdout w) s (w_syslog w) (w_fs w) (w_now w)
        (w_pid w) (w_sid w) (w_fds w)
        (w_next_pid w) (w_nproc w) (w_procs w) (w_trace w).
Definition with_syslog (l : list (level * string)) (w : world) : world :=
  World (w_stdin w) (w_stdout w) (w_stderr w) l (w_fs w) (w_now w)
        (w_pid w) (w_sid w) (w_fds w)
        (w_next_pid w) (w_nproc w) (w_procs w) (w_trace w).
Definition with_fs (fs : gmap string file) (w : world) : world :=
  World (w_stdin w) (w_stdout w) (w_stderr w) (w_syslog w) fs (w_now w)
        (w_pid w) (w_sid w) (w_fds w)
        (w_next_pid w) (w_nproc w) (w_procs w) (w_trace w).
Definition with_now (t : Z) (w : world) : world :=
  World (w_stdin w) (w_stdout w) (w_stderr w) (w_syslog w) (w_fs w) t
        (w_pid w) (w_sid w) (w_fds w)
        (w_next_pid w) (w_nproc w) (w_procs w) (w_trace w).
Definition with_forked (w : world) : world :=
  World (w_stdin w) (w_stdout w) (w_stderr w) (w_syslog w) (w_fs w) (w_now w)
        (w_pid w) (w_sid w) (w_fds w)
        (S (w_next_pid w)) (pred (w_nproc w)) (w_procs w) (w_trace w).
Definition with_procs (ps : list proc) (w : world) : world :=
  World (w_stdin w) (w_stdout w) (w_stderr w) (w_syslog w) (w_fs w) (w_now w)
        (w_pid w) (w_sid w) (w_fds w)
        (w_next_pid w) (w_nproc w) ps (w_trace w).
Definition with_trace (t : list syscall) (w : world) : world :=
  World (w_stdin w) (w_stdout w) (w_stderr w) (w_syslog w) (w_fs w) (w_now w)
        (w_pid w) (w_sid w) (w_fds w)
        (w_next_pid w) (w_nproc w) (w_procs w) t.

(** ** Outcomes and the monad *)

Inductive outcome (A : Type) : Type :=
| Ok (a : A)            (* normal completion *)
| Raise (e : exn)       (* an exception propagates *)
| Replaced              (* [os.execv] succeeded: nothing after it runs *)
| Diverged.             (* no return: the fuel of a loop ran out, or
                           the wait is for events that never come *)
Arguments Ok {A} a.
Arguments Raise {A} e.
Arguments Replaced {A}.
Arguments Diverged {A}.

Definition M (A : Type) : Type := world -> outcome A * world.

Definition ret {A} (a : A) : M A := fun w => (Ok a, w).
Definition raise {A} (e : exn) : M A := fun w => (Raise e, w).

Definition bind {A B} (c : M A) (k : A -> M B) : M B :=
  fun w =>
    match c w with
    | (Ok a, w') => k a w'
    | (Raise e, w') => (Raise e, w')
    | (Replaced, w') => (Replaced, w')
    | (Diverged, w') => (Diverged, w')
    end.

(** A value or the exception raised instead, for what the environment
    answers. *)
Definition lift {A} (r : exn + A) : M A :=
  match r with
  | inl e => raise e
  | inr a => ret a
  end.

Definition stdout_write (s : string) : M unit :=
  fun w => (Ok tt, with_stdout (w_stdout w +:+ s) w).
Definition stderr_write (s : string) : M unit :=
  fun w => (Ok tt, with_stderr (w_stderr w +:+ s) w).
Definition logger (l : level) (s : string) : M unit :=
  fun w => (Ok tt, with_syslog (w_syslog w ++ [(l, s)]) w).
Definition emit (c : syscall) : M unit :=
  fun w => (Ok tt, with_trace (w_trace w ++ [c]) w).

(** [sys.stdin.readline()] on the pending keys: the line with its
    newline, [""] at end of input; [None] when the interrupt key comes
    first. *)
Fixpoint take_line (ks : list key) : option string * list key :=
  match ks with
  | [] => (Some "", [])
  | Intr :: r => (None, r)
  | Chr c :: r =>
      if Ascii.eqb c NL then (Some (String c ""), r)
      else
        match take_line r with
        | (Some l, r') => (Some (String c l), r')
        | (None, r') => (None, r')
        end
  end.

Definition stdin_readline : M string :=
  fun w =>
    match take_line (w_stdin w) with
    | (Some l, r) => (Ok l, with_stdin r w)
    | (None, r) => (Raise KeyboardInterrupt, with_stdin r w)
    end.

(** ** What the environment answers

    Read-only inputs of a session: the terminal, the external commands,
    the account database, the configuration files after
    [utils.loadConfig], and the constants of the generated module
    [common/config.py]. *)
Record env : Type := Env {
  e_isatty : bool;                             (* termios.tcgetattr(stdin) succeeds *)
  e_popen : string -> Z * string * string;     (* shell command -> return code, stdout, stderr (as text) *)
  e_tmp_names : list string;                   (* the names tempfile draws, in order *)
  e_rlimit_nofile : option nat;                (* hard RLIMIT_NOFILE; None: RLIM_INFINITY *)
  e_getpwnam : string -> option nat;           (* account -> pw_uid *)
  e_euid : nat;                                (* os.geteuid() *)
  e_load_config : option exn;                  (* what utils.loadConfig raises, if anything *)
  e_config : string -> string -> exn + string; (* self._config.get(section, option) *)
  e_help : string;                             (* what parser.print_help() prints *)
  VMCONSOLE_USER : string;                     (* config.VMCONSOLE_USER *)
  pkgpkidir : string;                          (* config.pkgpkidir *)
  e_uid : nat;                                 (* os.getuid() *)
  e_gid : nat;                                 (* os.getgid() *)
  e_egid : nat;                                (* os.getegid() *)
  e_groups : list nat;                         (* os.getgroups() *)
  e_format : string -> list (string * fval) -> exn + string;
                                               (* tpl.format(...) for a template that is not simple *)
  e_argv_exit : string * string;               (* what argparse writes to stdout and to stderr
                                                  when it ends on sys.argv[1:] by SystemExit *)
  e_command_exit : string * string;            (* likewise on SSH_ORIGINAL_COMMAND *)
  e_arguments : string;                        (* the debug record that dumps the arguments *)
  PACKAGE_NAME : string;                       (* config.PACKAGE_NAME *)
  PACKAGE_VERSION : string;                    (* config.PACKAGE_VERSION *)
  LOCAL_VERSION : string                       (* config.LOCAL_VERSION *)
}.

(** [tpl.format(...)] for a template read from the configuration.  A
    template of text and plain keyword fields is filled in by [format];
    for any other (conversions, format specifications, attributes,
    indices, positional fields, braces out of place) the result or the
    exception is what the environment answers. *)
Definition str_format (E : env) (tpl : string) (kw : list (string * fval))
  : exn + string :=
  if simple tpl then format tpl kw else e_format E tpl kw.


(** ** Files *)

Definition S_IRUSR : N := 256.
Definition S_IWUSR : N := 128.
Definition S_IXUSR : N := 64.
Definition S_IRGRP : N := 32.
Definition S_IWGRP : N := 16.
Definition S_IXGRP : N := 8.
Definition S_IROTH : N := 4.
Definition S_IWOTH : N := 2.
Definition S_IXOTH : N := 1.

Definition has_bits (mode bits : N) : bool := negb (N.land mode bits =? 0)%N.

(** The identity a permission check is made for. *)
Record ids : Type := Ids {
  uid : nat;
  gid : nat;
  groups : list nat    (* supplementary groups *)
}.

(** [os.access] checks for the real user and group, [open] and
    [os.execv] for the effective ones. *)
Definition real (E : env) : ids := Ids (e_uid E) (e_gid E) (e_groups E).
Definition effective (E : env) : ids := Ids (e_euid E) (e_egid E) (e_groups E).

Definition in_group (who : ids) (g : nat) : bool :=
  (gid who =? g)%nat || existsb (Nat.eqb g) (groups who).

(** The permission bits that count for [who]: the owner's for the
    owner, else the group's for a member of the group, else the
    others'. *)
Definition class_bits (who : ids) (f : file) (usr grp oth : N) : N :=
  if (f_uid f =? uid who)%nat then usr
  else if in_group who (f_gid f) then grp
  else oth.

(** The superuser may read and write every file, and execute those
    somebody may execute.  The files of the model are reached by their
    full path: the directories on the way are taken to be searchable. *)
Definition readable (who : ids) (f : file) : bool :=
  (uid who =? 0)%nat || has_bits (f_mode f) (class_bits who f S_IRUSR S_IRGRP S_IROTH).
Definition writable (who : ids) (f : file) : bool :=
  (uid who =? 0)%nat || has_bits (f_mode f) (class_bits who f S_IWUSR S_IWGRP S_IWOTH).
Definition executable (who : ids) (f : file) : bool :=
  if (uid who =? 0)%nat then has_bits (f_mode f) (S_IXUSR + S_IXGRP + S_IXOTH)
  else has_bits (f_mode f) (class_bits who f S_IXUSR S_IXGRP S_IXOTH).

Definition F_OK : N := 0.
Definition R_OK : N := 4.
Definition W_OK : N := 2.

(** [os.access(path, mode)]. *)
Definition os_access (E : env) (path : string) (mode : N) : M bool :=
  fun w =>
    (Ok match w_fs w !! path with
        | None => false
        | Some f =>
            implb (has_bits mode R_OK) (readable (real E) f)
            && implb (has_bits mode W_OK) (writable (real E) f)
        end,
     with_trace (w_trace w ++ [SysAccess path mode]) w).

(** [open(path).read()], in text mode. *)
Definition read_file (E : env) (path : string) : M string :=
  fun w =>
    let w' := with_trace (w_trace w ++ [SysOpenRead path]) w in
    match w_fs w !! path with
    | None => (Raise (OSError ("[Errno 2] No such file or directory: " +:+ repr path)), w')
    | Some f =>
        if readable (effective E) f then (Ok (universal_newlines (f_data f)), w')
        else (Raise (OSError ("[Errno 13] Permission denied: " +:+ repr path)), w')
    end.

(** [tempfile.mkstemp()]: the first drawn name that is not taken is
    created exclusively, empty, with mode 0600, for the effective user
    and group. *)
Fixpoint first_free (names : list string) (fs : gmap string file) : option string :=
  match names with
  | [] => None
  | n :: rest =>
      match fs !! n with
      | None => Some n
      | Some _ => first_free rest fs
      end
  end.

Definition mkstemp (E : env) : M string :=
  fun w =>
    match first_free (e_tmp_names E) (w_fs w) with
    | None => (Raise (OSError "[Errno 17] No usable temporary file name found"), w)
    | Some name =>
        (Ok name,
         with_trace (w_trace w ++ [SysMkstemp name])
           (with_fs (<[name := File "" (S_IRUSR + S_IWUSR) (e_euid E) (e_egid E)]>
                       (w_fs w)) w))
    end.

(** [f.write(data)] on the descriptor of a file just made by [mkstemp],
    then close: the file is empty, so [data] becomes its content (text
    mode writes a line feed as it is). *)
Definition write_new (name data : string) : M unit :=
  fun w =>
    (Ok tt,
     with_trace (w_trace w ++ [SysWrite name data])
       (with_fs (alter (fun f => File data (f_mode f) (f_uid f) (f_gid f)) name (w_fs w))
                w)).

(** ** Processes *)

(** [os.fork()] called by process [parent], as that process sees it:
    the pid of the new process. *)
Definition fork_from (parent : nat) : M nat :=
  fun w =>
    match w_nproc w with
    | O => (Raise (OSError "[Errno 11] Resource temporarily unavailable"), w)
    | S _ =>
        (Ok (w_next_pid w),
         with_trace (w_trace w ++ [SysFork parent (w_next_pid w)]) (with_forked w))
    end.

Definition os_fork : M nat := fun w => fork_from (w_pid w) w.

(** [os.execv(path, argv)]: replaces the process, or raises.  A file
    that may be executed is taken to be a program. *)
Definition os_execv (E : env) (path : string) (argv : list string) : M unit :=
  fun w =>
    match w_fs w !! path with
    | None => (Raise (OSError "[Errno 2] No such file or directory"), w)
    | Some f =>
        if executable (effective E) f then
          (Replaced, with_trace (w_trace w ++ [SysExecv path argv]) w)
        else (Raise (OSError "[Errno 13] Permission denied"), w)
    end.

(** A detached process runs the rest of its task until it sleeps or
    ends.  Its body is wrapped in [try: ... except: print_exc()] and
    [finally: os._exit(1)] (utils.py, lines 179-185): whatever happens,
    it leaves with status 1 and nobody is told. *)
Definition proc_exit (pid : nat) (w : world) : world :=
  with_trace (w_trace w ++ [SysExit pid 1]) w.

(** The seconds a signed integer of 64 bits holds as nanoseconds. *)
Definition sleep_max : Z := 9223372036.

(** Whether [time.sleep(t)] sleeps when the clock shows [now], as
    CPython 3.11 has it on Linux, where it counts in nanoseconds and
    waits for a point in time: [t] is not negative (or [ValueError]), it
    fits the count (or [OverflowError]), and the kernel takes the time it
    ends at (or [OSError], for a time beyond its clock). *)
Definition sleeps (now t : Z) : bool :=
  (0 <=? t) && (t <=? sleep_max) && (now + t <=? sleep_max).

Fixpoint run_proc (p : proc) (code : list action) (w : world) : world * option proc :=
  match code with
  | [] => (proc_exit (p_pid p) w, None)
  | Sleep t :: rest =>
      if negb (sleeps (w_now w) t) then (proc_exit (p_pid p) w, None)   (* time.sleep raises *)
      else if t =? 0 then run_proc p rest w
      else (w, Some (Proc (p_pid p) (p_sid p) (p_cwd p) (p_fds p) (w_now w + t) rest))
  | Unlink name :: rest =>
      match w_fs w !! name with
      | Some _ =>
          run_proc p rest
            (with_trace (w_trace w ++ [SysUnlink (p_pid p) name true])
               (with_fs (delete name (w_fs w)) w))
      | None =>                                         (* os.unlink raises FileNotFoundError *)
          (proc_exit (p_pid p)
             (with_trace (w_trace w ++ [SysUnlink (p_pid p) name false]) w), None)
      end
  end.

(** Let every detached process whose sleep is over run. *)
Fixpoint schedule (ps : list proc) (w : world) : world * list proc :=
  match ps with
  | [] => (w, [])
  | p :: rest =>
      if p_wake p <=? w_now w then
        let '(w1, cont) := run_proc p (p_code p) w in
        let '(w2, rest') := schedule rest w1 in
        (w2, match cont with Some p' => p' :: rest' | None => rest' end)
      else
        let '(w2, rest') := schedule rest w in
        (w2, p :: rest')
  end.

(** What can happen around the session once it is under way. *)
Inductive event : Type :=
| Tick (dt : Z)             (* [dt] seconds pass *)
| Hangup (sid : nat)        (* session [sid] ends: its processes are killed *)
| Removed (name : string).  (* somebody else removes a file *)

Definition step (ev : event) (w : world) : world :=
  match ev with
  | Tick dt =>
      let w1 := with_now (w_now w + Z.max 0 dt) w in
      let '(w2, ps) := schedule (w_procs w1) w1 in
      with_procs ps w2
  | Hangup sid =>
      with_procs (List.filter (fun p => negb (p_sid p =? sid)%nat) (w_procs w)) w
  | Removed name => with_fs (delete name (w_fs w)) w
  end.

Definition steps (evs : list event) (w : world) : world :=
  fold_left (fun w ev => step ev w) evs w.

End Sys.

Declare Scope py_scope.
Delimit Scope py_scope with py.
Notation "x <- c ;; k" := (Sys.bind c (fun x => k))
(at level 20, c at level 99, k at level 200, only parsing) : py_scope.
Notation "c ;; k" := (Sys.bind c (fun _ => k))
(at level 100, k at level 200, only parsing, right associativity) : py_scope.

Local Open Scope py_scope.

(* ===================================================================== *)
(** * [json.loads], as CPython's scanner reads a document *)
(* ===================================================================== *)

Module Json.
Import Py.

#[local] Set Warnings "-register-all".

(** Parsed values.  Text inside a document is kept as code points, as
    an escape can name any of them.  A number with a fraction or an
    exponent is the decimal [m * 10 ^ e]; an object keeps its members in
    document order. *)
Inductive value : Type :=
| Null
| Bool (b : bool)
| Int (z : Z)
| Float (m e : Z)
| NaN
| Infinity (negative : bool)
| Str (s : list N)
| Arr (items : list value)
| Obj (members : list (list N * value)).

(** A decimal that [float] rounds to zero: at most [2 ^ -1075]. *)
Definition rounds_to_zero (m e : Z) : bool :=
  if e <? 0 then Z.abs m * 2 ^ 1075 <=? 10 ^ (- e) else m =? 0.

(** [bool(v)]. *)
Definition truthy (v : value) : bool :=
  match v with
  | Null => false
  | Bool b => b
  | Int z => negb (z =? 0)
  | Float m e => negb (rounds_to_zero m e)
  | NaN | Infinity _ => true
  | Str s => match s with [] => false | _ => true end
  | Arr l => match l with [] => false | _ => true end
  | Obj l => match l with [] => false | _ => true end
  end.

(** What can go wrong while reading a document. *)
Inductive error : Type :=
| Malformed (msg : string)     (* json.JSONDecodeError *)
| TooManyDigits                (* ValueError: the limit of int() on digits *)
| TooDeep.                     (* RecursionError *)

Definition exn_of (d : error) : exn :=
  match d with
  | Malformed msg => JSONDecodeError msg
  | TooManyDigits => ValueError "Exceeds the limit for integer string conversion"
  | TooDeep => RecursionError "maximum recursion depth exceeded"
  end.

Definition err {A} (msg : string) : error + A := inl (Malformed msg).

Definition is_ws (c : ascii) : bool := mem_ascii c [" "%char; chr 9; chr 10; chr 13].

Fixpoint skip_ws (s : string) : string :=
  match s with
  | String c r => if is_ws c then skip_ws r else s
  | EmptyString => s
  end.

Definition is_digit (c : ascii) : bool :=
  match digit_val c with Some _ => true | None => false end.

(** The longest run of digits at the head of [s], and what follows. *)
Fixpoint span_digits (s : string) : string * string :=
  match s with
  | String c r =>
      if is_digit c then let '(d, t) := span_digits r in (String c d, t)
      else (EmptyString, s)
  | EmptyString => (EmptyString, s)
  end.

Fixpoint digits_val (s : string) (acc : Z) : Z :=
  match s with
  | String c r =>
      match digit_val c with
      | Some d => digits_val r (10 * acc + d)
      | None => acc
      end
  | EmptyString => acc
  end.

Definition hex_val (c : ascii) : option N :=
  let n := ord c in
  if ((48 <=? n) && (n <=? 57))%nat then Some (N.of_nat (n - 48))
  else if ((97 <=? n) && (n <=? 102))%nat then Some (N.of_nat (n - 87))
  else if ((65 <=? n) && (n <=? 70))%nat then Some (N.of_nat (n - 55))
  else None.

(** Four hexadecimal digits after [\u]. *)
Definition hex4 (s : string) : option (N * string) :=
  match s with
  | String a (String b (String c (String d r))) =>
      match hex_val a, hex_val b, hex_val c, hex_val d with
      | Some x, Some y, Some z, Some t => Some (((x * 16 + y) * 16 + z) * 16 + t, r)%N
      | _, _, _, _ => None
      end
  | _ => None
  end.

(** The body of a string, after the opening quote. *)
Fixpoint scanstring (fuel : nat) (s : string) : error + (list N * string) :=
  match fuel with
  | O => err "Unterminated string starting at"
  | S fuel' =>
      let more (cp : N) (r : string) : error + (list N * string) :=
        match scanstring fuel' r with
        | inr (t, r') => inr (cp :: t, r')
        | inl e => inl e
        end in
      match s with
      | EmptyString => err "Unterminated string starting at"
      | String "034"%char r => inr ([], r)
      | String "\" EmptyString => err "Unterminated string starting at"
      | String "\" (String "u" r) =>
          match hex4 r with
          | None => err "Invalid \uXXXX escape"
          | Some (hi, r1) =>
              if ((55296 <=? hi) && (hi <=? 56319))%N then
                match r1 with
                | String "\" (String "u" r2) =>
                    match hex4 r2 with
                    | Some (lo, r3) =>
                        if ((56320 <=? lo) && (lo <=? 57343))%N then
                          more (65536 + (hi - 55296) * 1024 + (lo - 56320))%N r3
                        else more hi r1
                    | None => more hi r1
                    end
                | _ => more hi r1
                end
              else more hi r1
          end
      | String "\" (String c r) =>
          if Ascii.eqb c "034" then more 34%N r
          else if Ascii.eqb c "\" then more 92%N r
          else if Ascii.eqb c "/" then more 47%N r
          else if Ascii.eqb c "b" then more 8%N r
          else if Ascii.eqb c "f" then more 12%N r
          else if Ascii.eqb c "n" then more 10%N r
          else if Ascii.eqb c "r" then more 13%N r
          else if Ascii.eqb c "t" then more 9%N r
          else err "Invalid \escape"
      | String c r =>
          if (ord c <? 32)%nat then err "Invalid control character at"
          else more (N.of_nat (ord c)) r
      end
  end.

(** A number: an optional minus sign, an integer part with no leading
    zero, an optional fraction, an optional exponent. *)
Definition scan_number (s : string) : option ((error + value) * string) :=
  let '(neg, s1) := match s with String "-" r => (true, r) | _ => (false, s) end in
  let '(ipart, s2) :=
    match s1 with
    | String "0" r => ("0", r)
    | _ => span_digits s1
    end in
  if String.eqb ipart "" then None
  else
    let '(frac, s3) :=
      match s2 with
      | String "." r =>
          let '(d, t) := span_digits r in
          if String.eqb d "" then (None, s2) else (Some d, t)
      | _ => (None, s2)
      end in
    let exponent (t : string) : option (Z * string) :=
      let '(sgn, t1) :=
        match t with
        | String "-" r => (-1, r)
        | String "+" r => (1, r)
        | _ => (1, t)
        end in
      let '(d, t2) := span_digits t1 in
      if String.eqb d "" then None else Some (sgn * digits_val d 0, t2) in
    let '(ex, s4) :=
      match s3 with
      | String "e" r | String "E" r =>
          match exponent r with
          | Some (x, t) => (Some x, t)
          | None => (None, s3)
          end
      | _ => (None, s3)
      end in
    let sign (z : Z) := if neg then - z else z in
    match frac, ex with
    | None, None =>
        match int_unsigned ipart with
        | Some z => Some (inr (Int (sign z)), s4)
        | None => Some (inl TooManyDigits, s4)
        end
    | _, _ =>
        let f := default "" frac in
        Some (inr (Float (sign (digits_val (ipart +:+ f) 0))
                         (default 0 ex - Z.of_nat (String.length f))), s4)
    end.

Definition starts_with (p s : string) : option string :=
  if String.prefix p s then Some (String.substring (String.length p) (String.length s - String.length p) s)
  else None.

(** [scan_once]: one value at the head of [s], and what follows it. *)
Fixpoint scan_once (fuel : nat) (s : string) : error + (value * string) :=
  match fuel with
  | O => inl TooDeep
  | S fuel' =>
      (* members of an object, after a key's opening quote *)
      let members :=
        fix members (n : nat) (s : string) (acc : list (list N * value))
          : error + (value * string) :=
          match n with
          | O => inl TooDeep
          | S n' =>
              match scanstring (S (String.length s)) s with
              | inl e => inl e
              | inr (k, r) =>
                  match skip_ws r with
                  | String ":" r1 =>
                      match scan_once fuel' (skip_ws r1) with
                      | inl e => inl e
                      | inr (v, r2) =>
                          match skip_ws r2 with
                          | String "}" r3 => inr (Obj (acc ++ [(k, v)])%list, r3)
                          | String "," r3 =>
                              match skip_ws r3 with
                              | String "034"%char r4 => members n' r4 (acc ++ [(k, v)])%list
                              | _ => err "Expecting property name enclosed in double quotes"
                              end
                          | _ => err "Expecting ',' delimiter"
                          end
                      end
                  | _ => err "Expecting ':' delimiter"
                  end
              end
          end in
      (* items of an array, at the first character of an item *)
      let items :=
        fix items (n : nat) (s : string) (acc : list value) : error + (value * string) :=
          match n with
          | O => inl TooDeep
          | S n' =>
              match scan_once fuel' s with
              | inl e => inl e
              | inr (v, r) =>
                  match skip_ws r with
                  | String "]" r1 => inr (Arr (acc ++ [v])%list, r1)
                  | String "," r1 => items n' (skip_ws r1) (acc ++ [v])%list
                  | _ => err "Expecting ',' delimiter"
                  end
              end
          end in
      match s with
      | String "034"%char r =>
          match scanstring (S (String.length r)) r with
          | inr (t, r') => inr (Str t, r')
          | inl e => inl e
          end
      | String "{" r =>
          match skip_ws r with
          | String "}" r1 => inr (Obj [], r1)
          | String "034"%char r1 => members (S (String.length r1)) r1 []
          | _ => err "Expecting property name enclosed in double quotes"
          end
      | String "[" r =>
          match skip_ws r with
          | String "]" r1 => inr (Arr [], r1)
          | r1 => items (S (String.length r1)) r1 []
          end
      | _ =>
          match starts_with "null" s, starts_with "true" s, starts_with "false" s with
          | Some r, _, _ => inr (Null, r)
          | _, Some r, _ => inr (Bool true, r)
          | _, _, Some r => inr (Bool false, r)
          | _, _, _ =>
              match scan_number s with
              | Some (inr v, r) => inr (v, r)
              | Some (inl e, _) => inl e
              | None =>
                  match starts_with "NaN" s, starts_with "Infinity" s,
                        starts_with "-Infinity" s with
                  | Some r, _, _ => inr (NaN, r)
                  | _, Some r, _ => inr (Infinity false, r)
                  | _, _, Some r => inr (Infinity true, r)
                  | _, _, _ => err "Expecting value"
                  end
              end
          end
      end
  end.

(** One value, white space around it, nothing else.  Every level of
    nesting takes a character, so the fuel is never used up: the
    interpreter's recursion limit, past which the decoder raises
    [RecursionError] on a document nested about a thousand deep, is not
    kept. *)
Definition decode (s : string) : error + value :=
  match scan_once (S (String.length s)) (skip_ws s) with
  | inl e => inl e
  | inr (v, r) =>
      match skip_ws r with
      | EmptyString => inr v
      | _ => err "Extra data"
      end
  end.

(** [json.loads(s)]. *)
Definition loads (s : string) : exn + value :=
  match decode s with
  | inl d => inl (exn_of d)
  | inr v => inr v
  end.

End Json.

(* ===================================================================== *)
(** * common/utils.py *)
(* ===================================================================== *)

Module Utils.
Import Py Sys Format.

(** [gettext.dgettext] with no catalogue installed: the message itself. *)
Definition gettext (m : string) : string := m.

(** One entry of the console list.  The entries are dictionaries; the
    program reads exactly these four keys ([e['vmid']], [e['vm']],
    [e['host']], [e['console']]).  A dictionary holding them is not
    empty, hence truthy. *)
Record Console : Type := MkConsole {
  vmid : string;
  vm : string;
  host : string;
  console : string
}.

(** ** [selectConsole] (utils.py, lines 47-85) *)

Definition menu_entry_template : string := "{index:02} {vm}[{vmid}]" +:+ nl.

(** Lines 48-53: one numbered line per console, in list order. *)
Fixpoint menu_entries (i : nat) (consoles : list Console) (menu : string)
  : exn + string :=
  match consoles with
  | [] => inr menu
  | e :: rest =>
      match format menu_entry_template
              [("index", FInt (Z.of_nat i)); ("vmid", FStr (vmid e)); ("vm", FStr (vm e))] with
      | inl x => inl x
      | inr line => menu_entries (S i) rest (menu +:+ line)
      end
  end.

(** Lines 55-64. *)
Definition menu_footer : string :=
  nl +:+ "Please, enter the id of the Serial Console "
     +:+ "you want to connect to."
     +:+ nl
     +:+ "To disconnect from a Serial Console, enter "
     +:+ "the sequence: <Enter><~><.>"
     +:+ nl
     +:+ "SELECT> ".

Definition invalid_selection : string := gettext ("Invalid selection" +:+ nl).

(** Lines 66-85: the [while not entry] loop.  Every turn reads a line,
    so [fuel] counts the turns still allowed. *)
Fixpoint select_loop (fuel : nat) (menu : string) (consoles : list Console)
  : M Console :=
  match fuel with
  | O => fun w => (Diverged, w)
  | S fuel' =>
      stdout_write menu ;;
      l <- stdin_readline ;;
      if negb (truthy_str l) then raise (UserVisibleRuntimeError "EOF")
      else
        let l := rstrip [CR; NL] l in
        if String.eqb l "exit" then raise UserExit
        else
          match Py.int l with
          | Some i =>
              if (i <? 0) || (i >=? Z.of_nat (length consoles)) then
                stderr_write invalid_selection ;;
                select_loop fuel' menu consoles
              else
                match consoles !! Z.to_nat i with
                | Some entry => ret entry
                | None => raise (IndexError "list index out of range")
                end
          | None =>
              stderr_write invalid_selection ;;
              select_loop fuel' menu consoles
          end
  end.

(** The text written before every prompt. *)
Definition full_menu (menu : string) (consoles : list Console) : exn + string :=
  match menu_entries 0 consoles menu with
  | inl x => inl x
  | inr m => inr (m +:+ menu_footer)
  end.

(** A turn consumes at least one key, so one turn more than there are
    pending keys is enough. *)
Definition selectConsole (menu : string) (consoles : list Console) : M Console :=
  m <- lift (full_menu menu consoles) ;;
  fun w => select_loop (S (length (w_stdin w))) m consoles w.

(** ** [ProcessUtils.simpleDaemon] (utils.py, lines 151-190) *)

(** Default maximum for the number of available file descriptors. *)
Definition MAXFD : nat := 1024.

(** Lines 165-170: close every descriptor below [maxfd]; closing one
    that is not open is ignored. *)
Definition close_below (maxfd : nat) (fds : gmap nat string) : gmap nat string :=
  filter (fun kv => (maxfd <= kv.1)%nat) fds.

(** The descriptor [os.open] hands out: the lowest one not in use (the
    soft limit on open files is taken to be above it). *)
Definition lowest_free (fds : gmap nat string) : nat :=
  default (size fds)
    (List.find (fun n => bool_decide (fds !! n = None)) (seq 0 (S (size fds)))).

(** [os.dup2(fd, fd2)], for an [fd2] below the soft limit on open files
    (it is 1 or 2 here). *)
Definition dup2 (fd fd2 : nat) (fds : gmap nat string) : exn + gmap nat string :=
  match fds !! fd with
  | None => inl (OSError "[Errno 9] Bad file descriptor")
  | Some f => inr (<[fd2 := f]> fds)
  end.

(** Lines 163-174, in the first child: leave the directory and the
    session of the parent, and put [os.devnull] on the three standard
    descriptors. *)
Definition detach (maxfd : nat) (p : proc) : exn + proc :=
  let fds0 := close_below maxfd (p_fds p) in
  let fds1 := <[lowest_free fds0 := "/dev/null"]> fds0 in
  match dup2 0 1 fds1 with
  | inl e => inl e
  | inr fds2 =>
      match dup2 0 2 fds2 with
      | inl e => inl e
      | inr fds3 => inr (Proc (p_pid p) (p_pid p) "/" fds3 (p_wake p) (p_code p))
      end
  end.

(** Lines 161-185 as run by the first child [pid], up to its exit
    status.  When its own fork succeeds it leaves with status 0; the
    grandchild starts on [task] at once and stays behind when it goes
    to sleep.  Any exception on the way ends in [finally: os._exit(1)]. *)
Definition first_child (maxfd pid : nat) (task : list action) : M Z :=
  fun w =>
    match detach maxfd (Proc pid (w_sid w) "/" (w_fds w) (w_now w) []) with
    | inl _ => (Ok 1, with_trace (w_trace w ++ [SysExit pid 1]) w)
    | inr child =>
        match fork_from pid w with
        | (Ok grandchild, w1) =>
            let daemon :=
              Proc grandchild (p_sid child) (p_cwd child) (p_fds child) (w_now w) task in
            let '(w2, asleep) := run_proc daemon task w1 in
            (Ok 0,
             with_trace (w_trace w2 ++ [SysExit pid 0])
               (with_procs (w_procs w2 ++ option_list asleep) w2))
        | (_, w1) => (Ok 1, with_trace (w_trace w1 ++ [SysExit pid 1]) w1)
        end
    end.

Definition simpleDaemon (E : env) (task : list action) : M unit :=
  let maxfd :=
    match e_rlimit_nofile E with
    | None => MAXFD
    | Some n => n
    end in
  pid <- os_fork ;;
  status <- first_child maxfd pid task ;;
  emit (SysWaitpid pid status) ;;
  if negb (status =? 0) then raise (RuntimeError (gettext "Daemon not exited properly"))
  else ret tt.

(** ** [ProcessUtils.executeJson] (utils.py, lines 192-229)

    The command's output comes from the environment already decoded
    ([decode('utf-8', 'replace')]; no output decodes to [""]). *)
Definition executeJson (E : env) (what command : string) : M Json.value :=
  logger DEBUG ("Executing: " +:+ command) ;;
  emit (SysPopen command) ;;
  let '(returncode, stdout, stderr) := e_popen E command in
  if negb (returncode =? 0) then
    logger DEBUG (what +:+ " execution failed: rc=" +:+ str_int returncode
                       +:+ " stdout=" +:+ stderr) ;;
    msg <- lift (format (gettext "{what} execution failed rc={rc}")
                        [("what", FStr what); ("rc", FInt returncode)]) ;;
    raise (RuntimeError msg)
  else
    r <- lift (Json.loads stdout) ;;
    if negb (Json.truthy r) then
      logger DEBUG ("stdout: " +:+ stdout) ;;
      msg <- lift (format (gettext "{what} malformed output") [("what", FStr what)]) ;;
      raise (RuntimeError msg)
    else ret r.

End Utils.


(* ===================================================================== *)
(** * [configparser]: typed reads of the loaded configuration *)
(* ===================================================================== *)

Module ConfigParser.
Import Py Sys.

Definition get (E : env) (section option : string) : M string :=
  lift (e_config E section option).

(** [getint]: [int] of the value. *)
Definition getint (E : env) (section option : string) : M Z :=
  v <- get E section option ;;
  match Py.int v with
  | Some z => ret z
  | None => raise (ValueError (int_error v))
  end.

Definition lower_ascii (c : ascii) : ascii :=
  let n := ord c in
  if ((65 <=? n) && (n <=? 90))%nat then chr (n + 32) else c.

Fixpoint lower (s : string) : string :=
  match s with
  | EmptyString => EmptyString
  | String c r => String (lower_ascii c) (lower r)
  end.

(** [getboolean]: the value, lowered, looked up in [BOOLEAN_STATES]. *)
Definition getboolean (E : env) (section option : string) : M bool :=
  v <- get E section option ;;
  let l := lower v in
  if existsb (String.eqb l) ["1"; "yes"; "true"; "on"] then ret true
  else if existsb (String.eqb l) ["0"; "no"; "false"; "off"] then ret false
  else raise (ValueError ("Not a boolean: " +:+ v)).

End ConfigParser.

(* ===================================================================== *)
(** * [argparse] *)
(* ===================================================================== *)

Module ArgumentParser.
Import Py Sys.

(** [parser.parse_args(cmdline)], [parsed] being what [argparse] makes
    of the command line.  When it ends the parsing itself, it has
    written first: the help to stdout before [SystemExit(0)] for [-h],
    the usage and the error to stderr before [SystemExit(2)] for a
    command line it turns down.  [said] is what it writes then. *)
Definition parse_args {A} (said : string * string) (parsed : exn + A) : M A :=
  match parsed with
  | inl (SystemExit code) =>
      stdout_write (fst said) ;; stderr_write (snd said) ;; raise (SystemExit code)
  | _ => lift parsed
  end.

End ArgumentParser.

(* ===================================================================== *)
(** * common/validate.py *)
(* ===================================================================== *)

(** The module is not among the sources: its one function used by the
    proxy shell, [console_list], is modelled from section 6 of the
    specification (discovery schema). *)

Module Validate.
Import Py Json Utils.

(** Code points as text, when all of them are below 256. *)
Fixpoint text_of (cps : list N) : option string :=
  match cps with
  | [] => Some EmptyString
  | cp :: rest =>
      if (cp <? 256)%N then String (chr (N.to_nat cp)) <$> text_of rest else None
  end.

Fixpoint code_points (s : string) : list N :=
  match s with
  | EmptyString => []
  | String c r => N.of_nat (ord c) :: code_points r
  end.

(** [d[key]] on a parsed object: the last member with that key. *)
Fixpoint member (key : list N) (members : list (list N * value)) : option value :=
  match members with
  | [] => None
  | (k, v) :: rest =>
      match member key rest with
      | Some v' => Some v'
      | None => if bool_decide (k = key) then Some v else None
      end
  end.

(** Modelled from the spec: a required field is present, a string, and
    not empty. *)
Definition required (key : string) (members : list (list N * value)) : option string :=
  match member (code_points key) members with
  | Some (Str (cp :: cps)) => text_of (cp :: cps)
  | _ => None
  end.

Definition entry (v : value) : option Console :=
  match v with
  | Obj ms =>
      match required "vmid" ms, required "vm" ms, required "host" ms, required "console" ms with
      | Some i, Some n, Some h, Some c => Some (MkConsole i n h c)
      | _, _, _, _ => None
      end
  | _ => None
  end.

Fixpoint entries (items : list value) : option (list Console) :=
  match items with
  | [] => Some []
  | v :: rest =>
      match entry v, entries rest with
      | Some e, Some es => Some (e :: es)
      | _, _ => None
      end
  end.

(** Modelled from the spec: [validate.console_list], whose module
    common/validate.py is not among the sources.  The discovery output
    is a top-level object with key [consoles], an ordered sequence of
    objects each requiring [vmid], [vm], [host], [console], all
    non-empty strings; anything else is malformed output, an internal
    error.  The result is the sequence of entries, in document order.
    A string with a code point above 255 is not text of this model, and
    an entry that holds one does not pass. *)
Definition console_list (out : value) : exn + list Console :=
  match out with
  | Obj ms =>
      match member (code_points "consoles") ms with
      | Some (Arr items) =>
          match entries items with
          | Some es => inr es
          | None => inl (RuntimeError "Console list malformed output")
          end
      | _ => inl (RuntimeError "Console list malformed output")
      end
  | _ => inl (RuntimeError "Console list malformed output")
  end.

End Validate.

(* ===================================================================== *)
(** * ovirt_vmconsole_proxy_shell/__main__.py *)
(* ===================================================================== *)

Module ProxyShell.
Import Py Sys Format Utils ConfigParser.

Definition NAME : string := "ovirt-vmconsole-proxy-shell".

(** What [argparse] makes of [sys.argv[1:]] (lines 229-272): the
    sub-command and the attributes it defines. *)
Inductive namespace : Type :=
| NsHelp (debug : bool)
| NsAccept (debug : bool) (entityid : string) (entity : option string).

(** [self._args] once [parse_args] has returned. *)
Record args : Type := Args {
  args_debug : bool;
  entityid : string;
  entity : string
}.

(** [self._userargs]: what [argparse] makes of [SSH_ORIGINAL_COMMAND]
    (lines 278-345). *)
Inductive userargs : Type :=
| Help (debug : bool)
| Info (debug : bool)
| Connect (debug : bool) (vm_id vm_name : option string)
| List_ (debug : bool) (format : string).

Definition userargs_debug (u : userargs) : bool :=
  match u with
  | Help d | Info d | Connect d _ _ | List_ d _ => d
  end.

(** The attributes of [self].  [_consoles] is [None] while the class
    attribute [_consoles = []] (line 48) has not been replaced. *)
Record self : Type := Self {
  _args : args;
  _userargs : userargs;
  _consoles : option (list Console)
}.

(** Lines 272-276.  The namespace of [help] has no attribute [entity]. *)
Definition parse_args (E : env) (parsed : exn + namespace) : M args :=
  ns <- ArgumentParser.parse_args (e_argv_exit E) parsed ;;
  match ns with
  | NsHelp _ => raise (AttributeError "'Namespace' object has no attribute 'entity'")
  | NsAccept d id ent =>
      ret (Args d id (if truthy_opt ent then default "" ent else id))
  end.

(** Lines 54-69.  [pwd.getpwnam] raises [KeyError] for an unknown
    account, so [ent] is never falsy. *)
Definition validations (E : env) : M unit :=
  match e_getpwnam E (VMCONSOLE_USER E) with
  | None => raise (KeyError ("getpwnam(): name not found: " +:+ repr (VMCONSOLE_USER E)))
  | Some pw_uid =>
      if negb (pw_uid =? e_euid E)%nat then
        logger DEBUG ("User: " +:+ str_nat pw_uid +:+ " " +:+ str_nat (e_euid E)) ;;
        msg <- lift (format (gettext "Must run under user '{user}'")
                            [("user", FStr (VMCONSOLE_USER E))]) ;;
        raise (RuntimeError msg)
      else ret tt
  end.

(** Lines 71-92. *)
Definition doInfo (E : env) : M unit :=
  ca <- read_file E (path_join (pkgpkidir E) "ca.pub") ;;
  cert <- read_file E (path_join (pkgpkidir E) "proxy-ssh_host_rsa-cert.pub") ;;
  stdout_write ("package=" +:+ NAME +:+ nl
                +:+ "ssh-ca-key=" +:+ rstrip [NL] ca +:+ nl
                +:+ "ssh-proxy-cert=" +:+ rstrip [NL] cert +:+ nl).

(** Lines 94-102. *)
Definition doAccept (E : env) (s : self) : M self :=
  tpl <- get E "proxy" "console_list" ;;
  command <- lift (str_format E tpl [("version", FInt 1);
                                     ("entityid", FStr (entityid (_args s)))]) ;;
  out <- executeJson E (gettext "Console list") command ;;
  consoles <- lift (Validate.console_list out) ;;
  ret (Self (_args s) (_userargs s) (Some consoles)).

(** An optional argument that is given and not empty. *)
Definition given (o : option string) : option string :=
  match o with
  | Some s => if truthy_str s then Some s else None
  | None => None
  end.

(** Lines 113-148 of [doConnect]: which console to open. *)
Definition doConnect_select (E : env) (vm_id vm_name : option string)
           (consoles : list Console) : M Console :=
  match given vm_id with
  | Some id =>
      match List.find (fun e => String.eqb id (vmid e)) consoles with
      | Some e => ret e
      | None =>
          msg <- lift (format (gettext "VM with id '{vmid}' is unavailable")
                              [("vmid", FStr id)]) ;;
          raise (UserVisibleRuntimeError msg)
      end
  | None =>
      match given vm_name with
      | Some name =>
          match List.find (fun e => String.eqb name (vm e)) consoles with
          | Some e => ret e
          | None =>
              msg <- lift (format (gettext "VM with name '{vm}' is unavailable")
                                  [("vm", FStr name)]) ;;
              raise (UserVisibleRuntimeError msg)
          end
      | None =>
          if (length consoles =? 0)%nat then
            raise (UserVisibleRuntimeError (gettext "No available running VMs"))
          else if (length consoles =? 1)%nat then
            match consoles !! 0%nat with
            | Some e => ret e
            | None => raise (IndexError "list index out of range")
            end
          else
            title <- get E "proxy" "console_menu_title" ;;
            let menu :=
              if truthy_str title then title
              else gettext ("Available Serial Consoles:" +:+ nl) in
            selectConsole menu consoles
      end
  end.

(** Lines 170-172: the body handed to the daemon. *)
Definition delayedUnlink (timeout : Z) (name : string) : list action :=
  [Sleep timeout; Unlink name].

Definition known_hosts_template : string := "@cert-authority {host},{alias} {key}".

(** Lines 150-166 of [doConnect]: write the trust anchor into a new
    temporary file; the result is its path. *)
Definition doConnect_known_hosts (E : env) (entry : Console) : M string :=
  logger DEBUG "Reading CA key" ;;
  data <- read_file E (path_join (pkgpkidir E) "ca.pub") ;;
  let cakey := rstrip [NL] data in
  logger DEBUG "Creating known_hosts" ;;
  known_hosts <- mkstemp E ;;
  alias <- get E "proxy" "ovirt_vmconsole_host_principal" ;;
  line <- lift (format known_hosts_template
                       [("host", FStr (host entry)); ("alias", FStr alias);
                        ("key", FStr cakey)]) ;;
  write_new known_hosts line ;;
  ret known_hosts.

(** Lines 168-178 of [doConnect]: start the process that removes the
    anchor after the configured delay. *)
Definition doConnect_cleanup (E : env) (known_hosts : string) : M unit :=
  logger DEBUG "Cleanup daemon" ;;
  timeout <- getint E "proxy" "known_hosts_close_delay" ;;
  simpleDaemon E (delayedUnlink timeout known_hosts).

(** Lines 180-207 of [doConnect]: hand the session over to the shell
    that runs the attach command. *)
Definition doConnect_attach (E : env) (s : self) (entry : Console)
           (known_hosts : string) : M unit :=
  let kw := [("host", FStr (host entry)); ("console", FStr (console entry));
             ("entityid", FStr (entityid (_args s)));
             ("entity", FStr (entity (_args s)));
             ("known_hosts_file", FStr known_hosts)] in
  msg <- lift (format (gettext ("Opening console '{console}@{host}' on behalf of "
                                +:+ "'{entity}'[{entityid}]")) kw) ;;
  logger INFO msg ;;
  tpl <- get E "proxy" "console_attach" ;;
  cmd <- lift (str_format E tpl kw) ;;
  logger DEBUG ("Executing: " +:+ cmd) ;;
  shell <- get E "proxy" "shell" ;;
  os_execv E shell [shell; "-c"; cmd] ;;
  raise (RuntimeError "Cannot execute ssh").

(** Lines 104-207. *)
Definition doConnect (E : env) (s : self) (vm_id vm_name : option string) : M unit :=
  (if e_isatty E then ret tt
   else raise (UserVisibleRuntimeError
                 (gettext "No pty support, please enable at client side"))) ;;
  consoles <-
    match _consoles s with
    | Some cs => ret cs
    | None => raise (TypeError "list indices must be integers or slices, not str")
    end ;;
  entry <- doConnect_select E vm_id vm_name consoles ;;
  known_hosts <- doConnect_known_hosts E entry ;;
  doConnect_cleanup E known_hosts ;;
  doConnect_attach E s entry known_hosts.

(** ** [doList] (lines 209-227) *)

(** The double quote. *)
Definition dq : string := String "034" EmptyString.

(** A JSON string literal as [json.dumps] writes it ([ensure_ascii]). *)
Fixpoint dumps_chars (s : string) : string :=
  match s with
  | EmptyString => EmptyString
  | String c r =>
      let n := ord c in
      (if Ascii.eqb c "034" then "\" +:+ dq
       else if Ascii.eqb c "\" then "\\"
       else if (n =? 10)%nat then "\n"
       else if (n =? 13)%nat then "\r"
       else if (n =? 9)%nat then "\t"
       else if (n =? 8)%nat then "\b"
       else if (n =? 12)%nat then "\f"
       else if ((32 <=? n) && (n <=? 126))%nat then String c EmptyString
       else "\u00" +:+ String (hex_digit (n / 16)) (String (hex_digit (n mod 16)) EmptyString))
      +:+ dumps_chars r
  end.

Definition dumps_str (s : string) : string := dq +:+ dumps_chars s +:+ dq.

Definition dumps_entry (e : Console) : string :=
  "        {" +:+ nl
  +:+ "            " +:+ dq +:+ "console" +:+ dq +:+ ": " +:+ dumps_str (console e) +:+ "," +:+ nl
  +:+ "            " +:+ dq +:+ "host" +:+ dq +:+ ": " +:+ dumps_str (host e) +:+ "," +:+ nl
  +:+ "            " +:+ dq +:+ "vm" +:+ dq +:+ ": " +:+ dumps_str (vm e) +:+ "," +:+ nl
  +:+ "            " +:+ dq +:+ "vmid" +:+ dq +:+ ": " +:+ dumps_str (vmid e) +:+ nl
  +:+ "        }".

Fixpoint join_lines (items : list string) : string :=
  match items with
  | [] => EmptyString
  | [x] => x
  | x :: rest => x +:+ "," +:+ nl +:+ join_lines rest
  end.

(** [json.dumps(self._consoles, sort_keys=True, indent=4)]. *)
Definition dumps_consoles (cs : option (list Console)) : string :=
  match cs with
  | None => "[]"
  | Some [] => "{" +:+ nl +:+ "    " +:+ dq +:+ "consoles" +:+ dq +:+ ": []" +:+ nl +:+ "}"
  | Some l =>
      "{" +:+ nl +:+ "    " +:+ dq +:+ "consoles" +:+ dq +:+ ": [" +:+ nl
      +:+ join_lines (map dumps_entry l) +:+ nl
      +:+ "    ]" +:+ nl +:+ "}"
  end.

Fixpoint doList_plain (consoles : list Console) : M unit :=
  match consoles with
  | [] => ret tt
  | e :: rest =>
      line <- lift (format ("{vmid}" +:+ String (chr 9) "{vm}" +:+ nl)
                           [("vmid", FStr (vmid e)); ("vm", FStr (vm e))]) ;;
      stdout_write line ;;
      doList_plain rest
  end.

Definition doList (s : self) (fmt : string) : M unit :=
  if String.eqb fmt "plain" then
    match _consoles s with
    | Some cs => doList_plain cs
    | None => raise (TypeError "list indices must be integers or slices, not str")
    end
  else if String.eqb fmt "json" then
    stdout_write (dumps_consoles (_consoles s) +:+ nl)
  else ret tt.

(** ** [main] (lines 347-407) *)

(** [self._userargs.func()]. *)
Definition userargs_func (E : env) (s : self) : M unit :=
  match _userargs s with
  | Help _ => stdout_write (e_help E)
  | Info _ => doInfo E
  | Connect _ vm_id vm_name => doConnect E s vm_id vm_name
  | List_ _ fmt => doList s fmt
  end.

(** Lines 375-381. *)
Definition version_record (E : env) : string :=
  NAME +:+ ": " +:+ PACKAGE_NAME E +:+ "-" +:+ PACKAGE_VERSION E
       +:+ " (" +:+ LOCAL_VERSION E +:+ ")".

(** The body of the [try] (lines 350-395).  [argv] and [cmd] are what
    [argparse] (and [shlex.split]) make of [sys.argv[1:]] and of
    [SSH_ORIGINAL_COMMAND]: a namespace, or the exception they raise.
    The logger keeps every record, so raising its level changes
    nothing here.  [self._args.func] is [doAccept]: with [help],
    [parse_args] has already raised. *)
Definition main_try (E : env) (argv : exn + namespace) (cmd : exn + userargs) : M unit :=
  match e_load_config E with Some e => raise e | None => ret tt end ;;
  a <- parse_args E argv ;;
  u <- ArgumentParser.parse_args (e_command_exit E) cmd ;;
  _ <- getboolean E "proxy" "debug" ;;
  logger DEBUG (version_record E) ;;
  logger DEBUG (e_arguments E) ;;
  validations E ;;
  s <- doAccept E (Self a u None) ;;
  userargs_func E s.

(** Lines 348-407: [ret] is 1 unless the body ran to its end. *)
Definition main (E : env) (argv : exn + namespace) (cmd : exn + userargs) : M Z :=
  fun w =>
    match main_try E argv cmd w with
    | (Ok _, w') => (Ok 0, w')
    | (Raise UserExit, w') | (Raise KeyboardInterrupt, w') => (Ok 1, w')
    | (Raise (UserVisibleRuntimeError m), w') =>
        (logger ERROR m ;;
         logger DEBUG "Exception" ;;
         line <- lift (format (gettext ("ERROR: {error}" +:+ nl)) [("error", FStr m)]) ;;
         stderr_write line ;;
         ret 1) w'
    | (Raise e, w') =>
        if is_Exception e then
          (logger ERROR (str_exn e) ;;
           logger DEBUG "Exception" ;;
           stderr_write (gettext ("ERROR: Internal error" +:+ nl)) ;;
           ret 1) w'
        else (Raise e, w')
    | (Replaced, w') => (Replaced, w')
    | (Diverged, w') => (Diverged, w')
    end.

End ProxyShell.

(* ===================================================================== *)
(** * ovirt_vmconsole_host_shell/socketproxy.py *)
(* ===================================================================== *)

(** The module of the bridge is not among the sources: everything here
    is modelled from section 4.4 of the specification (RelayBridge) and
    from its data model (RelayConfig, RelaySession). *)

Module SocketProxy.

(** Modelled from the spec: the two endpoints of a bridge. *)
Inductive side : Type := A | B.

Definition opposite (s : side) : side :=
  match s with
  | A => B
  | B => A
  end.

(** Modelled from the spec: RelayConfig. *)
Record RelayConfig : Type := MkRelayConfig {
  idleTimeout : Z;
  bufferSize : nat;
  trace : bool
}.

(** Modelled from the spec: RelayOutcome, with the two abnormal ends. *)
Inductive RelayOutcome : Type :=
| ClosedByPeer (s : side)
| IdleTimeout
| EndpointFailed (s : side)
| Cancelled.

(** Modelled from the spec: one endpoint, a bidirectional byte stream. *)
Record endpoint : Type := MkEndpoint {
  pending : list Byte.byte;     (* written into it by its peer, not yet read by the bridge *)
  finished : bool;              (* its peer has closed: end of stream once [pending] is read *)
  delivered : list Byte.byte;   (* written to it by the bridge, in order *)
  window : nat;                 (* one write takes at most [S window] bytes *)
  failing : bool;               (* writes to it report failure *)
  is_open : bool                (* not yet closed by the bridge *)
}.

(** Modelled from the spec: RelaySession, the live state of one bridge
    invocation. *)
Record RelaySession : Type := MkRelaySession {
  end_a : endpoint;
  end_b : endpoint;
  idle : Z;                          (* seconds since the last read or write *)
  raw_mode : bool;                   (* the terminal is in raw mode *)
  traced : list (side * nat)         (* chunks logged: where read, how long *)
}.

Definition get_end (s : side) (st : RelaySession) : endpoint :=
  match s with
  | A => end_a st
  | B => end_b st
  end.

Definition set_end (s : side) (e : endpoint) (st : RelaySession) : RelaySession :=
  match s with
  | A => MkRelaySession e (end_b st) (idle st) (raw_mode st) (traced st)
  | B => MkRelaySession (end_a st) e (idle st) (raw_mode st) (traced st)
  end.

(** What happens around the bridge between two of its iterations. *)
Inductive event : Type :=
| Write (s : side) (chunk : list Byte.byte)   (* the peer of [s] writes [chunk] into it *)
| Close (s : side)                            (* the peer of [s] finishes *)
| Window (s : side) (n : nat)                 (* [s] now takes at most [S n] bytes a write *)
| Break (s : side)                            (* [s] now fails every write *)
| Quiet (dt : Z)                              (* [dt] seconds pass with nothing to read *)
| Signal.                                     (* an external cancellation signal *)

(** Modelled from the spec: short writes are retried until the chunk is
    fully drained. *)
Fixpoint write_all (fuel window : nat) (data out : list Byte.byte) : list Byte.byte :=
  match fuel with
  | O => out
  | S fuel' =>
      match data with
      | [] => out
      | _ => write_all fuel' window (drop (S window) data) (out ++ take (S window) data)
      end
  end.

Definition readable (e : endpoint) : bool :=
  match pending e with
  | [] => finished e
  | _ => true
  end.

(** Modelled from the spec: on data available from [s], read up to
    [bufferSize] bytes; a zero-length read is the end of the stream;
    anything else is written in full to the opposite endpoint and resets
    the idle clock. *)
Definition serve (cfg : RelayConfig) (s : side) (st : RelaySession)
  : option RelayOutcome * RelaySession :=
  let src := get_end s st in
  let dst := get_end (opposite s) st in
  let chunk := take (bufferSize cfg) (pending src) in
  match chunk with
  | [] => (Some (ClosedByPeer s), st)
  | _ =>
      let src' := MkEndpoint (drop (bufferSize cfg) (pending src)) (finished src)
                             (delivered src) (window src) (failing src) (is_open src) in
      let st1 := set_end s src' st in
      if failing dst then (Some (EndpointFailed (opposite s)), st1)
      else
        let dst' := MkEndpoint (pending dst) (finished dst)
                               (write_all (length chunk) (window dst) chunk (delivered dst))
                               (window dst) (failing dst) (is_open dst) in
        let st2 := set_end (opposite s) dst' st1 in
        (None,
         MkRelaySession (end_a st2) (end_b st2) 0 (raw_mode st2)
           (if trace cfg then traced st2 ++ [(s, length chunk)] else traced st2))
  end.

(** Modelled from the spec: iterations of the loop while an endpoint is
    readable. *)
Fixpoint pump (fuel : nat) (cfg : RelayConfig) (st : RelaySession)
  : option RelayOutcome * RelaySession :=
  match fuel with
  | O => (None, st)
  | S fuel' =>
      if readable (end_a st) then
        match serve cfg A st with
        | (None, st') => pump fuel' cfg st'
        | r => r
        end
      else if readable (end_b st) then
        match serve cfg B st with
        | (None, st') => pump fuel' cfg st'
        | r => r
        end
      else (None, st)
  end.

Definition pump_all (cfg : RelayConfig) (st : RelaySession)
  : option RelayOutcome * RelaySession :=
  pump (S (length (pending (end_a st)) + length (pending (end_b st)))) cfg st.

Definition feed (s : side) (f : endpoint -> endpoint) (st : RelaySession) : RelaySession :=
  set_end s (f (get_end s st)) st.

(** Modelled from the spec: what the wait of an iteration returns with;
    the effect of one event, before the bridge reacts to it. *)
Definition occur (cfg : RelayConfig) (ev : event) (st : RelaySession)
  : option RelayOutcome * RelaySession :=
  match ev with
  | Write s chunk =>
      (None, feed s (fun e => MkEndpoint (pending e ++ chunk) (finished e) (delivered e)
                                         (window e) (failing e) (is_open e)) st)
  | Close s =>
      (None, feed s (fun e => MkEndpoint (pending e) true (delivered e)
                                         (window e) (failing e) (is_open e)) st)
  | Window s n =>
      (None, feed s (fun e => MkEndpoint (pending e) (finished e) (delivered e)
                                         n (failing e) (is_open e)) st)
  | Break s =>
      (None, feed s (fun e => MkEndpoint (pending e) (finished e) (delivered e)
                                         (window e) true (is_open e)) st)
  | Quiet dt =>
      let st' := MkRelaySession (end_a st) (end_b st) (idle st + Z.max 0 dt)
                                (raw_mode st) (traced st) in
      if (0 <? idleTimeout cfg) && (idleTimeout cfg <=? idle st') then (Some IdleTimeout, st')
      else (None, st')
  | Signal => (Some Cancelled, st)
  end.

(** Modelled from the spec: the event loop, over what the environment
    does. *)
Fixpoint loop (cfg : RelayConfig) (evs : list event) (st : RelaySession)
  : option RelayOutcome * RelaySession :=
  match evs with
  | [] => (None, st)
  | ev :: rest =>
      match occur cfg ev st with
      | (Some out, st') => (Some out, st')
      | (None, st') =>
          match pump_all cfg st' with
          | (Some out, st'') => (Some out, st'')
          | (None, st'') => loop cfg rest st''
          end
      end
  end.

Definition fresh_end : endpoint := MkEndpoint [] false [] 0 false true.

(** Modelled from the spec: entering the bridge, both endpoints open,
    the terminal in raw mode when there is one. *)
Definition enter (tty : bool) : RelaySession :=
  MkRelaySession fresh_end fresh_end 0 tty [].

(** Modelled from the spec: leaving it, on every exit path, both
    endpoints closed and the terminal restored. *)
Definition leave (st : RelaySession) : RelaySession :=
  let shut (e : endpoint) :=
    MkEndpoint (pending e) (finished e) (delivered e) (window e) (failing e) false in
  MkRelaySession (shut (end_a st)) (shut (end_b st)) (idle st) false (traced st).

(** Modelled from the spec: [socketproxy.Proxy.run], whose module
    ovirt_vmconsole_host_shell/socketproxy.py is not among the sources.
    A single-threaded loop over two endpoints: read up to [bufferSize]
    bytes from a readable endpoint, write them in full to the opposite
    one, end on end-of-stream from either side, on [idleTimeout]
    seconds without activity (0: never), on a failing endpoint or on a
    cancellation signal; clean up on every exit path.  The result is
    the outcome, [None] while the environment has nothing more to offer
    and the session is still relaying, and the state left behind. *)
Definition run (cfg : RelayConfig) (tty : bool) (evs : list event)
  : option RelayOutcome * RelaySession :=
  match loop cfg evs (enter tty) with
  | (Some out, st) => (Some out, leave st)
  | (None, st) => (None, st)
  end.

(** All the bytes the peer of [s] writes into it during [evs]. *)
Fixpoint written (s : side) (evs : list event) : list Byte.byte :=
  match evs with
  | [] => []
  | Write A chunk :: rest =>
      match s with A => chunk ++ written s rest | B => written s rest end
  | Write B chunk :: rest =>
      match s with B => chunk ++ written s rest | A => written s rest end
  | _ :: rest => written s rest
  end.

End SocketProxy.

(* ===================================================================== *)
(** * ovirt_vmconsole_host_shell/__main__.py *)
(* ===================================================================== *)

Module HostShell.
Import Py Sys Format Utils ConfigParser.

Definition NAME : string := "ovirt-vmconsole-host-shell".

(** [self._args]: what [argparse] makes of [SSH_ORIGINAL_COMMAND]
    (lines 139-194). *)
Inductive args : Type :=
| Help (debug : bool) (entityid entity : option string)
| Info (debug : bool) (entityid entity : option string)
| Connect (debug : bool) (entityid entity : option string) (console : string).

(** Lines 49-64. *)
Definition validations (E : env) : M unit :=
  match e_getpwnam E (VMCONSOLE_USER E) with
  | None => raise (KeyError ("getpwnam(): name not found: " +:+ repr (VMCONSOLE_USER E)))
  | Some pw_uid =>
      if negb (pw_uid =? e_euid E)%nat then
        logger DEBUG ("User: " +:+ str_nat pw_uid +:+ " " +:+ str_nat (e_euid E)) ;;
        msg <- lift (format (gettext "Must run under user '{user}'")
                            [("user", FStr (VMCONSOLE_USER E))]) ;;
        raise (RuntimeError msg)
      else ret tt
  end.

(** Lines 66-87. *)
Definition doInfo (E : env) : M unit :=
  ca <- read_file E (path_join (pkgpkidir E) "ca.pub") ;;
  cert <- read_file E (path_join (pkgpkidir E) "host-ssh_host_rsa-cert.pub") ;;
  stdout_write ("package=" +:+ NAME +:+ nl
                +:+ "ssh-ca-key=" +:+ rstrip [NL] ca +:+ nl
                +:+ "ssh-host-cert=" +:+ rstrip [NL] cert +:+ nl).

Definition or_NA (o : option string) : string :=
  match o with
  | Some s => if truthy_str s then s else "N/A"
  | None => "N/A"
  end.

(** Lines 131-137: [with socketproxy.Proxy(...) as proxy: proxy.run()]
    on the console socket, [traffic] being what happens on the two
    endpoints meanwhile.  The bridge returns when the session ends; a
    failing endpoint or an interrupt leaves it as an exception. *)
Definition proxy_run (socket : string) (timeout bufsize : Z) (trace : bool)
           (traffic : list SocketProxy.event) : M unit :=
  emit (SysConnect socket) ;;
  match SocketProxy.run (SocketProxy.MkRelayConfig timeout (Z.to_nat bufsize) trace)
                        true traffic with
  | (Some (SocketProxy.ClosedByPeer _), _) | (Some SocketProxy.IdleTimeout, _) => ret tt
  | (Some (SocketProxy.EndpointFailed _), _) => raise (OSError "[Errno 32] Broken pipe")
  | (Some SocketProxy.Cancelled, _) => raise KeyboardInterrupt
  | (None, _) => fun w => (Diverged, w)
  end.

(** Lines 98-118 of [doConnect]: check the console name, resolve it
    against the console directory and probe the socket; the result is the
    path of the socket. *)
Definition doConnect_socket (E : env) (console : string) : M string :=
  (if negb (String.eqb (basename console) console) then
     raise (UserVisibleRuntimeError (gettext "Invalid console name"))
   else ret tt) ;;
  consoledir <- get E "host" "consoledir" ;;
  let socket := path_join consoledir console in
  logger DEBUG ("socket: " +:+ socket) ;;
  found <- os_access E socket F_OK ;;
  (if negb found then logger DEBUG "exists" else ret tt) ;;
  usable <- os_access E socket (N.lor F_OK (N.lor R_OK W_OK)) ;;
  (if negb usable then
     msg <- lift (format (gettext "Console '{console}' is not available")
                         [("console", FStr console)]) ;;
     raise (UserVisibleRuntimeError msg)
   else ret tt) ;;
  ret socket.

(** Lines 120-137 of [doConnect]: announce the session and run the
    bridge on the socket. *)
Definition doConnect_attach (E : env) (entityid entity : option string)
           (console socket : string) (traffic : list SocketProxy.event) : M unit :=
  msg <- lift (format (gettext ("Opening console '{console}' on behalf of "
                                +:+ "'{entity}'[{entityid}]"))
                      [("console", FStr console); ("entity", FStr (or_NA entity));
                       ("entityid", FStr (or_NA entityid))]) ;;
  logger INFO msg ;;
  timeout <- getint E "host" "socketproxy_timeout" ;;
  bufsize <- getint E "host" "socketproxy_bufsize" ;;
  trace <- getboolean E "host" "socketproxy_trace" ;;
  proxy_run socket timeout bufsize trace traffic.

(** Lines 89-137. *)
Definition doConnect (E : env) (entityid entity : option string) (console : string)
           (traffic : list SocketProxy.event) : M unit :=
  (if e_isatty E then ret tt
   else raise (UserVisibleRuntimeError
                 (gettext "No pty support, please enable at client side"))) ;;
  socket <- doConnect_socket E console ;;
  doConnect_attach E entityid entity console socket traffic.

(** [self._args.func()]. *)
Definition args_func (E : env) (a : args) (traffic : list SocketProxy.event) : M unit :=
  match a with
  | Help _ _ _ => stdout_write (e_help E)
  | Info _ _ _ => doInfo E
  | Connect _ entityid entity console => doConnect E entityid entity console traffic
  end.

(** Lines 219-225. *)
Definition version_record (E : env) : string :=
  NAME +:+ ": " +:+ PACKAGE_NAME E +:+ "-" +:+ PACKAGE_VERSION E
       +:+ " (" +:+ LOCAL_VERSION E +:+ ")".

(** The body of the [try] (lines 199-233); [cmd] is what [shlex.split]
    and [argparse] make of [SSH_ORIGINAL_COMMAND]. *)
Definition main_try (E : env) (cmd : exn + args) (traffic : list SocketProxy.event)
  : M unit :=
  match e_load_config E with Some e => raise e | None => ret tt end ;;
  a <- ArgumentParser.parse_args (e_command_exit E) cmd ;;
  _ <- getboolean E "host" "debug" ;;
  logger DEBUG (version_record E) ;;
  logger DEBUG (e_arguments E) ;;
  validations E ;;
  args_func E a traffic.

(** Lines 196-243.  There is no clause for [UserExit] or
    [KeyboardInterrupt] here: the first is a [RuntimeError], caught as
    any [Exception]; the second leaves [main]. *)
Definition main (E : env) (cmd : exn + args) (traffic : list SocketProxy.event) : M Z :=
  fun w =>
    match main_try E cmd traffic w with
    | (Ok _, w') => (Ok 0, w')
    | (Raise (UserVisibleRuntimeError m), w') =>
        (logger ERROR m ;;
         logger DEBUG "Exception" ;;
         line <- lift (format (gettext ("ERROR: {error}" +:+ nl)) [("error", FStr m)]) ;;
         stderr_write line ;;
         ret 1) w'
    | (Raise e, w') =>
        if is_Exception e then
          (logger ERROR (str_exn e) ;;
           logger DEBUG "Exception" ;;
           stderr_write (gettext ("ERROR: Internal error" +:+ nl)) ;;
           ret 1) w'
        else (Raise e, w')
    | (Replaced, w') => (Replaced, w')
    | (Diverged, w') => (Diverged, w')
    end.

End HostShell.

(* ===================================================================== *)
(** * Vocabulary of the statements *)
(* ===================================================================== *)

Module Text.
Import Py.

(** Text that holds no line feed. *)
Fixpoint one_line (s : string) : bool :=
  match s with
  | EmptyString => true
  | String c r => negb (Ascii.eqb c NL) && one_line r
  end.

End Text.

Module Menu.
Import Py Sys Utils.
Export Text.

(** What the loop sees of a typed line: without its terminator. *)
Definition entered (line : string) : string := rstrip [CR; NL] (line +:+ nl).

(** An answer the menu accepts: an integer within the list. *)
Definition chosen (consoles : list Console) (line : string) : option Console :=
  match Py.int (entered line) with
  | Some i =>
      if (i <? 0) || (i >=? Z.of_nat (length consoles)) then None
      else consoles !! Z.to_nat i
  | None => None
  end.

(** The world after a prompt was written and a line consumed. *)
Definition prompted (m : string) (rest : list key) (w : world) : world :=
  with_stdin rest (with_stdout (w_stdout w +:+ m) w).

(** ... and after the answer was refused. *)
Definition refused (m : string) (rest : list key) (w : world) : world :=
  let w' := prompted m rest w in
  with_stderr (w_stderr w' +:+ invalid_selection) w'.

(** Input made of typed lines. *)
Fixpoint typed (lines : list string) : list key :=
  match lines with
  | [] => []
  | l :: rest => keys (l +:+ nl) ++ typed rest
  end.

(** The world after every line of [lines] was refused. *)
Fixpoint refused_all (m : string) (lines : list string) (rest : list key) (w : world)
  : world :=
  match lines with
  | [] => w
  | l :: ls => refused_all m ls rest (refused m (typed ls ++ rest) w)
  end.

(** The numbered lines of the menu, counting from [i]. *)
Fixpoint numbered (i : nat) (consoles : list Console) : string :=
  match consoles with
  | [] => EmptyString
  | e :: rest =>
      format_02 i +:+ " " +:+ vm e +:+ "[" +:+ vmid e +:+ "]" +:+ nl
      +:+ numbered (S i) rest
  end.

(** Everything written before the user may answer. *)
Definition prompt (menu : string) (consoles : list Console) : string :=
  menu +:+ numbered 0 consoles +:+ menu_footer.

End Menu.

Module Discovery.
Import Py Sys.

(** The world once [executeJson] has announced and run [command]. *)
Definition ran (command : string) (w : world) : world :=
  with_trace (w_trace w ++ [SysPopen command])
    (with_syslog (w_syslog w ++ [(DEBUG, "Executing: " +:+ command)]) w).

(** The world with one more record handed to the logger. *)
Definition noted (l : level) (s : string) (w : world) : world :=
  with_syslog (w_syslog w ++ [(l, s)]) w.

(** The world once [main] has logged its version, [record], and its
    arguments. *)
Definition announced (record : string) (E : env) (w : world) : world :=
  noted DEBUG (e_arguments E) (noted DEBUG record w).

(** The exceptions [json.loads] raises. *)
Definition decode_error (e : exn) : bool :=
  match e with
  | JSONDecodeError _ | ValueError _ | RecursionError _ => true
  | _ => false
  end.

(** A session of the proxy shell that gets as far as running the
    discovery [command]: the configuration loads, the arguments are those
    of [accept] and of some user command [u], the debug option is a
    boolean, the program runs under the account it expects, and the
    command template can be filled in. *)
Record discovering (E : env) (argv : exn + ProxyShell.namespace)
       (cmd : exn + ProxyShell.userargs) (a : ProxyShell.args)
       (u : ProxyShell.userargs) (command : string) : Prop := {
  config_loads : e_load_config E = None;
  accept_given : exists d id ent,
      argv = inr (ProxyShell.NsAccept d id ent)
      /\ a = ProxyShell.Args d id (if truthy_opt ent then default "" ent else id);
  command_given : cmd = inr u;
  debug_given : exists b, forall w, ConfigParser.getboolean E "proxy" "debug" w = (Ok b, w);
  right_user : e_getpwnam E (VMCONSOLE_USER E) = Some (e_euid E);
  command_filled : exists tpl,
      e_config E "proxy" "console_list" = inr tpl
      /\ str_format E tpl [("version", Format.FInt 1);
                           ("entityid", Format.FStr (ProxyShell.entityid a))]
         = inr command
}.

(** The exceptions [Main.main] reports as an internal error: those of
    class [Exception] that are neither [UserExit] nor user-visible. *)
Definition internal (e : exn) : bool :=
  match e with
  | UserExit | UserVisibleRuntimeError _ => false
  | _ => is_Exception e
  end.

(** What [Main.main] leaves behind after reporting [e] as internal. *)
Definition reported_internal (e : exn) (w : world) : world :=
  let w1 := noted DEBUG "Exception" (noted ERROR (str_exn e) w) in
  with_stderr (w_stderr w1 +:+ "ERROR: Internal error" +:+ nl) w1.

(** ... and after showing the user-visible message [m]. *)
Definition reported_visible (m : string) (w : world) : world :=
  let w1 := noted DEBUG "Exception" (noted ERROR m w) in
  with_stderr (w_stderr w1 +:+ "ERROR: " +:+ m +:+ nl) w1.

End Discovery.

Module Cleanup.
Import Py Sys.

(** The time that passes during [evs]. *)
Fixpoint elapsed (evs : list event) : Z :=
  match evs with
  | [] => 0
  | Tick dt :: rest => Z.max 0 dt + elapsed rest
  | _ :: rest => elapsed rest
  end.

Definition is_unlink (name : string) (c : syscall) : bool :=
  match c with
  | SysUnlink _ n _ => String.eqb n name
  | _ => false
  end.

(** How many times [os.unlink(name)] was called in a trace. *)
Definition unlink_calls (name : string) (t : list syscall) : nat :=
  length (List.filter (is_unlink name) t).

(** Events that leave the anchor [name] to its cleanup process: time
    passes, the session [sid] of the parent ends, other files go. *)
Definition undisturbed (name : string) (sid : nat) (ev : event) : Prop :=
  match ev with
  | Tick _ => True
  | Hangup s => s = sid
  | Removed n => n <> name
  end.

(** The delay the cleanup is to wait: the option
    [known_hosts_close_delay], when it reads as an integer. *)
Definition configured_delay (E : env) : option Z :=
  match e_config E "proxy" "known_hosts_close_delay" with
  | inr v => Py.int v
  | inl _ => None
  end.

(** An event that is not the removal of [name] by somebody else. *)
Definition spares (name : string) (ev : event) : Prop :=
  match ev with
  | Removed n => n <> name
  | _ => True
  end.

(** Two worlds that differ at most in files, processes, clock and trace:
    what the session reads, writes and logs is the same. *)
Record same_streams (w w' : world) : Prop := {
  same_stdin : w_stdin w' = w_stdin w;
  same_stdout : w_stdout w' = w_stdout w;
  same_stderr : w_stderr w' = w_stderr w;
  same_syslog : w_syslog w' = w_syslog w
}.

(** The cleanup process [d] asleep, the anchor [name] in place, [c] calls
    of [os.unlink] on it so far. *)
Definition asleep (name : string) (d : proc) (f : file) (c : nat) (w : world) : Prop :=
  w_procs w = [d] /\ w_fs w !! name = Some f /\ unlink_calls name (w_trace w) = c.

(** The process gone, and the anchor with it, after one more call. *)
Definition gone (name : string) (c : nat) (w : world) : Prop :=
  w_procs w = [] /\ w_fs w !! name = None /\ unlink_calls name (w_trace w) = S c.

(** The process still there and no call made, or gone after at most one. *)
Definition at_most_once (name : string) (d : proc) (c : nat) (w : world) : Prop :=
  (w_procs w = [d] /\ unlink_calls name (w_trace w) = c)
  \/ (w_procs w = [] /\ (unlink_calls name (w_trace w) <= S c)%nat).

End Cleanup.

Module Relay.
Import SocketProxy.

(** Both endpoints quiet: nothing waiting to be read, nobody gone. *)
Definition drained (st : RelaySession) : Prop :=
  pending (end_a st) = [] /\ pending (end_b st) = []
  /\ finished (end_a st) = false /\ finished (end_b st) = false.

(** The seconds without a byte passed on when [evs] are over, [acc]
    of them before: a chunk that is not empty is activity, time passes
    in [Quiet]. *)
Fixpoint silence (evs : list event) (acc : Z) : Z :=
  match evs with
  | [] => acc
  | Write _ (_ :: _) :: rest => silence rest 0
  | Quiet dt :: rest => silence rest (acc + Z.max 0 dt)
  | _ :: rest => silence rest acc
  end.

Definition is_break (s : side) (ev : event) : bool :=
  match ev, s with
  | Break A, A | Break B, B => true
  | _, _ => false
  end.

(** The event [ev] ends, with the outcome [o], a session that has been
    through [done]: the peer of an endpoint closes it; a signal comes;
    the silence reaches the timeout that is set; bytes come for an
    endpoint that is broken. *)
Definition ends (cfg : RelayConfig) (done : list event) (ev : event) (o : RelayOutcome)
  : Prop :=
  match o, ev with
  | ClosedByPeer s, Close s' => s' = s
  | Cancelled, Signal => True
  | IdleTimeout, Quiet dt => 0 < idleTimeout cfg <= silence done 0 + Z.max 0 dt
  | EndpointFailed s, Write s' (_ :: _) => s' = opposite s /\ In (Break s) done
  | _, _ => False
  end.

(** The same, told from the state [st] the bridge is in when [ev]
    comes. *)
Definition ends_at (cfg : RelayConfig) (st : RelaySession) (ev : event) (o : RelayOutcome)
  : Prop :=
  match o, ev with
  | ClosedByPeer s, Close s' => s' = s
  | Cancelled, Signal => True
  | IdleTimeout, Quiet dt => 0 < idleTimeout cfg <= idle st + Z.max 0 dt
  | EndpointFailed s, Write s' (_ :: _) =>
      s' = opposite s /\ failing (get_end s st) = true
  | _, _ => False
  end.

(** One turn of the loop: the event, then the bridge's reaction. *)
Definition turn (cfg : RelayConfig) (ev : event) (st : RelaySession)
  : option RelayOutcome * RelaySession :=
  match occur cfg ev st with
  | (Some out, st') => (Some out, st')
  | (None, st') => pump_all cfg st'
  end.

End Relay.

(* ===================================================================== *)
(** * A sample installation, for the examples *)
(* ===================================================================== *)

Module Sample.
Import Py Sys Utils.

Definition config (section option : string) : exn + string :=
  if String.eqb section "proxy" then
    if String.eqb option "debug" then inr "False"
    else if String.eqb option "console_list" then
      inr "ovirt-vmconsole-list.py --version {version} keys {entityid}"
    else if String.eqb option "console_menu_title" then inr ""
    else if String.eqb option "ovirt_vmconsole_host_principal" then inr "ovirt-vmconsole-host"
    else if String.eqb option "known_hosts_close_delay" then inr "5"
    else if String.eqb option "console_attach" then
      inr "exec ssh -o UserKnownHostsFile={known_hosts_file} {host} connect --console={console}"
    else if String.eqb option "shell" then inr "/bin/sh"
    else inl (KeyError option)
  else if String.eqb section "host" then
    if String.eqb option "debug" then inr "False"
    else if String.eqb option "consoledir" then inr "/var/run/ovirt-vmconsole-console"
    else if String.eqb option "socketproxy_timeout" then inr "60"
    else if String.eqb option "socketproxy_bufsize" then inr "1024"
    else if String.eqb option "socketproxy_trace" then inr "False"
    else inl (KeyError option)
  else inl (KeyError section).

Definition q : string := String "034" EmptyString.

Definition field (k v : string) : string := q +:+ k +:+ q +:+ ": " +:+ q +:+ v +:+ q.

Definition entry_json (e : Console) : string :=
  "{" +:+ field "vmid" (vmid e) +:+ ", " +:+ field "vm" (vm e) +:+ ", "
      +:+ field "host" (host e) +:+ ", " +:+ field "console" (console e) +:+ "}".

Definition alpha : Console := MkConsole "0001" "alpha" "host1.example" "alpha.sock".
Definition beta : Console := MkConsole "0002" "beta" "host2.example" "beta.sock".

(** The discovery output listing [alpha] and [beta]. *)
Definition listing : string :=
  "{" +:+ q +:+ "consoles" +:+ q +:+ ": [" +:+ entry_json alpha +:+ ", "
      +:+ entry_json beta +:+ "]}".

(** An installation whose discovery command exits with [rc] and prints
    [out]. *)
Definition env_with (rc : Z) (out : string) : env :=
  Env true (fun _ => (rc, out, EmptyString))
      ["/tmp/tmp0a1b2c3d"; "/tmp/tmp4e5f6a7b"] (Some 1024%nat)
      (fun user => if String.eqb user "ovirt-vmconsole" then Some 36%nat else None)
      36%nat None config "usage: ..." "ovirt-vmconsole" "/etc/pki/ovirt-vmconsole"
      36%nat 36%nat 36%nat [] (fun _ _ => inl (ValueError "Invalid format specifier"))
      ("usage: ...", EmptyString) (EmptyString, "usage: ...")
      "argv=[] SSH_ORIGINAL_COMMAND=None" "ovirt-vmconsole" "1.0.9" "1".

Definition installation : env := env_with 0 listing.

Definition files : gmap string file :=
  <["/bin/sh" := File EmptyString 493 0 0]>
    (<["/etc/pki/ovirt-vmconsole/ca.pub" := File ("ssh-rsa AAAAB3Nza ca" +:+ nl) 420 0 0]> ∅).

Definition terminal : gmap nat string :=
  <[0%nat := "/dev/pts/0"]> (<[1%nat := "/dev/pts/0"]> (<[2%nat := "/dev/pts/0"]> ∅)).

(** The world at the start of a session whose user will type [input]. *)
Definition session (input : list key) : world :=
  World input EmptyString EmptyString [] files 1000 42 40 terminal 43 64 [] [].

Definition accept : exn + ProxyShell.namespace :=
  inr (ProxyShell.NsAccept false "user-1" None).

Definition connect : exn + ProxyShell.userargs :=
  inr (ProxyShell.Connect false None None).

(** A session on a machine whose [ca.pub] holds two keys, one a
    line. *)
Definition two_keys : world :=
  World [] EmptyString EmptyString []
        (<["/etc/pki/ovirt-vmconsole/ca.pub"
           := File ("ssh-rsa AAAAB3Nza old" +:+ nl +:+ "ssh-rsa AAAAB3Nza new" +:+ nl)
                   420 0 0]> files)
        1000 42 40 terminal 43 64 [] [].

(** The sample installation with a cleanup delay below zero. *)
Definition hasty : env :=
  Env true (fun _ => (0, listing, EmptyString))
      ["/tmp/tmp0a1b2c3d"; "/tmp/tmp4e5f6a7b"] (Some 1024%nat)
      (fun user => if String.eqb user "ovirt-vmconsole" then Some 36%nat else None)
      36%nat None
      (fun s o => if String.eqb s "proxy" && String.eqb o "known_hosts_close_delay"
                  then inr "-5" else config s o)
      "usage: ..." "ovirt-vmconsole" "/etc/pki/ovirt-vmconsole"
      36%nat 36%nat 36%nat [] (fun _ _ => inl (ValueError "Invalid format specifier"))
      ("usage: ...", EmptyString) (EmptyString, "usage: ...")
      "argv=[] SSH_ORIGINAL_COMMAND=None" "ovirt-vmconsole" "1.0.9" "1".

(** A host where no console socket exists. *)
Definition host_session : world :=
  World [] EmptyString EmptyString [] files 1000 51 50 terminal 52 64 [] [].

(** The world once the trust anchor for [beta] has been written. *)
Definition anchored : world :=
  snd (ProxyShell.doConnect_known_hosts installation beta (session [])).

Definition anchor : file :=
  File "@cert-authority host2.example,ovirt-vmconsole-host ssh-rsa AAAAB3Nza ca" 384 36 36.

(** ... and once the cleanup has been started. *)
Definition cleaning : world :=
  snd (ProxyShell.doConnect_cleanup installation "/tmp/tmp0a1b2c3d" anchored).

(** A bridge with a buffer of four bytes, and some traffic: eleven bytes
    one way in one chunk, one byte the other way, then the end. *)
Definition bridge : SocketProxy.RelayConfig := SocketProxy.MkRelayConfig 60 4 false.

Definition hello : list Byte.byte :=
  [Byte.x68; Byte.x65; Byte.x6c; Byte.x6c; Byte.x6f; Byte.x20;
   Byte.x77; Byte.x6f; Byte.x72; Byte.x6c; Byte.x64].

Definition traffic : list SocketProxy.event :=
  [SocketProxy.Write SocketProxy.A hello; SocketProxy.Write SocketProxy.B [Byte.x0a];
   SocketProxy.Close SocketProxy.A].

End Sample.

(* ===================================================================== *)
(** * common/utils.py: the formatter of [setupLogger] *)
(* ===================================================================== *)

Module Logging.
Import Py.

(** [s.replace(old, new)]: every occurrence of [old], found from the
    left and without overlap, becomes [new].  [skip] counts the
    characters of an occurrence still to be passed over.  With an empty
    [old], [new] goes before every character and at the end. *)
Fixpoint replace_from (old new : string) (skip : nat) (s : string) : string :=
  match s with
  | EmptyString => EmptyString
  | String c r =>
      match skip with
      | S k => replace_from old new k r
      | O =>
          if String.prefix old s then new +:+ replace_from old new (String.length old - 1) r
          else String c (replace_from old new 0 r)
      end
  end.

Fixpoint interleave (new : string) (s : string) : string :=
  match s with
  | EmptyString => new
  | String c r => new +:+ String c (interleave new r)
  end.

Definition replace (old new : string) (s : string) : string :=
  match old with
  | EmptyString => interleave new s
  | _ => replace_from old new 0 s
  end.

Fixpoint ends_with_nl (s : string) : bool :=
  match s with
  | EmptyString => false
  | String c EmptyString => Ascii.eqb c NL
  | String _ r => ends_with_nl r
  end.

(** What a handler is given for one record: the message with its
    arguments filled in, and the text of the exception when the call
    asks for it ([exc_info=True]), as [traceback] prints it. *)
Record LogRecord : Type := MkLogRecord {
  asctime : string;
  levelname : string;
  message : string;
  exc_text : string
}.

(** [logging.Formatter.format(record)] for the format of lines 117-122,
    ['%(asctime)s {process}[{pid}]: %(levelname)s %(message)s'] with
    [process] and [pid] filled in by [str.format] (a process name is
    taken to hold no [%]): the formatted message, then the exception text
    on a line of its own. *)
Definition Formatter_format (process : string) (pid : nat) (record : LogRecord) : string :=
  let s := asctime record +:+ " " +:+ process +:+ "[" +:+ str_nat pid +:+ "]: "
           +:+ levelname record +:+ " " +:+ message record in
  if truthy_str (exc_text record) then
    (if ends_with_nl s then s else s +:+ nl) +:+ exc_text record
  else s.

(** [_MyFormatter.format] (lines 99-100). *)
Definition MyFormatter_format (process : string) (pid : nat) (record : LogRecord) : string :=
  replace nl " | " (Formatter_format process pid record).

End Logging.

(* ===================================================================== *)
(** * common/utils.py: [loadConfig] *)
(* ===================================================================== *)

From Stdlib Require OrdersEx.
From stdpp Require sorting.

Module LoadConfig.
Import Py Sys.

(** ** [glob.glob(os.path.join(location, '*.conf'))] *)

(** The characters that make [glob] read a path component as a
    pattern. *)
Fixpoint has_magic (s : string) : bool :=
  match s with
  | EmptyString => false
  | String c r => mem_ascii c ["*"; "?"; "["]%char || has_magic r
  end.

Fixpoint all_sep (s : string) : bool :=
  match s with
  | EmptyString => true
  | String c r => Ascii.eqb c "/" && all_sep r
  end.

(** The directory [glob] lists: the head of
    [os.path.split(os.path.join(location, '*.conf'))], that is
    [location] without its trailing separators, unless it is made of
    separators only.  [None] where the model stops: an empty [location]
    is the current directory, and a [location] with pattern characters is
    itself expanded. *)
Definition dirname (location : string) : option string :=
  if String.eqb location "" || has_magic location then None
  else if all_sep location then Some location
  else Some (rstrip ["/"%char] location).

Fixpoint ends_with (suffix s : string) : bool :=
  String.eqb s suffix
  || match s with
     | EmptyString => false
     | String _ r => ends_with suffix r
     end.

(** [fnmatch] against [*.conf], after [glob] has left out the hidden
    names. *)
Definition matches_conf (name : string) : bool :=
  negb (String.prefix "." name) && ends_with ".conf" name.

(** The name under which [path] is an entry of the directory [dir]. *)
Definition entry_name (dir path : string) : option string :=
  let d := if ends_with_sep dir then dir else dir +:+ "/" in
  if String.prefix d path then
    let name := String.substring (String.length d) (String.length path - String.length d) path in
    if String.eqb name "" || has_sep name then None else Some name
  else None.

(** The matching files of [dir], in no particular order.  (A directory
    whose name matches is listed by [glob] too; [read] then fails to
    open it and passes on, so it is left out here.) *)
Definition glob_conf (dir : string) (fs : gmap string file) : list string :=
  List.filter (fun path =>
                 match entry_name dir path with
                 | Some name => matches_conf name
                 | None => false
                 end)
              (map fst (map_to_list fs)).

(** ** [sorted] on strings: by code point, the shorter first *)

Definition str_le (a b : string) : Prop := String.leb a b = true.

#[global] Instance str_le_dec a b : Decision (str_le a b).
Proof. unfold str_le. apply bool_eq_dec. Defined.

Definition sorted (l : list string) : list string := sorting.merge_sort str_le l.

(** ** [ConfigParser.read] *)

(** What one file sets: section, option and value, in file order. *)
Definition items : Type := list (string * string * string).

(** The raw values read so far, by section and option. *)
Abbreviation table := (gmap (string * string) string).

Definition set_all (its : items) (t : table) : table :=
  fold_left (fun t '(s, o, v) => <[(s, o) := v]> t) its t.

Section Reading.

(** [RawConfigParser._read] on the text of one file, with
    [optionxform = str] (line 139: option names keep their case): what
    the file sets, or the error the text raises
    ([MissingSectionHeaderError], [DuplicateOptionError], ...). *)
Variable parse : string -> exn + items.

(** Who reads: the effective user and groups of the session. *)
Variable who : ids.
Variable fs : gmap string file.

(** [parser.read(filenames)]: every file in turn; one that cannot be
    opened is passed over ([except OSError: continue]), an error in a
    text ends the reading. *)
Fixpoint read (filenames : list string) (t : table) : exn + table :=
  match filenames with
  | [] => inr t
  | p :: rest =>
      match fs !! p with
      | Some f =>
          if readable who f then
            match parse (universal_newlines (f_data f)) with
            | inl e => inl e
            | inr its => read rest (set_all its t)
            end
          else read rest t
      | None => read rest t
      end
  end.

(** Lines 137-146. *)
Definition loadConfig (defaults location : string) : option (exn + table) :=
  match dirname location with
  | None => None
  | Some dir => Some (read ([defaults] ++ sorted (glob_conf dir fs)) ∅)
  end.


End Reading.

End LoadConfig.

(* ===================================================================== *)
(** * Vocabulary for what a computation leaves alone *)
(* ===================================================================== *)

Module Effects.
Import Py Sys.

(** The computation leaves the component [f] of the world as it found
    it, whatever its outcome. *)
Definition keeps {A B} (f : world -> B) (c : M A) : Prop :=
  forall w, f (snd (c w)) = f w.

(** It comes to an end: a result, an exception, or another program in
    its place. *)
Definition halts {A} (c : M A) : Prop :=
  forall w, fst (c w) <> Diverged.

(** It never completes normally. *)
Definition never_returns {A} (c : M A) : Prop :=
  forall w a, fst (c w) <> Ok a.

(** It never replaces the process. *)
Definition never_execs {A} (c : M A) : Prop :=
  forall w, fst (c w) <> Replaced.

(** An outcome the remote party is answerable for: a result that
    satisfies [good], a user-visible error, or a cancellation. *)
Definition answerable {A} (good : A -> Prop) (o : outcome A) : Prop :=
  match o with
  | Ok a => good a
  | Raise (UserVisibleRuntimeError _) | Raise UserExit | Raise KeyboardInterrupt => True
  | _ => False
  end.

(** From [w] to [w'] nothing was run, and nothing written to standard
    output but, at most, one of the texts [said]. *)
Definition turned_away (said : list (string * string)) (w w' : world) : Prop :=
  w_trace w' = w_trace w /\ w_fs w' = w_fs w /\ w_procs w' = w_procs w
  /\ (w_stdout w' = w_stdout w
      \/ exists s, In s said /\ w_stdout w' = w_stdout w +:+ fst s).

(** [n] copies of [s], one after the other. *)
Fixpoint times (n : nat) (s : string) : string :=
  match n with
  | O => EmptyString
  | S n' => s +:+ times n' s
  end.

(** Text made of decimal digits only. *)
Fixpoint digits_only (s : string) : bool :=
  match s with
  | EmptyString => true
  | String c r =>
      match digit_val c with
      | Some _ => digits_only r
      | None => false
      end
  end.

(** The file at [path] exists and the effective user may read it. *)
Definition can_read (E : env) (w : world) (path : string) : bool :=
  match w_fs w !! path with
  | Some f => readable (effective E) f
  | None => false
  end.

(** What reading the file at [path] gives; nothing when there is no
    such file. *)
Definition content (w : world) (path : string) : string :=
  match w_fs w !! path with
  | Some f => universal_newlines (f_data f)
  | None => EmptyString
  end.

(** The plain listing of [consoles]: id, tab, name, one per line. *)
Fixpoint listing (consoles : list Utils.Console) : string :=
  match consoles with
  | [] => EmptyString
  | e :: rest =>
      Utils.vmid e +:+ String (chr 9) (Utils.vm e) +:+ nl +:+ listing rest
  end.

(** Text in which the character [c] does not occur. *)
Fixpoint lacks (c : ascii) (s : string) : bool :=
  match s with
  | EmptyString => true
  | String x r => negb (Ascii.eqb x c) && lacks c r
  end.

(** Reading a plain listing back: each line is cut at its first tab. *)
Fixpoint until (stop : ascii) (s : string) : string * option string :=
  match s with
  | EmptyString => (EmptyString, None)
  | String c r =>
      if Ascii.eqb c stop then (EmptyString, Some r)
      else let '(a, b) := until stop r in (String c a, b)
  end.

Fixpoint read_lines (fuel : nat) (s : string) : list (string * string) :=
  match fuel with
  | O => []
  | S fuel' =>
      match until (chr 9) s with
      | (id, Some r) =>
          match until NL r with
          | (name, Some r') => (id, name) :: read_lines fuel' r'
          | (_, None) => []
          end
      | (_, None) => []
      end
  end.

Definition read_listing (s : string) : list (string * string) :=
  read_lines (String.length s) s.

(** The limit [simpleDaemon] closes descriptors up to. *)
Definition maxfd (E : env) : nat :=
  match e_rlimit_nofile E with
  | None => Utils.MAXFD
  | Some n => n
  end.

End Effects.

(* ===================================================================== *)
(** * More of the sample installation *)
(* ===================================================================== *)

Module Cases.
Import Py Sys Utils.
Import Sample.

(** The sample installation with one option of the proxy replaced. *)
Definition with_option (option value : string) : env :=
  Env true (fun _ => (0, listing, EmptyString))
      ["/tmp/tmp0a1b2c3d"; "/tmp/tmp4e5f6a7b"] (Some 1024%nat)
      (fun user => if String.eqb user "ovirt-vmconsole" then Some 36%nat else None)
      36%nat None
      (fun s o => if String.eqb s "proxy" && String.eqb o option then inr value
                  else config s o)
      "usage: ..." "ovirt-vmconsole" "/etc/pki/ovirt-vmconsole"
      36%nat 36%nat 36%nat [] (fun _ _ => inl (ValueError "Invalid format specifier"))
      ("usage: ...", EmptyString) (EmptyString, "usage: ...")
      "argv=[] SSH_ORIGINAL_COMMAND=None" "ovirt-vmconsole" "1.0.9" "1".

(** A cleanup delay that is no number. *)
Definition careless : env := with_option "known_hosts_close_delay" "soon".

(** The sample installation run by somebody else. *)
Definition intruder : env :=
  Env true (fun _ => (0, listing, EmptyString))
      ["/tmp/tmp0a1b2c3d"; "/tmp/tmp4e5f6a7b"] (Some 1024%nat)
      (fun user => if String.eqb user "ovirt-vmconsole" then Some 36%nat else None)
      1000%nat None config "usage: ..." "ovirt-vmconsole" "/etc/pki/ovirt-vmconsole"
      1000%nat 1000%nat 1000%nat [] (fun _ _ => inl (ValueError "Invalid format specifier"))
      ("usage: ...", EmptyString) (EmptyString, "usage: ...")
      "argv=[] SSH_ORIGINAL_COMMAND=None" "ovirt-vmconsole" "1.0.9" "1".

(** A session of [accept] for [user-1] that has its console list. *)
Definition selected : ProxyShell.self :=
  ProxyShell.Self (ProxyShell.Args false "user-1" "user-1")
                  (ProxyShell.Connect false None None) (Some [alpha]).

Definition listed : ProxyShell.self :=
  ProxyShell.Self (ProxyShell.Args false "user-1" "user-1")
                  (ProxyShell.List_ false "plain") (Some [alpha; beta]).

(** The world when the sample session has been handed over. *)
Definition handed_over : world :=
  snd (ProxyShell.doConnect installation selected None None (session [])).

(** A host with the console socket of [alpha], mode 0660, of another
    user and of the group of the session, and the certificates. *)
Definition host_files : gmap string file :=
  <["/var/run/ovirt-vmconsole-console/alpha.sock" := File EmptyString 432 107 36]>
    (<["/etc/pki/ovirt-vmconsole/host-ssh_host_rsa-cert.pub"
       := File ("ssh-rsa-cert-v01 AAAAHHNza host" +:+ nl) 420 0 0]>
       (<["/etc/pki/ovirt-vmconsole/proxy-ssh_host_rsa-cert.pub"
          := File ("ssh-rsa-cert-v01 AAAAPPNza proxy" +:+ nl) 420 0 0]> files)).

Definition host : world :=
  World [] EmptyString EmptyString [] host_files 1000 51 50 terminal 52 64 [] [].

(** The world once a cleanup has been started on the sample anchor. *)
Definition started : world :=
  snd (simpleDaemon installation (ProxyShell.delayedUnlink 5 "/tmp/tmp0a1b2c3d") anchored).

Definition unstarted : world :=
  snd (ProxyShell.doConnect_cleanup careless "/tmp/tmp0a1b2c3d" anchored).

(** A session on a machine where one more process can be created, and
    no more. *)
Definition crowded : world :=
  World [] EmptyString EmptyString [] files 1000 42 40 terminal 43 1 [] [].


(** Configuration files: the packaged defaults, two files of the
    site, a hidden file and a note. *)
Definition defaults : string :=
  "/usr/share/ovirt-vmconsole/ovirt-vmconsole-proxy/ovirt-vmconsole-proxy.conf".
Definition conf_d : string := "/etc/ovirt-vmconsole/ovirt-vmconsole-proxy/conf.d".

Definition conf_files : gmap string file :=
  <[defaults := File "False" 420 0 0]>
    (<[conf_d +:+ "/10-site.conf" := File "True" 420 0 0]>
       (<[conf_d +:+ "/20-local.conf" := File "False" 420 0 0]>
          (<[conf_d +:+ "/.20-local.conf.swp" := File "b0VIM" 420 0 0]>
             (<[conf_d +:+ "/README" := File "Put your settings here." 420 0 0]> ∅)))).

(** Who reads them: the session's user, a member of no other group. *)
Definition reader : ids := Ids 36 36 [].

(** A stand-in for the parser, for files that hold one value: the value
    of [debug] in the section [proxy]. *)
Definition one_value (text : string) : exn + LoadConfig.items :=
  inr [("proxy", "debug", text)].

End Cases.

(* ===================================================================== *)
(** * Facts about text *)
(* ===================================================================== *)

Module TextFacts.
Import Py.

Lemma append_assoc (a b c : string) : (a +:+ b) +:+ c = a +:+ (b +:+ c).
Proof.
induction a as [|x a IH]; [reflexivity|].
change (String x ((a +:+ b) +:+ c) = String x (a +:+ (b +:+ c))).
now rewrite IH.
Qed.

Lemma append_nil_r (a : string) : a +:+ "" = a.
Proof.
induction a as [|x a IH]; [reflexivity|].
change (String x (a +:+ "") = String x a).
now rewrite IH.
Qed.

Lemma length_append (a b : string) :
  String.length (a +:+ b) = (String.length a + String.length b)%nat.
Proof.
induction a as [|x a IH]; [reflexivity|].
change (S (String.length (a +:+ b)) = S (String.length a + String.length b)).
now rewrite IH.
Qed.

End TextFacts.

(* ===================================================================== *)
(** * The interactive menu *)
(* ===================================================================== *)

Module MenuFacts.
Import Py Sys Format Utils Menu TextFacts.

Lemma take_line_typed line rest :
  one_line line = true ->
  take_line (keys (line +:+ nl) ++ rest) = (Some (line +:+ nl), rest).
Proof.
  induction line as [|c r IH]; intros H.
  - reflexivity.
  - cbn [one_line] in H. apply andb_true_iff in H as [Hc Hr].
    apply negb_true_iff in Hc.
    change (take_line (Chr c :: (keys (r +:+ nl) ++ rest))
            = (Some (String c (r +:+ nl)), rest)).
    cbn [take_line]. rewrite Hc, (IH Hr). reflexivity.
Qed.

Lemma take_line_shorter ks l r :
  take_line ks = (Some l, r) -> l <> EmptyString -> (length r < length ks)%nat.
Proof.
  revert l r. induction ks as [|k ks IH]; intros l r H Hl; cbn in H.
  - injection H as <- <-. congruence.
  - destruct k as [c|]; [|discriminate].
    destruct (Ascii.eqb c NL).
    + injection H as <- <-. cbn. lia.
    + destruct (take_line ks) as [[l'|] r'] eqn:E; [|discriminate].
      injection H as <- <-.
      destruct ks as [|k' ks'].
      * cbn in E. injection E as <- <-. cbn. lia.
      * destruct (decide (l' = EmptyString)) as [->|Hne].
        -- cbn in E. destruct k'; [|discriminate].
           destruct (Ascii.eqb c0 NL); [discriminate|].
           destruct (take_line ks') as [[?|] ?]; discriminate.
        -- specialize (IH _ _ eq_refl Hne). cbn in *. lia.
Qed.

(** One turn of the loop, spelled out. *)
Lemma select_loop_S fuel m consoles w :
  select_loop (S fuel) m consoles w =
  match take_line (w_stdin w) with
  | (None, r) => (Raise KeyboardInterrupt, prompted m r w)
  | (Some l, r) =>
      if negb (truthy_str l) then
        (Raise (UserVisibleRuntimeError "EOF"), prompted m r w)
      else if String.eqb (rstrip [CR; NL] l) "exit" then
        (Raise UserExit, prompted m r w)
      else
        match Py.int (rstrip [CR; NL] l) with
        | Some i =>
            if (i <? 0) || (i >=? Z.of_nat (length consoles)) then
              select_loop fuel m consoles (refused m r w)
            else
              match consoles !! Z.to_nat i with
              | Some e => (Ok e, prompted m r w)
              | None => (Raise (IndexError "list index out of range"), prompted m r w)
              end
        | None => select_loop fuel m consoles (refused m r w)
        end
  end.
Proof.
  cbn [select_loop]. unfold bind, stdout_write, stdin_readline, prompted, refused.
  cbn [w_stdin with_stdout].
  destruct (take_line (w_stdin w)) as [[l|] r]; [|reflexivity].
  destruct (negb (truthy_str l)); [reflexivity|].
  destruct (String.eqb (rstrip [CR; NL] l) "exit"); [reflexivity|].
  destruct (Py.int (rstrip [CR; NL] l)) as [i|]; [|reflexivity].
  destruct ((i <? 0) || (i >=? Z.of_nat (length consoles))); [reflexivity|].
  destruct (consoles !! Z.to_nat i); reflexivity.
Qed.

Lemma truthy_str_nonempty l : negb (truthy_str l) = false -> l <> EmptyString.
Proof. intros H ->. discriminate. Qed.

(** Any fuel above the number of pending keys gives the same run. *)
Lemma select_loop_fuel m consoles f1 :
  forall f2 w,
    (length (w_stdin w) < f1)%nat -> (length (w_stdin w) < f2)%nat ->
    select_loop f1 m consoles w = select_loop f2 m consoles w.
Proof.
  induction f1 as [|f1 IH]; intros f2 w H1 H2; [lia|].
  destruct f2 as [|f2]; [lia|].
  rewrite !select_loop_S.
  destruct (take_line (w_stdin w)) as [[l|] r] eqn:E; [|reflexivity].
  destruct (negb (truthy_str l)) eqn:Hl; [reflexivity|].
  pose proof (take_line_shorter _ _ _ E (truthy_str_nonempty _ Hl)) as Hlen.
  assert (Hgo : select_loop f1 m consoles (refused m r w)
                = select_loop f2 m consoles (refused m r w)).
  { apply IH; cbn; lia. }
  destruct (String.eqb (rstrip [CR; NL] l) "exit"); [reflexivity|].
  destruct (Py.int (rstrip [CR; NL] l)) as [i|]; [|exact Hgo].
  destruct ((i <? 0) || (i >=? Z.of_nat (length consoles))); [exact Hgo|reflexivity].
Qed.

(** The loop never runs out of fuel. *)
Lemma select_loop_returns m consoles fuel :
  forall w, (length (w_stdin w) < fuel)%nat ->
            fst (select_loop fuel m consoles w) <> Diverged.
Proof.
  induction fuel as [|fuel IH]; intros w H; [lia|].
  rewrite select_loop_S.
  destruct (take_line (w_stdin w)) as [[l|] r] eqn:E; [|discriminate].
  destruct (negb (truthy_str l)) eqn:Hl; [discriminate|].
  pose proof (take_line_shorter _ _ _ E (truthy_str_nonempty _ Hl)) as Hlen.
  assert (Hgo : fst (select_loop fuel m consoles (refused m r w)) <> Diverged).
  { apply IH; cbn; lia. }
  destruct (String.eqb (rstrip [CR; NL] l) "exit"); [discriminate|].
  destruct (Py.int (rstrip [CR; NL] l)) as [i|]; [|exact Hgo].
  destruct ((i <? 0) || (i >=? Z.of_nat (length consoles))); [exact Hgo|].
  destruct (consoles !! Z.to_nat i); discriminate.
Qed.


Lemma format_entry_gen z a b :
  format menu_entry_template [("index", FInt z); ("vmid", FStr a); ("vm", FStr b)]
  = inr ((if z <? 0 then str_int z else format_02 (Z.to_nat z))
         +:+ " " +:+ b +:+ "[" +:+ a +:+ "]" +:+ nl).
Proof. reflexivity. Qed.

Lemma format_entry i e :
  format menu_entry_template
    [("index", FInt (Z.of_nat i)); ("vmid", FStr (vmid e)); ("vm", FStr (vm e))]
  = inr (format_02 i +:+ " " +:+ vm e +:+ "[" +:+ vmid e +:+ "]" +:+ nl).
Proof.
rewrite format_entry_gen.
destruct (Z.ltb_spec (Z.of_nat i) 0) as [?|_]; [lia|].
now rewrite Nat2Z.id.
Qed.

(** The menu lists the consoles in their order, numbered from 0. *)
Lemma menu_entries_numbered consoles :
  forall i menu, menu_entries i consoles menu = inr (menu +:+ numbered i consoles).
Proof.
induction consoles as [|e rest IH]; intros i menu.
- cbn [menu_entries numbered]. now rewrite append_nil_r.
- cbn [menu_entries numbered]. rewrite format_entry, IH.
  now rewrite !append_assoc.
Qed.

Lemma full_menu_prompt menu consoles :
  full_menu menu consoles = inr (prompt menu consoles).
Proof.
unfold full_menu, prompt. rewrite menu_entries_numbered.
now rewrite append_assoc.
Qed.

Lemma selectConsole_loop menu consoles w :
  selectConsole menu consoles w
  = select_loop (S (length (w_stdin w))) (prompt menu consoles) consoles w.
Proof.
unfold selectConsole. rewrite full_menu_prompt. reflexivity.
Qed.

Lemma length_keys s : length (keys s) = String.length s.
Proof. induction s as [|c s IH]; cbn; [reflexivity|]. now rewrite IH. Qed.

Lemma typed_line_truthy line : negb (truthy_str (line +:+ nl)) = false.
Proof. destruct line; reflexivity. Qed.

(** One turn on a typed line, whatever fuel is left. *)
Lemma turn_typed menu consoles line rest w :
  one_line line = true ->
  w_stdin w = keys (line +:+ nl) ++ rest ->
  selectConsole menu consoles w =
  if String.eqb (entered line) "exit" then
    (Raise UserExit, prompted (prompt menu consoles) rest w)
  else
    match Py.int (entered line) with
    | Some i =>
        if (i <? 0) || (i >=? Z.of_nat (length consoles)) then
          selectConsole menu consoles (refused (prompt menu consoles) rest w)
        else
          match consoles !! Z.to_nat i with
          | Some e => (Ok e, prompted (prompt menu consoles) rest w)
          | None => (Raise (IndexError "list index out of range"),
                     prompted (prompt menu consoles) rest w)
          end
    | None => selectConsole menu consoles (refused (prompt menu consoles) rest w)
    end.
Proof.
intros Hline Hin. set (m := prompt menu consoles).
assert (Hgo : select_loop (length (w_stdin w)) m consoles (refused m rest w)
              = selectConsole menu consoles (refused m rest w)).
{ rewrite selectConsole_loop. fold m.
  apply select_loop_fuel; cbn [refused prompted w_stdin with_stderr with_stdin].
  - rewrite Hin, length_app, length_keys, length_append. cbn. lia.
  - lia. }
rewrite selectConsole_loop, select_loop_S. fold m.
rewrite Hin, (take_line_typed _ _ Hline), typed_line_truthy.
fold (entered line).
destruct (String.eqb (entered line) "exit"); [reflexivity|].
destruct (Py.int (entered line)) as [i|]; [|rewrite <- Hin; exact Hgo].
destruct ((i <? 0) || (i >=? Z.of_nat (length consoles))); [rewrite <- Hin; exact Hgo|].
reflexivity.
Qed.

Lemma exit_not_chosen consoles line :
  entered line = "exit" -> chosen consoles line = None.
Proof. unfold chosen. intros ->. reflexivity. Qed.

Lemma chosen_in_range consoles line i :
  Py.int (entered line) = Some i -> 0 <= i < Z.of_nat (length consoles) ->
  exists e, consoles !! Z.to_nat i = Some e /\ chosen consoles line = Some e.
Proof.
intros Hi Hr. unfold chosen. rewrite Hi.
destruct (Z.ltb_spec i 0) as [?|_]; [lia|].
destruct (Z.geb_spec i (Z.of_nat (length consoles))) as [?|_]; [lia|].
destruct (lookup_lt_is_Some_2 consoles (Z.to_nat i)) as [e He]; [lia|].
exists e. now rewrite He.
Qed.

(** A line the menu accepts ends the loop with that entry. *)
Lemma turn_chosen menu consoles line rest w e :
  one_line line = true ->
  w_stdin w = keys (line +:+ nl) ++ rest ->
  chosen consoles line = Some e ->
  selectConsole menu consoles w = (Ok e, prompted (prompt menu consoles) rest w).
Proof.
intros Hline Hin Hc. rewrite (turn_typed _ _ _ _ _ Hline Hin).
destruct (String.eqb (entered line) "exit") eqn:Hx.
- apply String.eqb_eq in Hx. rewrite (exit_not_chosen _ _ Hx) in Hc. discriminate.
- unfold chosen in Hc. destruct (Py.int (entered line)) as [i|]; [|discriminate].
  destruct ((i <? 0) || (i >=? Z.of_nat (length consoles))); [discriminate|].
  now rewrite Hc.
Qed.

(** A line that is neither accepted nor [exit] is refused, and the loop
    starts over on what follows. *)
Lemma turn_refused menu consoles line rest w :
  one_line line = true ->
  w_stdin w = keys (line +:+ nl) ++ rest ->
  entered line <> "exit" ->
  chosen consoles line = None ->
  selectConsole menu consoles w
  = selectConsole menu consoles (refused (prompt menu consoles) rest w).
Proof.
intros Hline Hin Hx Hc. rewrite (turn_typed _ _ _ _ _ Hline Hin).
destruct (String.eqb (entered line) "exit") eqn:Hx'.
- apply String.eqb_eq in Hx'. contradiction.
- unfold chosen in Hc. destruct (Py.int (entered line)) as [i|]; [|reflexivity].
  destruct ((i <? 0) || (i >=? Z.of_nat (length consoles))) eqn:Hr; [reflexivity|].
  apply orb_false_iff in Hr as [H0 H1].
  apply Z.ltb_ge in H0. rewrite Z.geb_leb in H1. apply Z.leb_gt in H1.
  destruct (lookup_lt_is_Some_2 consoles (Z.to_nat i)) as [e He]; [lia|].
  rewrite He in Hc. discriminate.
Qed.

Lemma turns_refused menu consoles bad :
  forall rest w,
    Forall (fun l => one_line l = true /\ entered l <> "exit"
                     /\ chosen consoles l = None) bad ->
    w_stdin w = typed bad ++ rest ->
    selectConsole menu consoles w
    = selectConsole menu consoles (refused_all (prompt menu consoles) bad rest w).
Proof.
induction bad as [|l ls IH]; intros rest w Hbad Hin; [reflexivity|].
inversion Hbad as [|? ? (Hl & Hx & Hc) Hls]; subst.
cbn [typed] in Hin. rewrite <- app_assoc in Hin.
rewrite (turn_refused _ _ _ _ _ Hl Hin Hx Hc).
cbn [refused_all]. apply IH; [exact Hls|reflexivity].
Qed.

Lemma stdin_refused_all m bad :
  forall rest w, w_stdin w = typed bad ++ rest -> w_stdin (refused_all m bad rest w) = rest.
Proof.
induction bad as [|l ls IH]; intros rest w Hin; [exact Hin|].
cbn [refused_all]. apply IH. reflexivity.
Qed.

(** C4.  For every non-empty console list, a turn of the interactive
    selection loop on a typed line does one of four things: a line that
    parses as an integer [i] with [0 <= i < len(consoles)] returns
    [consoles[i]]; the line [exit] raises [UserExit], which is not the
    error class; any other line writes the invalid-selection message to
    standard error and prompts again on the rest of the input; and at end
    of input the loop raises the user-visible error [EOF].  There is no
    bound on the turns: after any number of refused lines an accepted one
    still returns its entry, and the loop always comes to one of these
    ends. *)
Theorem selectConsole_turns (menu : string) (consoles : list Console) :
  consoles <> [] ->
  (forall line rest w i,
      one_line line = true -> w_stdin w = keys (line +:+ nl) ++ rest ->
      Py.int (entered line) = Some i -> 0 <= i < Z.of_nat (length consoles) ->
      exists e, consoles !! Z.to_nat i = Some e
                /\ selectConsole menu consoles w
                   = (Ok e, prompted (prompt menu consoles) rest w))
  /\ (forall line rest w,
         one_line line = true -> w_stdin w = keys (line +:+ nl) ++ rest ->
         entered line <> "exit" -> chosen consoles line = None ->
         selectConsole menu consoles w
         = selectConsole menu consoles (refused (prompt menu consoles) rest w)
         /\ w_stderr (refused (prompt menu consoles) rest w)
            = w_stderr w +:+ "Invalid selection" +:+ nl)
  /\ (forall line rest w,
         one_line line = true -> w_stdin w = keys (line +:+ nl) ++ rest ->
         entered line = "exit" ->
         selectConsole menu consoles w
         = (Raise UserExit, prompted (prompt menu consoles) rest w))
  /\ UserExit <> UserVisibleRuntimeError "EOF"
  /\ (forall w,
         w_stdin w = [] ->
         selectConsole menu consoles w
         = (Raise (UserVisibleRuntimeError "EOF"), prompted (prompt menu consoles) [] w))
  /\ (forall bad line rest w e,
         Forall (fun l => one_line l = true /\ entered l <> "exit"
                          /\ chosen consoles l = None) bad ->
         one_line line = true -> chosen consoles line = Some e ->
         w_stdin w = typed bad ++ keys (line +:+ nl) ++ rest ->
         selectConsole menu consoles w
         = (Ok e, prompted (prompt menu consoles) rest
                    (refused_all (prompt menu consoles) bad
                                 (keys (line +:+ nl) ++ rest) w)))
  /\ (forall w, fst (selectConsole menu consoles w) <> Diverged).
Proof.
intros _.
split; [|split; [|split; [|split; [|split; [|split]]]]].
- intros line rest w i Hline Hin Hi Hr.
  destruct (chosen_in_range consoles line i Hi Hr) as (e & He & Hc).
  exists e. split; [exact He|]. exact (turn_chosen _ _ _ _ _ _ Hline Hin Hc).
- intros line rest w Hline Hin Hx Hc. split; [|reflexivity].
  now apply turn_refused with (line := line).
- intros line rest w Hline Hin Hx.
  rewrite (turn_typed _ _ _ _ _ Hline Hin), Hx. reflexivity.
- discriminate.
- intros w Hin. rewrite selectConsole_loop, select_loop_S, Hin. reflexivity.
- intros bad line rest w e Hbad Hline Hc Hin.
  rewrite (turns_refused _ _ _ _ _ Hbad Hin).
  apply turn_chosen with (line := line); [exact Hline| |exact Hc].
  now apply stdin_refused_all.
- intros w. rewrite selectConsole_loop. apply select_loop_returns. lia.
Qed.

End MenuFacts.

(* ===================================================================== *)
(** * Choosing the console ([doConnect], proxy shell) *)
(* ===================================================================== *)

Module SelectionFacts.
Import Py Sys Format Utils ProxyShell.

Lemma given_set o s : o = Some s -> s <> "" -> given o = Some s.
Proof.
intros -> Hs. unfold given, truthy_str.
destruct (String.eqb_spec s ""); [contradiction|reflexivity].
Qed.

Lemma given_unset o : truthy_opt o = false -> given o = None.
Proof.
unfold given, truthy_opt. destruct o as [s|]; [|reflexivity].
now intros ->.
Qed.

Lemma find_first {X} (p : X -> bool) pre e post :
  p e = true -> Forall (fun x => p x = false) pre ->
  List.find p (pre ++ e :: post) = Some e.
Proof.
intros He Hpre. induction Hpre as [|x pre Hx _ IH]; cbn.
- now rewrite He.
- now rewrite Hx.
Qed.

Lemma find_nothing {X} (p : X -> bool) l :
  Forall (fun x => p x = false) l -> List.find p l = None.
Proof.
intros H. induction H as [|x l Hx _ IH]; cbn; [reflexivity|]. now rewrite Hx.
Qed.

Lemma unavailable_id id :
  format (gettext "VM with id '{vmid}' is unavailable") [("vmid", FStr id)]
  = inr ("VM with id '" +:+ id +:+ "' is unavailable").
Proof. reflexivity. Qed.

Lemma unavailable_name name :
  format (gettext "VM with name '{vm}' is unavailable") [("vm", FStr name)]
  = inr ("VM with name '" +:+ name +:+ "' is unavailable").
Proof. reflexivity. Qed.

Lemma eqb_differs (a : string) {X} (f : X -> string) l :
  Forall (fun x => f x <> a) l -> Forall (fun x => String.eqb a (f x) = false) l.
Proof.
intros H. induction H as [|x l Hx _ IH]; constructor; [|exact IH].
apply String.eqb_neq. congruence.
Qed.

(** C2.  For every console list and criteria: when [vm_id] is given and
    not empty, whatever [vm_name] is, the selection returns the first
    entry whose [vmid] equals it, and raises the user-visible error
    "VM with id ... is unavailable" when no entry has it; when [vm_id] is
    not given and [vm_name] is, it returns the first entry whose [vm]
    equals it, and raises the user-visible error "VM with name ... is
    unavailable" when no entry has it.  Nothing else is touched. *)
Theorem select_by_id_or_name (E : env) (vm_id vm_name : option string)
        (consoles : list Console) (w : world) :
  (forall id,
      vm_id = Some id -> id <> "" ->
      (forall pre e post,
          consoles = pre ++ e :: post -> vmid e = id ->
          Forall (fun x => vmid x <> id) pre ->
          doConnect_select E vm_id vm_name consoles w = (Ok e, w))
      /\ (Forall (fun x => vmid x <> id) consoles ->
          doConnect_select E vm_id vm_name consoles w
          = (Raise (UserVisibleRuntimeError
                      ("VM with id '" +:+ id +:+ "' is unavailable")), w)))
  /\ (forall name,
         truthy_opt vm_id = false -> vm_name = Some name -> name <> "" ->
         (forall pre e post,
             consoles = pre ++ e :: post -> vm e = name ->
             Forall (fun x => vm x <> name) pre ->
             doConnect_select E vm_id vm_name consoles w = (Ok e, w))
         /\ (Forall (fun x => vm x <> name) consoles ->
             doConnect_select E vm_id vm_name consoles w
             = (Raise (UserVisibleRuntimeError
                         ("VM with name '" +:+ name +:+ "' is unavailable")), w))).
Proof.
split.
- intros id Hid Hne. unfold doConnect_select. rewrite (given_set _ _ Hid Hne).
  split.
  + intros pre e post -> He Hpre.
    rewrite (find_first (fun e => String.eqb id (vmid e))).
    * reflexivity.
    * apply String.eqb_eq. congruence.
    * now apply eqb_differs.
  + intros Hno. rewrite find_nothing; [|now apply eqb_differs].
    rewrite unavailable_id. reflexivity.
- intros name Hid Hname Hne. unfold doConnect_select.
  rewrite (given_unset _ Hid), (given_set _ _ Hname Hne).
  split.
  + intros pre e post -> He Hpre.
    rewrite (find_first (fun e => String.eqb name (vm e))).
    * reflexivity.
    * apply String.eqb_eq. congruence.
    * now apply eqb_differs.
  + intros Hno. rewrite find_nothing; [|now apply eqb_differs].
    rewrite unavailable_name. reflexivity.
Qed.

(** C3.  For every connect with neither [vm_id] nor [vm_name] given: on
    an empty console list the selection, and with it [doConnect], raises
    the user-visible error "No available running VMs"; on a list of
    exactly one entry that entry is selected with no prompt, nothing
    being written or read, and [doConnect] goes straight on to the trust
    anchor for it. *)
Theorem select_without_criteria (E : env) (vm_id vm_name : option string) (w : world) :
  truthy_opt vm_id = false -> truthy_opt vm_name = false ->
  doConnect_select E vm_id vm_name [] w
  = (Raise (UserVisibleRuntimeError "No available running VMs"), w)
  /\ (forall s, e_isatty E = true -> _consoles s = Some [] ->
                doConnect E s vm_id vm_name w
                = (Raise (UserVisibleRuntimeError "No available running VMs"), w))
  /\ (forall e, doConnect_select E vm_id vm_name [e] w = (Ok e, w))
  /\ (forall s e, e_isatty E = true -> _consoles s = Some [e] ->
                  doConnect E s vm_id vm_name w
                  = bind (doConnect_known_hosts E e)
                         (fun known_hosts =>
                            bind (doConnect_cleanup E known_hosts)
                                 (fun _ => doConnect_attach E s e known_hosts)) w).
Proof.
intros Hid Hname.
assert (Hsel : forall cs, doConnect_select E vm_id vm_name cs w
               = match cs with
                 | [] => (Raise (UserVisibleRuntimeError "No available running VMs"), w)
                 | [e] => (Ok e, w)
                 | _ => doConnect_select E vm_id vm_name cs w
                 end).
{ intros cs. unfold doConnect_select.
  rewrite (given_unset _ Hid), (given_unset _ Hname).
  destruct cs as [|e [|e' cs]]; reflexivity. }
split; [exact (Hsel [])|]. split; [|split; [exact (fun e => Hsel [e])|]].
- intros s Htty Hcs. unfold doConnect. rewrite Htty, Hcs.
  unfold bind at 1 2. cbn [ret]. unfold bind at 1. now rewrite (Hsel []).
- intros s e Htty Hcs. unfold doConnect. rewrite Htty, Hcs.
  unfold bind at 1 2. cbn [ret]. unfold bind at 1. now rewrite (Hsel [e]).
Qed.

End SelectionFacts.

(* ===================================================================== *)
(** * Discovery: [executeJson] and how a session reports its failures *)
(* ===================================================================== *)

Module DiscoveryFacts.
Import Py Sys Format Utils Discovery TextFacts.

Lemma format_execution_failed what rc :
  format (gettext "{what} execution failed rc={rc}") [("what", FStr what); ("rc", FInt rc)]
  = inr (what +:+ " execution failed rc=" +:+ str_int rc).
Proof.
change (@inr exn string (what +:+ " execution failed rc=" +:+ (str_int rc +:+ ""))
        = inr (what +:+ " execution failed rc=" +:+ str_int rc)).
now rewrite append_nil_r.
Qed.

Lemma format_malformed what :
  format (gettext "{what} malformed output") [("what", FStr what)]
  = inr (what +:+ " malformed output").
Proof. reflexivity. Qed.

(** [executeJson], case by case. *)
Lemma executeJson_cases E what command w rc out err :
  e_popen E command = (rc, out, err) ->
  executeJson E what command w =
  if negb (rc =? 0) then
    (Raise (RuntimeError (what +:+ " execution failed rc=" +:+ str_int rc)),
     noted DEBUG (what +:+ " execution failed: rc=" +:+ str_int rc +:+ " stdout=" +:+ err)
           (ran command w))
  else
    match Json.loads out with
    | inl e => (Raise e, ran command w)
    | inr v =>
        if Json.truthy v then (Ok v, ran command w)
        else (Raise (RuntimeError (what +:+ " malformed output")),
              noted DEBUG ("stdout: " +:+ out) (ran command w))
    end.
Proof.
intros Hp. unfold executeJson, bind at 1 2. cbn [logger emit]. rewrite Hp.
destruct (negb (rc =? 0)).
- unfold bind at 1 2. cbn [logger]. now rewrite format_execution_failed.
- unfold bind at 1. destruct (Json.loads out) as [e|v]; [reflexivity|].
  cbn [lift ret]. destruct (Json.truthy v); [reflexivity|].
  cbn [negb]. unfold bind at 1 2. cbn [logger]. now rewrite format_malformed.
Qed.


Lemma loads_error out e : Json.loads out = inl e -> decode_error e = true.
Proof.
unfold Json.loads. destruct (Json.decode out) as [d|v]; [|discriminate].
intros [= <-]. now destruct d.
Qed.

Lemma loads_empty : Json.loads "" = inl (JSONDecodeError "Expecting value").
Proof. reflexivity. Qed.

Lemma decode_error_internal e : decode_error e = true -> internal e = true.
Proof. now destruct e. Qed.

Lemma format_error_line m :
  format (gettext ("ERROR: {error}" +:+ nl)) [("error", FStr m)]
  = inr ("ERROR: " +:+ m +:+ nl).
Proof. reflexivity. Qed.

(** What the handlers of the proxy's [main] do with each outcome. *)
Lemma proxy_main_handlers E argv cmd w :
  ProxyShell.main E argv cmd w =
  match ProxyShell.main_try E argv cmd w with
  | (Ok _, w') => (Ok 0, w')
  | (Raise e, w') =>
      match e with
      | UserExit | KeyboardInterrupt => (Ok 1, w')
      | UserVisibleRuntimeError m => (Ok 1, reported_visible m w')
      | _ => if is_Exception e then (Ok 1, reported_internal e w') else (Raise e, w')
      end
  | (Replaced, w') => (Replaced, w')
  | (Diverged, w') => (Diverged, w')
  end.
Proof.
unfold ProxyShell.main.
destruct (ProxyShell.main_try E argv cmd w) as [[[]|e| |] w']; reflexivity.
Qed.

(** What the handlers of the host's [main] do with each outcome. *)
Lemma host_main_handlers E cmd traffic w :
  HostShell.main E cmd traffic w =
  match HostShell.main_try E cmd traffic w with
  | (Ok _, w') => (Ok 0, w')
  | (Raise e, w') =>
      match e with
      | UserVisibleRuntimeError m => (Ok 1, reported_visible m w')
      | _ => if is_Exception e then (Ok 1, reported_internal e w') else (Raise e, w')
      end
  | (Replaced, w') => (Replaced, w')
  | (Diverged, w') => (Diverged, w')
  end.
Proof.
unfold HostShell.main.
destruct (HostShell.main_try E cmd traffic w) as [[[]|e| |] w']; reflexivity.
Qed.

Lemma proxy_main_internal E argv cmd w e w' :
  ProxyShell.main_try E argv cmd w = (Raise e, w') -> internal e = true ->
  ProxyShell.main E argv cmd w = (Ok 1, reported_internal e w').
Proof.
intros H He. rewrite proxy_main_handlers, H. now destruct e.
Qed.

(** A session that gets as far as discovery is [doAccept] from there on. *)
Lemma main_try_discovering E argv cmd a u command w :
  discovering E argv cmd a u command ->
  ProxyShell.main_try E argv cmd w =
  bind (executeJson E (gettext "Console list") command)
       (fun out =>
          bind (lift (Validate.console_list out))
               (fun consoles =>
                  ProxyShell.userargs_func E (ProxyShell.Self a u (Some consoles))))
       (announced (ProxyShell.version_record E) E w).
Proof.
intros [Hload (d & id & ent & -> & ->) -> (b & Hb) Huser (tpl & Htpl & Hcmd)].
unfold ProxyShell.main_try. rewrite Hload.
unfold bind at 1. cbn [ret].
unfold bind at 1. unfold ProxyShell.parse_args at 1. unfold bind at 1.
cbn [ArgumentParser.parse_args lift ret].
unfold bind at 1. cbn [ArgumentParser.parse_args lift ret].
unfold bind at 1. rewrite Hb.
unfold bind at 1. cbn [logger].
unfold bind at 1. cbn [logger].
change (with_syslog _ (with_syslog _ w)) with (announced (ProxyShell.version_record E) E w).
set (w0 := announced (ProxyShell.version_record E) E w).
unfold bind at 1. unfold ProxyShell.validations at 1. rewrite Huser, Nat.eqb_refl. cbn [negb ret].
unfold bind at 1. unfold ProxyShell.doAccept at 1.
unfold bind at 1. unfold ConfigParser.get at 1. rewrite Htpl. cbn [lift ret].
unfold bind at 1. cbn [ProxyShell._args ProxyShell.entityid] in *. rewrite Hcmd. cbn [lift ret].
unfold bind.
destruct (executeJson E (gettext "Console list") command w0) as [[out|e| |] w1];
  try reflexivity.
destruct (lift (Validate.console_list out) w1) as [[cs|e| |] w2]; reflexivity.
Qed.


Lemma messages_differ what rc :
  what +:+ " malformed output" <> what +:+ " execution failed rc=" +:+ str_int rc.
Proof.
intros H. apply (inj (String.append what)) in H. discriminate.
Qed.

(** Whatever [executeJson] raises is an internal error for [main]. *)
Lemma executeJson_raises_internal E what command w e :
  fst (executeJson E what command w) = Raise e -> internal e = true.
Proof.
destruct (e_popen E command) as [[rc out] err] eqn:Hp.
rewrite (executeJson_cases _ _ _ _ _ _ _ Hp).
destruct (negb (rc =? 0)); [now intros [= <-]|].
destruct (Json.loads out) as [e'|v] eqn:Hl.
- intros [= <-]. apply decode_error_internal. exact (loads_error _ _ Hl).
- destruct (Json.truthy v); [discriminate|]. now intros [= <-].
Qed.

(** [executeJson] writes nothing to the standard streams. *)
Lemma executeJson_streams E what command w :
  w_stderr (snd (executeJson E what command w)) = w_stderr w
  /\ w_stdout (snd (executeJson E what command w)) = w_stdout w.
Proof.
destruct (e_popen E command) as [[rc out] err] eqn:Hp.
rewrite (executeJson_cases _ _ _ _ _ _ _ Hp).
destruct (negb (rc =? 0)); [now split|].
destruct (Json.loads out) as [e'|v]; [now split|].
destruct (Json.truthy v); now split.
Qed.

(** What [executeJson] ends with does not depend on the world. *)
Lemma executeJson_outcome E what command w w' :
  fst (executeJson E what command w) = fst (executeJson E what command w').
Proof.
destruct (e_popen E command) as [[rc out] err] eqn:Hp.
rewrite !(executeJson_cases _ _ _ _ _ _ _ Hp).
destruct (negb (rc =? 0)); [reflexivity|].
destruct (Json.loads out) as [e'|v]; [reflexivity|].
destruct (Json.truthy v); reflexivity.
Qed.

(** C6, as the code has it.  The execution-failure error is raised
    exactly when the external command exits non-zero.  When it exits with
    zero, output that is empty or not a JSON document makes [json.loads]
    raise, and that error propagates ([JSONDecodeError] for the empty
    output), not the malformed-output error; output that parses is
    refused with the malformed-output error exactly when the parsed value
    is falsy.  In each of these cases a session that had come as far as
    discovery ends with status 1, and all the remote party is shown is
    the generic internal-error line. *)
Theorem discovery_failures (E : env) (what command : string) (w : world)
        (rc : Z) (out err : string) :
  e_popen E command = (rc, out, err) ->
  (rc <> 0 <->
   fst (executeJson E what command w)
   = Raise (RuntimeError (what +:+ " execution failed rc=" +:+ str_int rc)))
  /\ (rc = 0 -> forall e,
         Json.loads out = inl e ->
         fst (executeJson E what command w) = Raise e /\ decode_error e = true)
  /\ (rc = 0 -> out = "" ->
      fst (executeJson E what command w) = Raise (JSONDecodeError "Expecting value"))
  /\ (rc = 0 -> forall v,
         Json.loads out = inr v ->
         (Json.truthy v = false <->
          fst (executeJson E what command w)
          = Raise (RuntimeError (what +:+ " malformed output"))))
  /\ (forall argv cmd a u e,
         what = gettext "Console list" ->
         discovering E argv cmd a u command ->
         fst (executeJson E what command w) = Raise e ->
         fst (ProxyShell.main E argv cmd w) = Ok 1
         /\ w_stderr (snd (ProxyShell.main E argv cmd w))
            = w_stderr w +:+ "ERROR: Internal error" +:+ nl
         /\ w_stdout (snd (ProxyShell.main E argv cmd w)) = w_stdout w).
Proof.
intros Hp. pose proof (executeJson_cases E what command w _ _ _ Hp) as Hc.
split; [|split; [|split; [|split]]].
- rewrite Hc. split.
  + intros Hrc. destruct (Z.eqb_spec rc 0) as [?|_]; [contradiction|reflexivity].
  + intros H ->. cbn [negb Z.eqb] in H.
    destruct (Json.loads out) as [e'|v] eqn:Hl.
    * injection H as ->. now pose proof (loads_error _ _ Hl).
    * destruct (Json.truthy v); [discriminate|].
      injection H as H. now apply messages_differ in H.
- intros -> e Hl. rewrite Hc, Hl. split; [reflexivity|]. exact (loads_error _ _ Hl).
- intros -> ->. rewrite Hc. reflexivity.
- intros -> v Hl. rewrite Hc, Hl. cbn [negb Z.eqb].
  destruct (Json.truthy v); split; try reflexivity; discriminate.
- intros argv cmd a u e -> Hd He.
  pose proof (executeJson_raises_internal _ _ _ _ _ He) as Hint.
  set (w0 := announced (ProxyShell.version_record E) E w).
  rewrite (executeJson_outcome _ _ _ w w0) in He.
  pose proof (executeJson_streams E (gettext "Console list") command w0) as [Herr Hout].
  assert (Htry : ProxyShell.main_try E argv cmd w
                 = (Raise e, snd (executeJson E (gettext "Console list") command w0))).
  { rewrite (main_try_discovering _ _ _ _ _ _ _ Hd). unfold bind at 1. fold w0.
    destruct (executeJson E (gettext "Console list") command w0) as [r w1].
    cbn [fst snd] in *. now subst r. }
  rewrite (proxy_main_internal _ _ _ _ _ _ Htry Hint).
  cbn [fst snd]. unfold reported_internal, noted.
  cbn [w_stderr w_stdout with_stderr with_syslog]. rewrite Herr, Hout.
  repeat split.
Qed.

(** C10.  Whenever the command exits with zero and its output parses, the
    only check before returning is the truthiness of the parsed value: a
    falsy value, although valid JSON, is refused with the
    malformed-output error, and a truthy one is returned as it is.  The
    empty object, the empty array, [null], [false] and [0] are such
    documents. *)
Theorem executeJson_truthiness (E : env) (what command : string) (w : world)
        (out err : string) (v : Json.value) :
  e_popen E command = (0, out, err) ->
  Json.loads out = inr v ->
  (Json.truthy v = false ->
   fst (executeJson E what command w)
   = Raise (RuntimeError (what +:+ " malformed output")))
  /\ (Json.truthy v = true -> fst (executeJson E what command w) = Ok v)
  /\ (Json.loads "{}" = inr (Json.Obj []) /\ Json.truthy (Json.Obj []) = false)
  /\ (Json.loads "[]" = inr (Json.Arr []) /\ Json.truthy (Json.Arr []) = false)
  /\ (Json.loads "null" = inr Json.Null /\ Json.truthy Json.Null = false)
  /\ (Json.loads "false" = inr (Json.Bool false) /\ Json.truthy (Json.Bool false) = false)
  /\ (Json.loads "0" = inr (Json.Int 0) /\ Json.truthy (Json.Int 0) = false).
Proof.
intros Hp Hl. rewrite (executeJson_cases _ _ _ _ _ _ _ Hp), Hl. cbn [negb Z.eqb].
split; [now intros ->|]. split; [now intros ->|].
repeat split; reflexivity.
Qed.

End DiscoveryFacts.

(* ===================================================================== *)
(** * The exit status of [Main.main] *)
(* ===================================================================== *)

Module MainFacts.
Import Py Sys Format Utils Discovery DiscoveryFacts.

(** C1, as the code has it.  In both shells [Main.main] returns 0 exactly
    when the body of its [try] runs to the end, and 1 when the body
    raises any [Exception]: a user-visible error is shown as it is, any
    other only as the generic internal-error line.  In the proxy shell a
    user cancellation, [UserExit] or [KeyboardInterrupt], is silent, the
    world is left as it was when the exception came, but the status is 1.
    The host shell has no clause for either: there [UserExit] is an
    internal error and [KeyboardInterrupt] leaves [main], as [SystemExit]
    leaves both. *)
Theorem main_exit_status (E : env) (argv : exn + ProxyShell.namespace)
        (cmd : exn + ProxyShell.userargs) (hcmd : exn + HostShell.args)
        (traffic : list SocketProxy.event) (w : world) :
  (forall w', ProxyShell.main_try E argv cmd w = (Ok tt, w')
              <-> ProxyShell.main E argv cmd w = (Ok 0, w'))
  /\ (forall e w', ProxyShell.main_try E argv cmd w = (Raise e, w') ->
                   e = UserExit \/ e = KeyboardInterrupt ->
                   ProxyShell.main E argv cmd w = (Ok 1, w'))
  /\ (forall m w', ProxyShell.main_try E argv cmd w
                   = (Raise (UserVisibleRuntimeError m), w') ->
                   ProxyShell.main E argv cmd w = (Ok 1, reported_visible m w'))
  /\ (forall e w', ProxyShell.main_try E argv cmd w = (Raise e, w') ->
                   internal e = true ->
                   ProxyShell.main E argv cmd w = (Ok 1, reported_internal e w'))
  /\ (forall c w', ProxyShell.main_try E argv cmd w = (Raise (SystemExit c), w') ->
                   ProxyShell.main E argv cmd w = (Raise (SystemExit c), w'))
  /\ (forall w', HostShell.main_try E hcmd traffic w = (Ok tt, w')
                 <-> HostShell.main E hcmd traffic w = (Ok 0, w'))
  /\ (forall m w', HostShell.main_try E hcmd traffic w
                   = (Raise (UserVisibleRuntimeError m), w') ->
                   HostShell.main E hcmd traffic w = (Ok 1, reported_visible m w'))
  /\ (forall e w', HostShell.main_try E hcmd traffic w = (Raise e, w') ->
                   internal e = true \/ e = UserExit ->
                   HostShell.main E hcmd traffic w = (Ok 1, reported_internal e w'))
  /\ (forall e w', HostShell.main_try E hcmd traffic w = (Raise e, w') ->
                   is_Exception e = false ->
                   HostShell.main E hcmd traffic w = (Raise e, w')).
Proof.
rewrite proxy_main_handlers, host_main_handlers.
split; [|split; [|split; [|split; [|split; [|split; [|split; [|split]]]]]]].
- intros w'. split; [now intros ->|].
  destruct (ProxyShell.main_try E argv cmd w) as [[[]|e| |] w1]; try discriminate.
  + now intros [= ->].
  + destruct e; cbn [is_Exception]; discriminate.
- intros e w' -> [-> | ->]; reflexivity.
- now intros m w' ->.
- intros e w' -> He. destruct e; try discriminate He; reflexivity.
- now intros c w' ->.
- intros w'. split; [now intros ->|].
  destruct (HostShell.main_try E hcmd traffic w) as [[[]|e| |] w1]; try discriminate.
  + now intros [= ->].
  + destruct e; cbn [is_Exception]; discriminate.
- now intros m w' ->.
- intros e w' -> [He | ->]; [|reflexivity].
  destruct e; try discriminate He; reflexivity.
- intros e w' -> He. destruct e; try discriminate He; reflexivity.
Qed.

End MainFacts.

(* ===================================================================== *)
(** * The console name (host shell) *)
(* ===================================================================== *)

Module HostFacts.
Import Py Sys Format Utils ConfigParser HostShell.

Lemma basename_no_sep p : has_sep (basename p) = false.
Proof.
induction p as [|c r IH]; [reflexivity|].
cbn [basename]. destruct (has_sep r) eqn:Hr; [exact IH|].
destruct (Ascii.eqb c "/") eqn:Hc; [exact Hr|].
cbn [has_sep]. now rewrite Hc, Hr.
Qed.

Lemma basename_id p : has_sep p = false -> basename p = p.
Proof.
destruct p as [|c r]; [reflexivity|].
cbn [has_sep basename]. intros H. apply orb_false_iff in H as [Hc Hr].
now rewrite Hr, Hc.
Qed.

(** The check of line 98 passes exactly for the names without ["/"]. *)
Lemma bare_name_check name :
  String.eqb (basename name) name = negb (has_sep name).
Proof.
destruct (has_sep name) eqn:H.
- apply String.eqb_neq. intros Heq.
  pose proof (basename_no_sep name) as Hb. rewrite Heq in Hb. congruence.
- apply String.eqb_eq. now apply basename_id.
Qed.

(** A name that holds a path separator is refused before anything is
    looked up. *)
Lemma separator_rejected E entityid entity name traffic w :
  e_isatty E = true -> has_sep name = true ->
  doConnect E entityid entity name traffic w
  = (Raise (UserVisibleRuntimeError "Invalid console name"), w).
Proof.
intros Htty Hsep. unfold doConnect, doConnect_socket.
rewrite Htty, bare_name_check, Hsep. reflexivity.
Qed.

Lemma not_available name :
  format (gettext "Console '{console}' is not available") [("console", FStr name)]
  = inr ("Console '" +:+ name +:+ "' is not available").
Proof. reflexivity. Qed.

(** What [doConnect_socket] does with a name that passes the check. *)
Lemma socket_probed E name w dir :
  has_sep name = false ->
  e_config E "host" "consoledir" = inr dir ->
  exists r w',
    doConnect_socket E name w = (r, w')
    /\ (r = Ok (path_join dir name)
        \/ r = Raise (UserVisibleRuntimeError ("Console '" +:+ name +:+ "' is not available")))
    /\ w_trace w'
       = w_trace w ++ [SysAccess (path_join dir name) F_OK;
                       SysAccess (path_join dir name) (N.lor F_OK (N.lor R_OK W_OK))].
Proof.
intros Hsep Hdir.
unfold doConnect_socket. rewrite bare_name_check, Hsep.
unfold bind at 1. cbn [negb ret].
unfold bind at 1. unfold get at 1. rewrite Hdir. cbn [lift ret].
set (p := path_join dir name).
unfold bind at 1. cbn [logger].
unfold bind at 1. unfold os_access at 1.
set (found := match w_fs _ !! p with Some _ => _ | None => false end).
unfold bind at 1.
assert (Hlog : exists w1,
           (if negb found then logger DEBUG "exists" else ret tt)
             (with_trace
                (w_trace (with_syslog (w_syslog w ++ [(DEBUG, "socket: " +:+ p)]) w)
                 ++ [SysAccess p F_OK])
                (with_syslog (w_syslog w ++ [(DEBUG, "socket: " +:+ p)]) w))
           = (Ok tt, w1)
           /\ w_trace w1 = w_trace w ++ [SysAccess p F_OK]).
{ destruct (negb found); eexists; split; reflexivity. }
destruct Hlog as (w1 & -> & Ht1).
unfold bind at 1. unfold os_access at 1.
set (usable := match w_fs _ !! p with Some _ => _ | None => false end).
unfold bind at 1.
clearbody usable found p.
destruct (negb usable).
- unfold bind at 1. rewrite not_available. cbn [lift ret raise].
  eexists _, _. split; [reflexivity|]. split; [now right|].
  cbn [w_trace with_trace]. now rewrite Ht1, <- app_assoc.
- cbn [ret].
  eexists _, _. split; [reflexivity|]. split; [now left|].
  cbn [w_trace with_trace]. now rewrite Ht1, <- app_assoc.
Qed.

(** C5 at the name [..]: the check of line 98 lets it through, since it
    holds no separator.  [doConnect] resolves it against the console
    directory, to the directory above it, and probes that path with
    [os.access] twice; the outcome is that path, or the error that the
    console is not available.  It is never refused as an invalid console
    name. *)
Theorem parent_directory_name_accepted (E : env) (w : world) (dir : string) :
  e_config E "host" "consoledir" = inr dir ->
  basename ".." = ".."
  /\ (fst (doConnect_socket E ".." w) = Ok (path_join dir "..")
      \/ fst (doConnect_socket E ".." w)
         = Raise (UserVisibleRuntimeError "Console '..' is not available"))
  /\ fst (doConnect_socket E ".." w)
     <> Raise (UserVisibleRuntimeError "Invalid console name")
  /\ w_trace (snd (doConnect_socket E ".." w))
     = w_trace w ++ [SysAccess (path_join dir "..") F_OK;
                     SysAccess (path_join dir "..") (N.lor F_OK (N.lor R_OK W_OK))].
Proof.
intros Hdir. split; [reflexivity|].
destruct (socket_probed E ".." w dir eq_refl Hdir) as (r & w' & -> & Hr & Ht).
cbn [fst snd]. split; [exact Hr|]. split; [|exact Ht].
destruct Hr as [-> | ->]; discriminate.
Qed.

End HostFacts.

(* ===================================================================== *)
(** * The trust anchor (proxy shell) *)
(* ===================================================================== *)

Module AnchorFacts.
Import Py Sys Format Utils ConfigParser ProxyShell Text TextFacts.

(** A computation that ends normally went through both of its halves. *)
Lemma bind_ok {A B} (c : M A) (k : A -> M B) w b w' :
  bind c k w = (Ok b, w') ->
  exists a w1, c w = (Ok a, w1) /\ k a w1 = (Ok b, w').
Proof.
unfold bind. destruct (c w) as [[a|e| |] w1]; try discriminate.
intros H. now exists a, w1.
Qed.

Lemma first_free_fresh names fs name :
  first_free names fs = Some name -> fs !! name = None.
Proof.
induction names as [|n rest IH]; [discriminate|].
cbn [first_free]. destruct (fs !! n) eqn:Hn; [exact IH|].
now intros [= <-].
Qed.

Lemma format_known_hosts h a k :
  format known_hosts_template [("host", FStr h); ("alias", FStr a); ("key", FStr k)]
  = inr ("@cert-authority " +:+ h +:+ "," +:+ a +:+ " " +:+ k).
Proof.
change (@inr exn string ("@cert-authority " +:+ h +:+ "," +:+ a +:+ " " +:+ (k +:+ ""))
        = inr ("@cert-authority " +:+ h +:+ "," +:+ a +:+ " " +:+ k)).
now rewrite append_nil_r.
Qed.

Lemma one_line_append a b : one_line (a +:+ b) = one_line a && one_line b.
Proof.
induction a as [|c a IH]; [reflexivity|].
change (negb (Ascii.eqb c NL) && one_line (a +:+ b)
        = negb (Ascii.eqb c NL) && one_line a && one_line b).
now rewrite IH, andb_assoc.
Qed.

Lemma one_line_anchor h a k :
  one_line ("@cert-authority " +:+ h +:+ "," +:+ a +:+ " " +:+ k)
  = one_line h && one_line a && one_line k.
Proof.
rewrite !one_line_append.
change (one_line "@cert-authority ") with true.
change (one_line ",") with true. change (one_line " ") with true.
cbn [andb]. now rewrite andb_assoc.
Qed.

(** Text without carriage return reads as it is. *)
Lemma universal_newlines_plain s : contains CR s = false -> universal_newlines s = s.
Proof.
induction s as [|c s IH]; [reflexivity|].
cbn [contains universal_newlines]. intros H. apply orb_false_iff in H as [Hc Hs].
rewrite Hc. now rewrite IH.
Qed.

(** One line and its line feed, stripped, is the line. *)
Lemma rstrip_line k : one_line k = true -> rstrip [NL] (k +:+ nl) = k.
Proof.
induction k as [|c k IH]; [reflexivity|].
cbn [one_line]. intros H. apply andb_true_iff in H as [Hc Hk].
change (String c k +:+ nl) with (String c (k +:+ nl)). cbn [rstrip].
rewrite (IH Hk). destruct k as [|c' k']; [|reflexivity].
cbn [mem_ascii existsb]. apply negb_true_iff in Hc. now rewrite Hc.
Qed.

(** C7, as the code has it.  Whenever the trust anchor is provisioned,
    its path names a file that did not exist before and is created by
    [mkstemp], owned by the effective user and group of the session with
    mode 0600, the rest of the file system being left as it was; its
    content is exactly [@cert-authority <host>,<alias> <caPublicKey>],
    with no line terminator, where [<host>] is the host of the selected
    entry, [<alias>] the configured host principal and [<caPublicKey>]
    what [ca.pub] reads as, without its trailing line feeds.  Nothing
    makes this a single line: it is one exactly when the host, the alias
    and the key hold no line feed, as is the case of the key when
    [ca.pub] holds one line; a [ca.pub] of several lines gives an anchor
    of several lines. *)
Theorem trust_anchor_file (E : env) (entry : Console) (w w' : world) (path : string) :
  doConnect_known_hosts E entry w = (Ok path, w') ->
  exists ca alias,
    w_fs w !! path_join (pkgpkidir E) "ca.pub" = Some ca
    /\ e_config E "proxy" "ovirt_vmconsole_host_principal" = inr alias
    /\ w_fs w !! path = None
    /\ In (SysMkstemp path) (w_trace w')
    /\ w_fs w'
       = <[path := File ("@cert-authority " +:+ host entry +:+ "," +:+ alias +:+ " "
                         +:+ rstrip [NL] (universal_newlines (f_data ca)))
                        (S_IRUSR + S_IWUSR) (e_euid E) (e_egid E)]> (w_fs w)
    /\ (one_line ("@cert-authority " +:+ host entry +:+ "," +:+ alias +:+ " "
                  +:+ rstrip [NL] (universal_newlines (f_data ca))) = true
        <-> one_line (host entry) = true /\ one_line alias = true
            /\ one_line (rstrip [NL] (universal_newlines (f_data ca))) = true)
    /\ (forall key,
           one_line key = true -> contains CR key = false ->
           f_data ca = key +:+ nl ->
           rstrip [NL] (universal_newlines (f_data ca)) = key).
Proof.
unfold doConnect_known_hosts. intros H.
apply bind_ok in H as ([] & w1 & H1 & H). injection H1 as <-.
apply bind_ok in H as (data & w2 & H2 & H).
unfold read_file in H2. cbn [w_fs with_syslog] in H2.
destruct (w_fs w !! path_join (pkgpkidir E) "ca.pub") as [ca|] eqn:Hca; [|discriminate].
destruct (readable (effective E) ca); [|discriminate]. injection H2 as <- <-.
apply bind_ok in H as ([] & w3 & H3 & H). injection H3 as <-.
apply bind_ok in H as (name & w4 & H4 & H).
unfold mkstemp in H4. cbn [w_fs with_syslog with_trace] in H4.
destruct (first_free (e_tmp_names E) (w_fs w)) as [n|] eqn:Hfree; [|discriminate].
injection H4 as <- <-.
apply bind_ok in H as (alias & w5 & H5 & H).
unfold get in H5. destruct (e_config E "proxy" "ovirt_vmconsole_host_principal")
  as [x|al] eqn:Hal; [discriminate|]. injection H5 as <- <-.
apply bind_ok in H as (line & w6 & H6 & H).
rewrite format_known_hosts in H6. injection H6 as <- <-.
apply bind_ok in H as ([] & w7 & H7 & H). injection H7 as <-. injection H as <- <-.
exists ca, al. split; [reflexivity|]. split; [reflexivity|].
split; [exact (first_free_fresh _ _ _ Hfree)|].
split; [|split; [|split]].
- cbn [w_trace with_trace with_fs with_syslog]. rewrite !in_app_iff. cbn. tauto.
- cbn [w_fs with_trace with_fs with_syslog]. now rewrite alter_insert_eq.
- rewrite one_line_anchor, !andb_true_iff. tauto.
- intros key Hk Hcr ->.
  rewrite universal_newlines_plain.
  + now apply rstrip_line.
  + clear Hk. induction key as [|c key IH]; [reflexivity|].
    cbn [contains] in Hcr. apply orb_false_iff in Hcr as [Hc Hr].
    change (String c key +:+ nl) with (String c (key +:+ nl)). cbn [contains].
    now rewrite Hc, IH.
Qed.

End AnchorFacts.

(* ===================================================================== *)
(** * The cleanup of the trust anchor *)
(* ===================================================================== *)

Module CleanupFacts.
Import Py Sys Format Utils ConfigParser ProxyShell Discovery Cleanup Effects AnchorFacts.

(** ** Detached processes touch nothing but files and the trace *)

Lemma same_streams_refl w : same_streams w w.
Proof. now split. Qed.

Lemma same_streams_trans w1 w2 w3 :
  same_streams w1 w2 -> same_streams w2 w3 -> same_streams w1 w3.
Proof. intros [] []. split; congruence. Qed.

Lemma run_proc_streams p code :
  forall w, same_streams w (fst (run_proc p code w)).
Proof.
induction code as [|a code IH]; intros w; cbn [run_proc].
- now split.
- destruct a as [t|name].
  + destruct (negb (sleeps (w_now w) t)); [now split|].
    destruct (t =? 0); [apply IH|now split].
  + destruct (w_fs w !! name).
    * eapply same_streams_trans; [|apply IH]. now split.
    * now split.
Qed.

Lemma schedule_streams ps :
  forall w, same_streams w (fst (schedule ps w)).
Proof.
induction ps as [|p ps IH]; intros w; cbn [schedule]; [now split|].
destruct (p_wake p <=? w_now w).
- pose proof (run_proc_streams p (p_code p) w) as H1.
  destruct (run_proc p (p_code p) w) as [w1 cont]. cbn [fst] in H1.
  pose proof (IH w1) as H2. destruct (schedule ps w1) as [w2 rest]. cbn [fst] in *.
  eapply same_streams_trans; eassumption.
- pose proof (IH w) as H2. destruct (schedule ps w) as [w2 rest]. exact H2.
Qed.

Lemma step_streams ev w : same_streams w (step ev w).
Proof.
destruct ev as [dt|sid|name]; cbn [step]; try now split.
pose proof (schedule_streams (w_procs (with_now (w_now w + Z.max 0 dt) w))
              (with_now (w_now w + Z.max 0 dt) w)) as H.
destruct (schedule _ _) as [w2 ps]. cbn [fst] in H.
destruct H as [H1 H2 H3 H4].
cbn [w_stdin w_stdout w_stderr w_syslog with_now] in H1, H2, H3, H4.
split; cbn [w_stdin w_stdout w_stderr w_syslog with_procs]; assumption.
Qed.

Lemma steps_streams evs : forall w, same_streams w (steps evs w).
Proof.
induction evs as [|ev evs IH]; intros w; [apply same_streams_refl|].
cbn [steps fold_left]. eapply same_streams_trans; [apply step_streams|apply IH].
Qed.


(** ** Starting the daemon *)

Lemma lowest_free_zero (fds : gmap nat string) : fds !! 0%nat = None -> lowest_free fds = 0%nat.
Proof.
intros H. unfold lowest_free. cbn [seq List.find].
rewrite bool_decide_eq_true_2 by exact H. reflexivity.
Qed.

(** Lines 163-174 never fail: after [os.open], descriptor 0 is open. *)
Lemma detach_succeeds n p :
  exists fds,
    detach n p = inr (Proc (p_pid p) (p_pid p) "/" fds (p_wake p) (p_code p)).
Proof.
unfold detach.
set (fds0 := close_below n (p_fds p)).
set (fds1 := <[lowest_free fds0 := "/dev/null"]> fds0).
assert (H0 : is_Some (fds1 !! 0%nat)).
{ unfold fds1. destruct (fds0 !! 0%nat) as [x|] eqn:Hx.
  - destruct (decide (lowest_free fds0 = 0%nat)) as [->|Hne].
    + rewrite lookup_insert_eq. now eexists.
    + rewrite lookup_insert_ne by exact Hne. rewrite Hx. now eexists.
  - rewrite (lowest_free_zero _ Hx), lookup_insert_eq. now eexists. }
destruct H0 as (f & Hf). unfold dup2. rewrite Hf.
rewrite lookup_insert_ne by discriminate. rewrite Hf. now eexists.
Qed.

(** [simpleDaemon], by the number of processes that may still be
    created. *)
Lemma simpleDaemon_cases E task w :
  match w_nproc w with
  | O =>
      simpleDaemon E task w
      = (Raise (OSError "[Errno 11] Resource temporarily unavailable"), w)
  | S O =>
      simpleDaemon E task w
      = (Raise (RuntimeError "Daemon not exited properly"),
         with_trace (w_trace w ++ [SysFork (w_pid w) (w_next_pid w);
                                   SysExit (w_next_pid w) 1;
                                   SysWaitpid (w_next_pid w) 1])
           (with_forked w))
  | S (S _) =>
      exists child,
        detach (maxfd E) (Proc (w_next_pid w) (w_sid w) "/" (w_fds w) (w_now w) [])
        = inr child
        /\ simpleDaemon E task w
           = (Ok tt,
              let '(w2, asleep) :=
                run_proc (Proc (S (w_next_pid w)) (p_sid child) (p_cwd child)
                               (p_fds child) (w_now w) task)
                         task
                         (with_trace
                            (w_trace w ++ [SysFork (w_pid w) (w_next_pid w);
                                           SysFork (w_next_pid w) (S (w_next_pid w))])
                            (with_forked (with_forked w))) in
              with_trace (w_trace w2 ++ [SysExit (w_next_pid w) 0;
                                         SysWaitpid (w_next_pid w) 0])
                (with_procs (w_procs w2 ++ option_list asleep) w2))
  end.
Proof.
destruct (w_nproc w) as [|[|n]] eqn:Hn.
- unfold simpleDaemon, os_fork, fork_from, bind. now rewrite Hn.
- unfold simpleDaemon, os_fork, bind. unfold fork_from at 1. rewrite Hn.
  unfold first_child.
  destruct (detach_succeeds (maxfd E)
              (Proc (w_next_pid w) (w_sid w) "/" (w_fds w) (w_now w) [])) as (fds & Hd).
  unfold maxfd in Hd. cbn [w_sid w_fds w_now with_trace with_forked].
  cbn [p_pid p_wake p_code] in Hd. rewrite Hd.
  unfold fork_from. cbn [w_nproc with_trace with_forked]. rewrite Hn. cbn [pred].
  cbn [emit w_trace with_trace Z.eqb negb raise gettext].
  rewrite <- !app_assoc. reflexivity.
- destruct (detach_succeeds (maxfd E)
              (Proc (w_next_pid w) (w_sid w) "/" (w_fds w) (w_now w) [])) as (fds & Hd).
  eexists. split; [exact Hd|].
  unfold simpleDaemon, os_fork, bind. unfold fork_from at 1. rewrite Hn.
  unfold first_child.
  unfold maxfd in Hd. cbn [w_sid w_fds w_now with_trace with_forked].
  cbn [p_pid p_wake p_code] in Hd. rewrite Hd.
  unfold fork_from. cbn [w_nproc with_trace with_forked]. rewrite Hn. cbn [pred].
  cbn [p_sid p_cwd p_fds w_next_pid w_trace with_trace with_forked].
  rewrite <- !app_assoc. cbn [app].
  destruct (run_proc _ task _) as [w2 asleep].
  cbn [emit w_trace with_trace with_procs Z.eqb negb ret].
  rewrite <- !app_assoc. reflexivity.
Qed.

(** The task of the cleanup, as the detached process starts on it. *)
Lemma run_delayedUnlink p t name w :
  run_proc p (delayedUnlink t name) w
  = if negb (sleeps (w_now w) t) then (proc_exit (p_pid p) w, None)
    else if t =? 0 then run_proc p [Unlink name] w
    else (w, Some (Proc (p_pid p) (p_sid p) (p_cwd p) (p_fds p) (w_now w + t)
                        [Unlink name])).
Proof.
reflexivity.
Qed.

(** The cleanup is the daemon on the configured delay, when there is
    one. *)
Lemma doConnect_cleanup_cases E name w :
  match configured_delay E with
  | Some t =>
      doConnect_cleanup E name w
      = simpleDaemon E (delayedUnlink t name) (noted DEBUG "Cleanup daemon" w)
  | None =>
      exists e, doConnect_cleanup E name w = (Raise e, noted DEBUG "Cleanup daemon" w)
  end.
Proof.
unfold doConnect_cleanup, configured_delay, getint, get.
unfold bind at 1. cbn [logger]. fold (noted DEBUG "Cleanup daemon" w).
unfold bind.
destruct (e_config E "proxy" "known_hosts_close_delay") as [e|v]; cbn [lift raise ret].
- now exists e.
- destruct (Py.int v) as [t|]; cbn [ret raise]; [reflexivity|now eexists].
Qed.

Lemma unlink_calls_app name t l :
  unlink_calls name (t ++ l) = (unlink_calls name t + unlink_calls name l)%nat.
Proof. unfold unlink_calls. now rewrite List.filter_app, length_app. Qed.

(** The three ways the start of the cleanup can turn out: a process is
    left asleep; the unlink is attempted at once (no delay); or nothing is
    left that would ever remove the file (the start fails, or
    [time.sleep] turns the delay down). *)
Lemma cleanup_outcome E name w r w1 :
  doConnect_cleanup E name w = (r, w1) ->
  (w_stdin w1 = w_stdin w /\ w_stdout w1 = w_stdout w /\ w_stderr w1 = w_stderr w
   /\ w_now w1 = w_now w /\ w_sid w1 = w_sid w)
  /\ ((exists delay fds,
          r = Ok tt /\ configured_delay E = Some delay
          /\ 0 < delay /\ sleeps (w_now w) delay = true
          /\ w_procs w1
             = w_procs w ++ [Proc (S (w_next_pid w)) (w_next_pid w) "/" fds
                                  (w_now w + delay) [Unlink name]]
          /\ w_fs w1 = w_fs w
          /\ unlink_calls name (w_trace w1) = unlink_calls name (w_trace w))
      \/ (r = Ok tt /\ configured_delay E = Some 0 /\ sleeps (w_now w) 0 = true
          /\ w_procs w1 = w_procs w
          /\ (unlink_calls name (w_trace w1) <= S (unlink_calls name (w_trace w)))%nat)
      \/ ((r <> Ok tt
           \/ exists delay, configured_delay E = Some delay
                            /\ sleeps (w_now w) delay = false)
          /\ w_procs w1 = w_procs w /\ w_fs w1 = w_fs w
          /\ unlink_calls name (w_trace w1) = unlink_calls name (w_trace w))).
Proof.
pose proof (doConnect_cleanup_cases E name w) as Hcases.
destruct (configured_delay E) as [t|] eqn:Hcfg.
2:{ destruct Hcases as (e & ->). intros [= <- <-]. split; [now repeat split|].
    right. right. split; [left; discriminate|now repeat split]. }
rewrite Hcases. clear Hcases. set (w0 := noted DEBUG "Cleanup daemon" w).
pose proof (simpleDaemon_cases E (delayedUnlink t name) w0) as Hc.
change (w_nproc w0) with (w_nproc w) in Hc.
destruct (w_nproc w) as [|[|n]].
- rewrite Hc. intros [= <- <-]. split; [now repeat split|]. right. right.
  split; [left; discriminate|now repeat split].
- rewrite Hc. intros [= <- <-]. split; [now repeat split|]. right. right.
  split; [left; discriminate|].
  cbn [w_procs w_fs w_trace with_trace with_forked w0 noted with_syslog].
  split; [reflexivity|]. split; [reflexivity|].
  rewrite unlink_calls_app. cbn. lia.
- destruct Hc as (child & Hd & ->).
  destruct (detach_succeeds (maxfd E)
              (Proc (w_next_pid w0) (w_sid w0) "/" (w_fds w0) (w_now w0) [])) as (fds & Hd').
  rewrite Hd' in Hd. injection Hd as <-. cbn [p_sid p_cwd p_fds p_pid].
  rewrite run_delayedUnlink. cbn [p_pid p_sid p_cwd p_fds].
  match goal with |- context [sleeps (w_now ?x) t] =>
    change (w_now x) with (w_now w) end.
  destruct (sleeps (w_now w) t) eqn:Hsleeps; cbn [negb].
  2:{ intros [= <- <-]. split; [now repeat split|]. right. right.
      split; [right; exists t; now split|].
      unfold proc_exit, w0, noted.
      cbn [w_procs w_fs w_trace with_trace with_procs with_forked with_syslog option_list].
      split; [now rewrite app_nil_r|]. split; [reflexivity|].
      rewrite <- !app_assoc, unlink_calls_app. cbn. lia. }
  assert (Hnn : 0 <= t).
  { unfold sleeps in Hsleeps. apply andb_true_iff in Hsleeps as [Hsleeps _].
    apply andb_true_iff in Hsleeps as [Hsleeps _]. lia. }
  destruct (Z.eqb_spec t 0) as [->|Hpos].
  { cbn [run_proc]. unfold w0, noted. cbn [w_fs with_trace with_forked with_syslog].
    destruct (w_fs w !! name) as [f|].
    - cbn [run_proc]. unfold proc_exit.
      intros [= <- <-]. split; [now repeat split|]. right. left.
      split; [reflexivity|]. split; [reflexivity|]. split; [exact Hsleeps|].
      cbn [w_procs w_fs w_trace with_trace with_procs with_forked with_syslog with_fs
           option_list].
      split; [now rewrite app_nil_r|].
      rewrite <- !app_assoc, unlink_calls_app. unfold unlink_calls at 2. cbn.
      destruct (String.eqb name name); cbn; lia.
    - unfold proc_exit.
      intros [= <- <-]. split; [now repeat split|]. right. left.
      split; [reflexivity|]. split; [reflexivity|]. split; [exact Hsleeps|].
      cbn [w_procs w_fs w_trace with_trace with_procs with_forked with_syslog with_fs
           option_list].
      split; [now rewrite app_nil_r|].
      rewrite <- !app_assoc, unlink_calls_app. unfold unlink_calls at 2. cbn.
      destruct (String.eqb name name); cbn; lia. }
  intros [= <- <-]. split; [now repeat split|]. left.
  exists t, fds. split; [reflexivity|]. split; [reflexivity|]. split; [lia|].
  split; [exact Hsleeps|].
  unfold w0, noted.
  cbn [w_procs w_fs w_trace w_now w_next_pid with_trace with_procs with_forked with_syslog
       option_list].
  split; [reflexivity|]. split; [reflexivity|].
  rewrite <- !app_assoc, unlink_calls_app. cbn. lia.
Qed.

(** Without processes, events add no system call, and change no file
    but the ones somebody else removes. *)
Lemma steps_idle name evs :
  forall w, w_procs w = [] ->
    w_procs (steps evs w) = []
    /\ w_trace (steps evs w) = w_trace w
    /\ (Forall (spares name) evs -> w_fs (steps evs w) !! name = w_fs w !! name).
Proof.
induction evs as [|ev evs IH]; intros w Hp; [now repeat split|].
cbn [steps fold_left].
assert (Hstep : w_procs (step ev w) = []
                /\ w_trace (step ev w) = w_trace w
                /\ (spares name ev -> w_fs (step ev w) !! name = w_fs w !! name)).
{ destruct ev as [dt|sid|n]; cbn [step].
  - cbn [w_procs with_now]. rewrite Hp. cbn [schedule]. now repeat split.
  - rewrite Hp. now repeat split.
  - cbn [spares w_procs w_fs w_trace with_fs].
    split; [exact Hp|]. split; [reflexivity|]. intros Hn. now apply lookup_delete_ne. }
destruct Hstep as (H1 & H2 & H3).
destruct (IH (step ev w) H1) as (H4 & H5 & H6).
change (fold_left (fun w ev => step ev w) evs (step ev w)) with (steps evs (step ev w)).
rewrite H4, H5, H2. split; [reflexivity|]. split; [reflexivity|].
intros Hall. apply Forall_cons in Hall as [Hev Hevs]. now rewrite H6, H3.
Qed.


(** ** The daemon at work *)

Lemma unlink_calls_daemon name pid done :
  unlink_calls name [SysUnlink pid name done; SysExit pid 1] = 1%nat.
Proof. unfold unlink_calls. cbn. now rewrite String.eqb_refl. Qed.

Section OneDaemon.
Variable name : string.
Variable d : proc.
Hypothesis d_code : p_code d = [Unlink name].

(** A tick that ends before the daemon wakes only moves the clock. *)
Lemma tick_early dt w :
  w_procs w = [d] -> w_now w + Z.max 0 dt < p_wake d ->
  w_procs (step (Tick dt) w) = [d]
  /\ w_fs (step (Tick dt) w) = w_fs w
  /\ w_trace (step (Tick dt) w) = w_trace w
  /\ w_now (step (Tick dt) w) = w_now w + Z.max 0 dt.
Proof.
intros Hp Hlt. cbn [step]. cbn [w_procs with_now]. rewrite Hp.
cbn [schedule w_now with_now].
destruct (Z.leb_spec (p_wake d) (w_now w + Z.max 0 dt)) as [?|_]; [lia|].
now repeat split.
Qed.

(** A tick that reaches its wake-up time lets the daemon call
    [os.unlink] once and leave. *)
Lemma tick_due dt w :
  w_procs w = [d] -> p_wake d <= w_now w + Z.max 0 dt ->
  w_procs (step (Tick dt) w) = []
  /\ w_fs (step (Tick dt) w) = delete name (w_fs w)
  /\ w_trace (step (Tick dt) w)
     = w_trace w ++ [SysUnlink (p_pid d) name (bool_decide (is_Some (w_fs w !! name)));
                     SysExit (p_pid d) 1]
  /\ w_now (step (Tick dt) w) = w_now w + Z.max 0 dt.
Proof.
intros Hp Hle. cbn [step]. cbn [w_procs with_now]. rewrite Hp.
cbn [schedule w_now with_now].
destruct (Z.leb_spec (p_wake d) (w_now w + Z.max 0 dt)) as [_|?]; [|lia].
rewrite d_code. cbn [run_proc w_fs with_now].
destruct (w_fs w !! name) as [f|] eqn:Hf.
- cbn [run_proc proc_exit schedule w_procs w_fs w_trace w_now with_procs with_trace with_fs].
  rewrite <- app_assoc. now repeat split.
- cbn [proc_exit schedule w_procs w_fs w_trace w_now with_procs with_trace with_fs with_now].
  rewrite <- app_assoc. repeat split; try reflexivity.
  symmetry. now apply delete_id.
Qed.

Lemma gone_step sid c ev w :
  gone name c w -> undisturbed name sid ev -> gone name c (step ev w).
Proof.
intros (Hp & Hf & Hc) Hev. destruct ev as [dt|s|n]; cbn [step].
- cbn [w_procs with_now]. rewrite Hp. now cbn.
- rewrite Hp. now cbn.
- repeat split; cbn; try assumption.
  cbn in Hev. now rewrite lookup_delete_ne.
Qed.

Lemma gone_steps sid c evs :
  forall w, gone name c w -> Forall (undisturbed name sid) evs ->
            gone name c (steps evs w).
Proof.
induction evs as [|ev evs IH]; intros w Hg Hevs; [exact Hg|].
inversion Hevs as [|? ? Hev Hevs']; subst.
cbn [steps fold_left]. apply IH; [|exact Hevs']. now apply gone_step with (sid := sid).
Qed.

(** As long as the parent's session is all that ends, the daemon sleeps
    until its time has come, and then removes the anchor. *)
Lemma cleanup_runs sid f c evs :
  p_sid d <> sid ->
  forall w,
    asleep name d f c w -> w_now w < p_wake d ->
    Forall (undisturbed name sid) evs ->
    (w_now w + elapsed evs < p_wake d -> asleep name d f c (steps evs w))
    /\ (p_wake d <= w_now w + elapsed evs -> gone name c (steps evs w)).
Proof.
intros Hsid. induction evs as [|ev evs IH]; intros w Ha Hnow Hevs.
- cbn [elapsed steps fold_left]. split; [now intros _|lia].
- inversion Hevs as [|? ? Hev Hevs']; subst.
  destruct Ha as (Hp & Hf & Hc).
  cbn [steps fold_left]. destruct ev as [dt|s|n]; cbn [elapsed].
  + destruct (Z.lt_ge_cases (w_now w + Z.max 0 dt) (p_wake d)) as [Hlt|Hge].
    * destruct (tick_early dt w Hp Hlt) as (Hp' & Hf' & Ht' & Hn').
      assert (Ha' : asleep name d f c (step (Tick dt) w)).
      { repeat split; [exact Hp'|now rewrite Hf'|now rewrite Ht']. }
      assert (Hnow' : w_now (step (Tick dt) w) < p_wake d) by lia.
      destruct (IH _ Ha' Hnow' Hevs') as [IH1 IH2].
      split; intros H; [apply IH1|apply IH2]; lia.
    * destruct (tick_due dt w Hp Hge) as (Hp' & Hf' & Ht' & Hn').
      assert (Hg : gone name c (step (Tick dt) w)).
      { repeat split; [exact Hp'|rewrite Hf'; apply lookup_delete_eq|].
        rewrite Ht', unlink_calls_app, unlink_calls_daemon, Hc. lia. }
      split; [|intros _; now apply gone_steps with (sid := sid)].
      pose proof (Z.le_max_l 0 dt).
      assert (0 <= elapsed evs).
      { clear. induction evs as [|[]]; cbn [elapsed]; lia. }
      lia.
  + cbn in Hev. subst s.
    assert (Ha' : asleep name d f c (step (Hangup sid) w)).
    { repeat split; cbn [step w_procs w_fs w_trace with_procs]; try assumption.
      rewrite Hp. cbn [List.filter].
      destruct (Nat.eqb_spec (p_sid d) sid); [contradiction|reflexivity]. }
    exact (IH _ Ha' Hnow Hevs').
  + cbn in Hev.
    assert (Ha' : asleep name d f c (step (Removed n) w)).
    { repeat split; cbn [step w_procs w_fs w_trace with_fs]; try assumption.
      now rewrite lookup_delete_ne. }
    exact (IH _ Ha' Hnow Hevs').
Qed.

(** Whatever happens, [os.unlink] is called on the anchor at most once. *)
Lemma at_most_once_step c ev w :
  at_most_once name d c w -> at_most_once name d c (step ev w).
Proof.
intros [(Hp & Hc) | (Hp & Hc)]; destruct ev as [dt|s|n].
- destruct (Z.lt_ge_cases (w_now w + Z.max 0 dt) (p_wake d)) as [Hlt|Hge].
  + destruct (tick_early dt w Hp Hlt) as (Hp' & _ & Ht' & _).
    left. now rewrite Hp', Ht'.
  + destruct (tick_due dt w Hp Hge) as (Hp' & _ & Ht' & _).
    right. rewrite Hp', Ht', unlink_calls_app, unlink_calls_daemon. split; [reflexivity|lia].
- cbn [step]. rewrite Hp. cbn [List.filter].
  destruct (negb (p_sid d =? s)%nat); [left|right];
    cbn [w_procs w_trace with_procs]; (split; [reflexivity|lia]).
- left. cbn [step w_procs w_trace with_fs]. now split.
- right. cbn [step]. cbn [w_procs with_now]. rewrite Hp.
  cbn [schedule w_procs w_trace with_procs with_now]. now split.
- right. cbn [step]. rewrite Hp. cbn [List.filter w_procs w_trace with_procs]. now split.
- right. cbn [step w_procs w_trace with_fs]. now split.
Qed.

Lemma at_most_once_steps c evs :
  forall w, at_most_once name d c w -> at_most_once name d c (steps evs w).
Proof.
induction evs as [|ev evs IH]; intros w H; [exact H|].
cbn [steps fold_left]. apply IH. now apply at_most_once_step.
Qed.

End OneDaemon.


(** C8, as the code has it.  The cleanup of a provisioned anchor is
    scheduled as the claim says when [known_hosts_close_delay] is a
    positive number of seconds that [time.sleep] takes and the two
    processes of the daemon can be created: then the anchor file is
    still there; exactly one detached process has been left behind for
    it, in a session of its own, asleep until the delay is over and with
    nothing left to do but the unlink; whatever becomes of the parent's
    session, the file stays as long as less than the delay has passed
    and is gone, by one call of [os.unlink], once it has passed.  It is
    not scheduled when the start of the cleanup raises (that error does
    reach the parent, and ends [doConnect]), nor when [time.sleep]
    turns the delay down (a negative one, or one too long for it or for
    the clock), which the detached process alone learns: then no process is left, [os.unlink] is never called,
    and the file stays until somebody else removes it.  In every case,
    under any course of events, [os.unlink] is called on the anchor at
    most once, and nothing the detached process does, its failure to
    find the file included, reaches the streams or the log of the
    parent. *)
Theorem anchor_cleanup (E : env) (known_hosts : string) (w w1 : world)
        (r : outcome unit) (f : file) :
  doConnect_cleanup E known_hosts w = (r, w1) ->
  w_fs w !! known_hosts = Some f ->
  w_procs w = [] ->
  (w_sid w < w_next_pid w)%nat ->
  (forall delay,
      r = Ok tt -> configured_delay E = Some delay ->
      0 < delay -> sleeps (w_now w) delay = true ->
      w_fs w1 !! known_hosts = Some f
      /\ exists d,
          w_procs w1 = [d] /\ p_code d = [Unlink known_hosts]
          /\ p_wake d = w_now w1 + delay /\ p_sid d <> w_sid w1
          /\ (forall evs,
                 Forall (undisturbed known_hosts (w_sid w1)) evs ->
                 (elapsed evs < delay ->
                  asleep known_hosts d f (unlink_calls known_hosts (w_trace w))
                         (steps evs w1))
                 /\ (delay <= elapsed evs ->
                     gone known_hosts (unlink_calls known_hosts (w_trace w))
                          (steps evs w1)))
          /\ (forall dt,
                 delay <= dt ->
                 w_trace (steps [Removed known_hosts; Tick dt] w1)
                 = w_trace w1 ++ [SysUnlink (p_pid d) known_hosts false;
                                  SysExit (p_pid d) 1]))
  /\ ((r <> Ok tt
       \/ exists delay, configured_delay E = Some delay
                        /\ sleeps (w_now w) delay = false) ->
      w_procs w1 = []
      /\ forall evs,
          Forall (spares known_hosts) evs ->
          w_fs (steps evs w1) !! known_hosts = Some f
          /\ unlink_calls known_hosts (w_trace (steps evs w1))
             = unlink_calls known_hosts (w_trace w))
  /\ (forall evs,
         (unlink_calls known_hosts (w_trace (steps evs w1))
          <= S (unlink_calls known_hosts (w_trace w)))%nat)
  /\ (forall evs,
         w_stdout (steps evs w1) = w_stdout w
         /\ w_stderr (steps evs w1) = w_stderr w
         /\ w_syslog (steps evs w1) = w_syslog w1).
Proof.
intros Hrun Hf Hprocs Hpid.
destruct (cleanup_outcome _ _ _ _ _ Hrun) as ((_ & Hout & Herr & Hnow & Hsid) & Hcase).
split; [|split; [|split]].
- intros delay -> Hcfg Hdelay Hsleeps.
  destruct Hcase as [(delay' & fds & _ & Hcfg' & _ & _ & Hp & Hfs & Hcalls)
                    | [(_ & Hcfg' & _) | ([Hr | (delay' & Hcfg' & Hout')] & _)]].
  2:{ rewrite Hcfg in Hcfg'. injection Hcfg' as ->. lia. }
  2:{ now contradiction Hr. }
  2:{ rewrite Hcfg in Hcfg'. injection Hcfg' as <-. congruence. }
  rewrite Hcfg in Hcfg'. injection Hcfg' as <-.
  rewrite Hprocs in Hp. cbn [app] in Hp.
  set (d := Proc (S (w_next_pid w)) (w_next_pid w) "/" fds (w_now w + delay)
                 [Unlink known_hosts]) in *.
  assert (Hd : p_code d = [Unlink known_hosts]) by reflexivity.
  assert (Ha : asleep known_hosts d f (unlink_calls known_hosts (w_trace w)) w1).
  { repeat split; [exact Hp|now rewrite Hfs|exact Hcalls]. }
  split; [now rewrite Hfs|].
  exists d. split; [exact Hp|]. split; [reflexivity|].
  split; [cbn [p_wake d]; now rewrite Hnow|].
  split; [cbn [p_sid d]; rewrite Hsid; lia|]. split.
  + intros evs Hevs.
    assert (Hs : p_sid d <> w_sid w1) by (cbn [p_sid d]; rewrite Hsid; lia).
    assert (Hw : w_now w1 < p_wake d) by (cbn [p_wake d]; lia).
    destruct (cleanup_runs known_hosts d Hd (w_sid w1) f _ evs Hs w1 Ha Hw Hevs)
      as [H1 H2].
    cbn [p_wake d] in H1, H2.
    split; intros H; [apply H1|apply H2]; lia.
  + intros dt Hdt. cbn [steps fold_left].
    assert (Hp' : w_procs (step (Removed known_hosts) w1) = [d]) by exact Hp.
    assert (Hdue : p_wake d <= w_now (step (Removed known_hosts) w1) + Z.max 0 dt).
    { cbn [p_wake d step w_now with_fs]. lia. }
    destruct (tick_due known_hosts d Hd dt _ Hp' Hdue) as (_ & _ & Ht & _).
    rewrite Ht. cbn [step w_fs w_trace with_fs]. rewrite lookup_delete_eq.
    reflexivity.
- intros Hnever.
  destruct Hcase as [(delay' & fds & Hr & Hcfg' & _ & Hsl & _)
                    | [(Hr & Hcfg' & Hsl & _) | (_ & Hp & Hfs & Hcalls)]].
  { destruct Hnever as [Hne | (delay & Hcfg & Hout')]; [now contradiction Hne|].
    rewrite Hcfg in Hcfg'. injection Hcfg' as <-. congruence. }
  { destruct Hnever as [Hne | (delay & Hcfg & Hout')]; [now contradiction Hne|].
    rewrite Hcfg in Hcfg'. injection Hcfg' as ->. congruence. }
  rewrite Hprocs in Hp. split; [exact Hp|].
  intros evs Hevs.
  destruct (steps_idle known_hosts evs w1 Hp) as (_ & H2 & H3).
  rewrite (H3 Hevs), H2, Hfs, Hcalls. now split.
- intros evs.
  destruct Hcase as [(delay' & fds & _ & _ & _ & _ & Hp & _ & Hcalls)
                    | [(_ & _ & _ & Hp & Hcalls) | (_ & Hp & _ & Hcalls)]].
  + rewrite Hprocs in Hp. cbn [app] in Hp.
    set (d := Proc _ _ _ _ _ _) in Hp.
    assert (Hd : p_code d = [Unlink known_hosts]) by reflexivity.
    assert (Hm : at_most_once known_hosts d (unlink_calls known_hosts (w_trace w)) w1)
      by (left; now split).
    destruct (at_most_once_steps known_hosts d Hd _ evs w1 Hm) as [[_ ->] | [_ H]]; lia.
  + rewrite Hprocs in Hp.
    destruct (steps_idle known_hosts evs w1 Hp) as (_ & -> & _). exact Hcalls.
  + rewrite Hprocs in Hp.
    destruct (steps_idle known_hosts evs w1 Hp) as (_ & -> & _). lia.
- intros evs. destruct (steps_streams evs w1) as [_ H1 H2 H3].
  now rewrite H1, H2, H3, Hout, Herr.
Qed.

End CleanupFacts.

(* ===================================================================== *)
(** * The relay bridge *)
(* ===================================================================== *)

Module RelayFacts.
Import SocketProxy Relay.

(** Retried short writes deliver the whole chunk, in order. *)
Lemma write_all_whole window :
  forall fuel data out,
    (length data <= fuel)%nat -> write_all fuel window data out = out ++ data.
Proof.
induction fuel as [|fuel IH]; intros data out Hlen.
- destruct data; [cbn; now rewrite app_nil_r|cbn in Hlen; lia].
- destruct data as [|x data]; [cbn; now rewrite app_nil_r|].
  cbn [write_all]. rewrite IH.
  + rewrite <- app_assoc. f_equal. apply take_drop.
  + rewrite length_drop. cbn [length] in *. lia.
Qed.

Lemma written_app s done rest :
  written s (done ++ rest) = written s done ++ written s rest.
Proof.
induction done as [|ev done IH]; [reflexivity|].
destruct ev as [[] chunk| | | | |]; destruct s; cbn [written app];
  rewrite ?IH, ?app_assoc; reflexivity.
Qed.

Lemma written_cons s ev evs : written s (ev :: evs) = written s [ev] ++ written s evs.
Proof. exact (written_app s [ev] evs). Qed.

Lemma pump_all_drained cfg st : drained st -> pump_all cfg st = (None, st).
Proof.
intros (Ha & Hb & Hfa & Hfb). unfold pump_all. rewrite Ha, Hb.
cbn [length Nat.add pump]. unfold readable. now rewrite Ha, Hb, Hfa, Hfb.
Qed.

(** With a positive buffer size, and bytes waiting on the side [s]
    only: the loop passes all of them on, in order, to the opposite
    endpoint, unless that one is broken, and then it passes none. *)
Lemma pump_side cfg s :
  (0 < bufferSize cfg)%nat ->
  forall fuel st,
    pending (get_end (opposite s) st) = [] ->
    finished (end_a st) = false -> finished (end_b st) = false ->
    (length (pending (get_end s st)) < fuel)%nat ->
    match pending (get_end s st) with
    | [] => pump fuel cfg st = (None, st)
    | _ :: _ =>
        if failing (get_end (opposite s) st) then
          exists st',
            pump fuel cfg st = (Some (EndpointFailed (opposite s)), st')
            /\ delivered (end_a st') = delivered (end_a st)
            /\ delivered (end_b st') = delivered (end_b st)
        else
          exists st',
            pump fuel cfg st = (None, st')
            /\ drained st'
            /\ delivered (get_end (opposite s) st')
               = delivered (get_end (opposite s) st) ++ pending (get_end s st)
            /\ delivered (get_end s st') = delivered (get_end s st)
            /\ idle st' = 0
            /\ (forall x, failing (get_end x st') = failing (get_end x st))
    end.
Proof.
intros Hbuf. induction fuel as [|fuel IH]; intros st Hopp Hfa Hfb Hlen; [lia|].
destruct (pending (get_end s st)) as [|x p] eqn:Hp.
{ cbn [pump]. unfold readable.
  destruct s; cbn [get_end opposite] in *; now rewrite Hp, Hopp, Hfa, Hfb. }
assert (Hread : pump (S fuel) cfg st
                = match serve cfg s st with
                  | (None, st') => pump fuel cfg st'
                  | r => r
                  end).
{ cbn [pump]. unfold readable.
  destruct s; cbn [get_end opposite] in *; rewrite ?Hp, ?Hopp, ?Hfa; reflexivity. }
rewrite Hread. unfold serve. rewrite Hp.
destruct (bufferSize cfg) as [|n] eqn:Hn; [lia|].
cbn [take].
destruct (failing (get_end (opposite s) st)) eqn:Hfail.
{ eexists. split; [reflexivity|]. destruct s; now split. }
rewrite write_all_whole by reflexivity.
set (st1 := MkRelaySession _ _ _ _ _).
assert (H1 : pending (get_end s st1) = drop (S n) (x :: p)
             /\ pending (get_end (opposite s) st1) = []
             /\ finished (end_a st1) = false /\ finished (end_b st1) = false
             /\ delivered (get_end (opposite s) st1)
                = delivered (get_end (opposite s) st) ++ take (S n) (x :: p)
             /\ delivered (get_end s st1) = delivered (get_end s st)
             /\ idle st1 = 0
             /\ (forall y, failing (get_end y st1) = failing (get_end y st))).
{ unfold st1. destruct s; cbn [get_end opposite set_end end_a end_b pending finished
                                 delivered failing idle take drop] in *;
    (repeat split; try assumption; try reflexivity); now intros []. }
destruct H1 as (Hp1 & Hopp1 & Hfa1 & Hfb1 & Hd1 & Hd2 & Hidle & Hflags).
assert (Hlen1 : (length (pending (get_end s st1)) < fuel)%nat).
{ rewrite Hp1, length_drop. cbn [length] in *. lia. }
specialize (IH st1 Hopp1 Hfa1 Hfb1 Hlen1).
destruct (pending (get_end s st1)) as [|y q] eqn:Hq.
- rewrite IH. exists st1. split; [reflexivity|].
  split.
  { unfold drained. destruct s; cbn [get_end opposite] in *; now repeat split. }
  split.
  { rewrite Hd1. f_equal. pose proof (take_drop (S n) (x :: p)) as Hall.
    rewrite <- Hp1, app_nil_r in Hall. exact Hall. }
  now repeat split.
- rewrite (Hflags (opposite s)), Hfail in IH.
  destruct IH as (st' & Hpump & Hdr & Hd1' & Hd2' & Hidle' & Hflags').
  exists st'. split; [exact Hpump|]. split; [exact Hdr|].
  split.
  { rewrite Hd1', Hd1, <- app_assoc. f_equal.
    rewrite Hp1. apply take_drop. }
  split; [now rewrite Hd2'|]. split; [exact Hidle'|].
  intros z. now rewrite Hflags'.
Qed.

Lemma loop_cons cfg ev evs st :
  loop cfg (ev :: evs) st
  = match turn cfg ev st with
    | (Some out, st') => (Some out, st')
    | (None, st') => loop cfg evs st'
    end.
Proof.
cbn [loop]. unfold turn. destruct (occur cfg ev st) as [[out|] st']; [reflexivity|].
destruct (pump_all cfg st') as [[out|] st'']; reflexivity.
Qed.

(** One turn from a quiet state: either it ends the session, for the
    reason the event gives and with nothing more delivered, or the
    bridge is quiet again and has delivered what the event wrote. *)
Lemma turn_spec cfg ev st :
  (0 < bufferSize cfg)%nat -> drained st ->
  match turn cfg ev st with
  | (Some o, st') =>
      ends_at cfg st ev o
      /\ delivered (end_b st') = delivered (end_b st)
      /\ delivered (end_a st') = delivered (end_a st)
  | (None, st') =>
      drained st'
      /\ delivered (end_b st') = delivered (end_b st) ++ written A [ev]
      /\ delivered (end_a st') = delivered (end_a st) ++ written B [ev]
      /\ idle st' = silence [ev] (idle st)
      /\ (forall x, failing (get_end x st') = failing (get_end x st) || is_break x ev)
  end.
Proof.
intros Hbuf (Hpa & Hpb & Hfa & Hfb). unfold turn.
destruct ev as [s chunk|s|s n|s|dt|]; cbn [occur].
- (* Write *)
  set (st1 := feed s _ st).
  assert (H1 : pending (get_end s st1) = chunk
               /\ pending (get_end (opposite s) st1) = []
               /\ finished (end_a st1) = false /\ finished (end_b st1) = false
               /\ delivered (end_a st1) = delivered (end_a st)
               /\ delivered (end_b st1) = delivered (end_b st)
               /\ idle st1 = idle st
               /\ (forall x, failing (get_end x st1) = failing (get_end x st))).
  { unfold st1, feed. destruct s; cbn; rewrite ?Hpa, ?Hpb;
      (repeat split; try assumption; try reflexivity); now intros []. }
  destruct H1 as (Hp1 & Hopp1 & Hfa1 & Hfb1 & Hda1 & Hdb1 & Hidle1 & Hflags1).
  assert (Hlen : (length (pending (get_end s st1))
                  < S (length (pending (end_a st1)) + length (pending (end_b st1))))%nat).
  { destruct s; cbn [get_end]; lia. }
  pose proof (pump_side cfg s Hbuf _ st1 Hopp1 Hfa1 Hfb1 Hlen) as Hpump.
  fold (pump_all cfg st1) in Hpump. rewrite Hp1 in Hpump.
  destruct chunk as [|x chunk].
  + rewrite Hpump. split; [unfold drained; destruct s; cbn [get_end opposite] in *;
                            now rewrite ?Hp1, ?Hopp1|].
    split; [destruct s; cbn [written]; now rewrite Hdb1, app_nil_r|].
    split; [destruct s; cbn [written]; now rewrite Hda1, app_nil_r|].
    split; [exact Hidle1|].
    intros y. rewrite Hflags1. destruct y; cbn; now rewrite orb_false_r.
  + rewrite (Hflags1 (opposite s)) in Hpump.
    destruct (failing (get_end (opposite s) st)) eqn:Hfail.
    * destruct Hpump as (st' & -> & Ha & Hb).
      split; [|now rewrite Ha, Hb, Hda1, Hdb1].
      cbn [ends_at]. split; [now destruct s|exact Hfail].
    * destruct Hpump as (st' & -> & Hdr & Hd1 & Hd2 & Hidle & Hflags).
      split; [exact Hdr|].
      destruct s; cbn [get_end opposite written silence] in *.
      -- rewrite Hd1, Hd2, Hdb1, Hda1, !app_nil_r.
         repeat split; try assumption.
         intros y. rewrite Hflags, Hflags1. destruct y; cbn; now rewrite orb_false_r.
      -- rewrite Hd1, Hd2, Hdb1, Hda1, !app_nil_r.
         repeat split; try assumption.
         intros y. rewrite Hflags, Hflags1. destruct y; cbn; now rewrite orb_false_r.
- (* Close *)
  set (st1 := feed s _ st).
  assert (Hp : pump_all cfg st1 = (Some (ClosedByPeer s), st1)).
  { unfold pump_all, st1. destruct s; cbn; rewrite Hpa, Hpb; cbn [length Nat.add pump];
      unfold readable; cbn; rewrite ?Hpa, ?Hpb, ?Hfa, ?Hfb; unfold serve; cbn;
      rewrite ?Hpa, ?Hpb, take_nil; reflexivity. }
  rewrite Hp. split; [reflexivity|]. unfold st1. now destruct s.
- (* Window *)
  set (st1 := feed s _ st).
  assert (Hdr1 : drained st1) by (destruct s; now repeat split).
  rewrite (pump_all_drained _ _ Hdr1). split; [exact Hdr1|].
  unfold st1. destruct s; cbn; rewrite !app_nil_r;
    (repeat split; try reflexivity); intros []; cbn; now rewrite orb_false_r.
- (* Break *)
  set (st1 := feed s _ st).
  assert (Hdr1 : drained st1) by (destruct s; now repeat split).
  rewrite (pump_all_drained _ _ Hdr1). split; [exact Hdr1|].
  unfold st1. destruct s; cbn; rewrite !app_nil_r;
    (repeat split; try reflexivity); intros []; cbn;
    rewrite ?orb_false_r, ?orb_true_r; reflexivity.
- (* Quiet *)
  set (st1 := MkRelaySession _ _ _ _ _).
  destruct (Z.ltb_spec 0 (idleTimeout cfg)) as [Hpos|Hoff]; cbn [andb].
  + destruct (Z.leb_spec (idleTimeout cfg) (idle st1)) as [Hle|Hgt].
    * split; [|now split]. cbn [ends_at]. unfold st1 in Hle. cbn [idle] in Hle. lia.
    * assert (Hdr1 : drained st1) by now repeat split.
      rewrite (pump_all_drained _ _ Hdr1). split; [exact Hdr1|].
      unfold st1. cbn. rewrite !app_nil_r.
      (repeat split; try reflexivity); intros []; cbn; now rewrite orb_false_r.
  + assert (Hdr1 : drained st1) by now repeat split.
    rewrite (pump_all_drained _ _ Hdr1). split; [exact Hdr1|].
    unfold st1. cbn. rewrite !app_nil_r.
    (repeat split; try reflexivity); intros []; cbn; now rewrite orb_false_r.
- (* Signal *)
  split; [exact I|now split].
Qed.

Lemma silence_cons ev evs acc : silence (ev :: evs) acc = silence evs (silence [ev] acc).
Proof. destruct ev as [s [|x c]| | | | |]; reflexivity. Qed.

Lemma silence_app done rest acc : silence (done ++ rest) acc = silence rest (silence done acc).
Proof.
revert acc. induction done as [|ev done IH]; intros acc; [reflexivity|].
cbn [app]. now rewrite silence_cons, IH, <- silence_cons.
Qed.

(** From a quiet state on: while the session goes on, each endpoint has
    received all that was written into the other one, in order; and it
    ends at the first event that gives a reason to. *)
Lemma loop_spec cfg :
  (0 < bufferSize cfg)%nat ->
  forall evs st,
    drained st ->
    match loop cfg evs st with
    | (None, st') =>
        drained st'
        /\ delivered (end_b st') = delivered (end_b st) ++ written A evs
        /\ delivered (end_a st') = delivered (end_a st) ++ written B evs
        /\ idle st' = silence evs (idle st)
        /\ (forall x, failing (get_end x st')
                      = failing (get_end x st) || existsb (is_break x) evs)
    | (Some o, st') =>
        exists done ev rest st1,
          evs = done ++ ev :: rest
          /\ loop cfg done st = (None, st1)
          /\ ends_at cfg st1 ev o
          /\ delivered (end_b st') = delivered (end_b st) ++ written A done
          /\ delivered (end_a st') = delivered (end_a st) ++ written B done
    end.
Proof.
intros Hbuf. induction evs as [|ev evs IH]; intros st Hdr.
- cbn [loop written silence existsb]. rewrite !app_nil_r.
  repeat split; try apply Hdr. intros x. now rewrite orb_false_r.
- rewrite loop_cons. pose proof (turn_spec cfg ev st Hbuf Hdr) as Hturn.
  destruct (turn cfg ev st) as [[o|] st1] eqn:Ht.
  + destruct Hturn as (Hends & Hb & Ha).
    exists [], ev, evs, st. cbn [app loop written]. rewrite !app_nil_r.
    now repeat split.
  + destruct Hturn as (Hdr1 & Hb1 & Ha1 & Hidle1 & Hflags1).
    specialize (IH st1 Hdr1).
    destruct (loop cfg evs st1) as [[o|] st'] eqn:Hl.
    * destruct IH as (done & ev' & rest & st2 & -> & Hdone & Hends & Hb & Ha).
      exists (ev :: done), ev', rest, st2. split; [reflexivity|].
      split; [now rewrite loop_cons, Ht|]. split; [exact Hends|].
      rewrite (written_cons A ev done), (written_cons B ev done), !app_assoc,
        <- Hb1, <- Ha1.
      now split.
    * destruct IH as (Hdr' & Hb & Ha & Hidle & Hflags).
      split; [exact Hdr'|].
      rewrite (written_cons A ev evs), (written_cons B ev evs), !app_assoc,
        <- Hb1, <- Ha1.
      split; [exact Hb|]. split; [exact Ha|].
      split; [now rewrite silence_cons, <- Hidle1|].
      intros x. rewrite Hflags, Hflags1. cbn [existsb]. now rewrite orb_assoc.
Qed.

Lemma broken_In s evs : existsb (is_break s) evs = true -> In (Break s) evs.
Proof.
intros H. apply existsb_exists in H as (ev & Hin & Hb).
destruct ev as [| | |s'| |]; try (destruct s; discriminate).
destruct s, s'; try discriminate; exact Hin.
Qed.

(** C9.  For every relay session (with the positive buffer size every
    configuration has): what the bridge has delivered to endpoint B is at
    every moment a prefix of the bytes written into endpoint A, byte for
    byte and in order, and likewise from B to A, whatever the sizes of
    the chunks.  As long as the session goes on, nothing is held back:
    each endpoint has received all the bytes written into the other one.
    And when it has ended, it ended at the first event that gives a
    reason to (the peer of an endpoint closed it, a signal came, the
    silence reached the timeout, or bytes came for an endpoint that was
    broken), not before; each endpoint has then received exactly the
    bytes written into the other one up to that event. *)
Theorem relay_byte_exact (cfg : RelayConfig) (tty : bool) (evs : list event) :
  (0 < bufferSize cfg)%nat ->
  delivered (end_b (snd (run cfg tty evs))) `prefix_of` written A evs
  /\ delivered (end_a (snd (run cfg tty evs))) `prefix_of` written B evs
  /\ match fst (run cfg tty evs) with
     | None =>
         delivered (end_b (snd (run cfg tty evs))) = written A evs
         /\ delivered (end_a (snd (run cfg tty evs))) = written B evs
     | Some o =>
         exists done ev rest,
           evs = done ++ ev :: rest
           /\ fst (run cfg tty done) = None
           /\ ends cfg done ev o
           /\ delivered (end_b (snd (run cfg tty evs))) = written A done
           /\ delivered (end_a (snd (run cfg tty evs))) = written B done
     end.
Proof.
intros Hbuf.
assert (Hdr : drained (enter tty)) by now repeat split.
pose proof (loop_spec cfg Hbuf evs (enter tty) Hdr) as Hspec.
assert (Hrun : run cfg tty evs
               = match loop cfg evs (enter tty) with
                 | (Some out, st) => (Some out, leave st)
                 | (None, st) => (None, st)
                 end) by reflexivity.
rewrite Hrun. clear Hrun. destruct (loop cfg evs (enter tty)) as [[o|] st].
- destruct Hspec as (done & ev & rest & st1 & -> & Hdone & Hends & Hb & Ha).
  cbn [enter end_a end_b delivered fresh_end app] in Hb, Ha.
  cbn [fst snd leave end_a end_b delivered].
  rewrite Hb, Ha, !written_app.
  split; [apply prefix_app_r; reflexivity|].
  split; [apply prefix_app_r; reflexivity|].
  exists done, ev, rest. split; [reflexivity|].
  pose proof (loop_spec cfg Hbuf done (enter tty) Hdr) as Hd.
  rewrite Hdone in Hd. destruct Hd as (_ & _ & _ & Hidle & Hflags).
  split; [unfold run; now rewrite Hdone|].
  split; [|now split].
  destruct o as [s| |s|], ev as [s' [|x c]|s'|s' n|s'|dt|]; cbn [ends_at] in Hends;
    try contradiction; cbn [ends].
  + exact Hends.
  + rewrite Hidle in Hends. exact Hends.
  + destruct Hends as [-> Hf]. split; [reflexivity|].
    rewrite Hflags in Hf. apply broken_In.
    destruct s; cbn in Hf; exact Hf.
  + exact I.
- destruct Hspec as (_ & Hb & Ha & _).
  cbn [enter end_a end_b delivered fresh_end app] in Hb, Ha.
  cbn [fst snd]. rewrite Hb, Ha.
  split; [reflexivity|]. split; [reflexivity|]. now split.
Qed.

End RelayFacts.

(* ===================================================================== *)
(** * The theorems at work on the sample installation *)
(* ===================================================================== *)

Module Examples.
Import Py Sys Format Utils Menu Discovery Cleanup SocketProxy.
Import Sample.

(** The user answers [99], is refused, answers [0] and gets the first
    console. *)
Lemma selectConsole_turns_witness :
  [alpha; beta] <> []
  /\ selectConsole "Consoles:" [alpha; beta] (session (typed ["99"; "0"]))
     = (Ok alpha,
        prompted (prompt "Consoles:" [alpha; beta]) []
          (refused_all (prompt "Consoles:" [alpha; beta]) ["99"] (keys ("0" +:+ nl) ++ [])
                       (session (typed ["99"; "0"])))).
Proof.
split; [discriminate|].
destruct (MenuFacts.selectConsole_turns "Consoles:" [alpha; beta] ltac:(discriminate))
  as (_ & _ & _ & _ & _ & H & _).
apply (H ["99"] "0" [] (session (typed ["99"; "0"])) alpha).
- constructor; [|constructor]. split; [reflexivity|]. split; [discriminate|reflexivity].
- reflexivity.
- reflexivity.
- reflexivity.
Defined.

(** With an id given, the name is not looked at. *)
Lemma select_by_id_or_name_witness :
  ProxyShell.doConnect_select installation (Some "0002") (Some "alpha") [alpha; beta]
                              (session [])
  = (Ok beta, session []).
Proof.
destruct (SelectionFacts.select_by_id_or_name installation (Some "0002") (Some "alpha")
            [alpha; beta] (session [])) as [H _].
destruct (H "0002" eq_refl ltac:(discriminate)) as [H1 _].
apply (H1 [alpha] beta []); [reflexivity|reflexivity|].
constructor; [discriminate|constructor].
Defined.

(** With no criteria, an empty list is an error and a single console is
    taken without asking. *)
Lemma select_without_criteria_witness :
  truthy_opt None = false
  /\ truthy_opt (Some "") = false
  /\ ProxyShell.doConnect_select installation None (Some "") [] (session [])
     = (Raise (UserVisibleRuntimeError "No available running VMs"), session [])
  /\ ProxyShell.doConnect_select installation None (Some "") [alpha] (session [])
     = (Ok alpha, session []).
Proof.
split; [reflexivity|]. split; [reflexivity|].
destruct (SelectionFacts.select_without_criteria installation None (Some "") (session [])
            eq_refl eq_refl) as (H0 & _ & H1 & _).
split; [exact H0|exact (H1 alpha)].
Defined.

(** C1 refuted: the user leaves the menu with [exit]; the session ends
    with status 1, not 0. *)
Lemma cancelled_session_status :
  fst (ProxyShell.main_try installation accept connect (session (keys ("exit" +:+ nl))))
  = Raise UserExit
  /\ fst (ProxyShell.main installation accept connect (session (keys ("exit" +:+ nl))))
     = Ok 1
  /\ fst (ProxyShell.main installation accept connect (session (keys ("exit" +:+ nl))))
     <> Ok 0.
Proof. vm_compute. repeat split; discriminate. Qed.

(** The same session through the theorem: status 1, and the world as the
    cancellation left it. *)
Lemma main_exit_status_witness :
  ProxyShell.main installation accept connect (session (keys ("exit" +:+ nl)))
  = (Ok 1,
     snd (ProxyShell.main_try installation accept connect (session (keys ("exit" +:+ nl))))).
Proof.
destruct (MainFacts.main_exit_status installation accept connect (inl UserExit) []
            (session (keys ("exit" +:+ nl)))) as (_ & H & _).
apply (H UserExit); [vm_compute; reflexivity|left; reflexivity].
Defined.

(** The name [..] on the sample host: looked up above the console
    directory. *)
Lemma parent_directory_name_accepted_witness :
  config "host" "consoledir" = inr "/var/run/ovirt-vmconsole-console"
  /\ w_trace (snd (HostShell.doConnect_socket installation ".." host_session))
     = [SysAccess "/var/run/ovirt-vmconsole-console/.." 0;
        SysAccess "/var/run/ovirt-vmconsole-console/.." 6].
Proof.
split; [reflexivity|].
destruct (HostFacts.parent_directory_name_accepted installation host_session
            "/var/run/ovirt-vmconsole-console" eq_refl) as (_ & _ & _ & H).
exact H.
Defined.

(** C6 refuted: the command exits with 0 and prints nothing;
    [executeJson] raises [JSONDecodeError], not the malformed-output
    error. *)
Lemma empty_output_error :
  fst (executeJson (env_with 0 "") "Console list" "list" (session []))
  = Raise (JSONDecodeError "Expecting value")
  /\ fst (executeJson (env_with 0 "") "Console list" "list" (session []))
     <> Raise (RuntimeError "Console list malformed output").
Proof. vm_compute. split; [reflexivity|discriminate]. Qed.

(** The same through the theorem, and the session it ends. *)
Lemma discovery_failures_witness :
  e_popen (env_with 0 "") "ovirt-vmconsole-list.py --version 1 keys user-1"
  = (0, "", "")
  /\ fst (executeJson (env_with 0 "") "Console list"
                      "ovirt-vmconsole-list.py --version 1 keys user-1" (session []))
     = Raise (JSONDecodeError "Expecting value")
  /\ fst (ProxyShell.main (env_with 0 "") accept connect (session [])) = Ok 1
  /\ w_stderr (snd (ProxyShell.main (env_with 0 "") accept connect (session [])))
     = "ERROR: Internal error" +:+ nl.
Proof.
split; [reflexivity|].
destruct (DiscoveryFacts.discovery_failures (env_with 0 "") "Console list"
            "ovirt-vmconsole-list.py --version 1 keys user-1" (session []) 0 "" ""
            eq_refl) as (_ & _ & H & _ & Hmain).
split; [exact (H eq_refl eq_refl)|].
assert (Hd : discovering (env_with 0 "") accept connect
                         (ProxyShell.Args false "user-1" "user-1")
                         (ProxyShell.Connect false None None)
                         "ovirt-vmconsole-list.py --version 1 keys user-1").
{ split.
  - reflexivity.
  - exists false, "user-1", None. split; reflexivity.
  - reflexivity.
  - exists false. intros w. reflexivity.
  - reflexivity.
  - eexists. split; reflexivity. }
destruct (Hmain accept connect _ _ (JSONDecodeError "Expecting value") eq_refl Hd
            (H eq_refl eq_refl)) as (H1 & H2 & _).
split; [exact H1|exact H2].
Defined.

(** An empty object is valid JSON, and refused. *)
Lemma executeJson_truthiness_witness :
  e_popen (env_with 0 "{}") "list" = (0, "{}", "")
  /\ Json.loads "{}" = inr (Json.Obj [])
  /\ Json.truthy (Json.Obj []) = false
  /\ fst (executeJson (env_with 0 "{}") "Console list" "list" (session []))
     = Raise (RuntimeError "Console list malformed output").
Proof.
split; [reflexivity|]. split; [reflexivity|]. split; [reflexivity|].
destruct (DiscoveryFacts.executeJson_truthiness (env_with 0 "{}") "Console list" "list"
            (session []) "{}" "" (Json.Obj []) eq_refl eq_refl) as (H & _).
exact (H eq_refl).
Defined.


(** The anchor written for [beta]. *)
Lemma trust_anchor_file_witness :
  ProxyShell.doConnect_known_hosts installation beta (session [])
  = (Ok "/tmp/tmp0a1b2c3d", anchored)
  /\ w_fs (session []) !! "/tmp/tmp0a1b2c3d" = None
  /\ w_fs anchored !! "/tmp/tmp0a1b2c3d" = Some anchor
  /\ one_line (f_data anchor) = true.
Proof.
assert (Hrun : ProxyShell.doConnect_known_hosts installation beta (session [])
               = (Ok "/tmp/tmp0a1b2c3d", anchored)) by (vm_compute; reflexivity).
split; [exact Hrun|].
destruct (AnchorFacts.trust_anchor_file installation beta (session []) anchored
            "/tmp/tmp0a1b2c3d" Hrun)
  as (ca & alias & Hca & Hal & Hnew & _ & Hfs & Hline & _).
vm_compute in Hca. injection Hca as <-.
vm_compute in Hal. injection Hal as <-.
split; [exact Hnew|]. split.
- rewrite Hfs. apply lookup_insert_eq.
- exact (proj2 Hline (conj eq_refl (conj eq_refl eq_refl))).
Defined.

(** C7 refuted: with two keys in [ca.pub], the anchor that is written
    holds two lines. *)
Lemma anchor_of_two_lines :
  fst (ProxyShell.doConnect_known_hosts installation beta two_keys) = Ok "/tmp/tmp0a1b2c3d"
  /\ w_fs (snd (ProxyShell.doConnect_known_hosts installation beta two_keys))
       !! "/tmp/tmp0a1b2c3d"
     = Some (File ("@cert-authority host2.example,ovirt-vmconsole-host ssh-rsa AAAAB3Nza old"
                   +:+ nl +:+ "ssh-rsa AAAAB3Nza new") 384 36 36)
  /\ one_line ("@cert-authority host2.example,ovirt-vmconsole-host ssh-rsa AAAAB3Nza old"
               +:+ nl +:+ "ssh-rsa AAAAB3Nza new") = false.
Proof. vm_compute. repeat split. Qed.

(** The cleanup of that anchor: there after three seconds, the session of
    the parent long gone; removed after five. *)
Lemma anchor_cleanup_witness :
  ProxyShell.doConnect_cleanup installation "/tmp/tmp0a1b2c3d" anchored = (Ok tt, cleaning)
  /\ w_fs anchored !! "/tmp/tmp0a1b2c3d" = Some anchor
  /\ w_procs anchored = []
  /\ (w_sid anchored < w_next_pid anchored)%nat
  /\ configured_delay installation = Some 5
  /\ w_fs cleaning !! "/tmp/tmp0a1b2c3d" = Some anchor
  /\ w_fs (steps [Hangup 40; Tick 3] cleaning) !! "/tmp/tmp0a1b2c3d" = Some anchor
  /\ w_fs (steps [Hangup 40; Tick 3; Tick 2] cleaning) !! "/tmp/tmp0a1b2c3d" = None
  /\ (unlink_calls "/tmp/tmp0a1b2c3d"
        (w_trace (steps [Tick 5; Tick 5; Removed "/tmp/tmp0a1b2c3d"; Tick 60] cleaning))
      <= 1)%nat.
Proof.
assert (Hrun : ProxyShell.doConnect_cleanup installation "/tmp/tmp0a1b2c3d" anchored
               = (Ok tt, cleaning)) by (vm_compute; reflexivity).
assert (Hf : w_fs anchored !! "/tmp/tmp0a1b2c3d" = Some anchor)
  by (vm_compute; reflexivity).
assert (Hp : w_procs anchored = []) by (vm_compute; reflexivity).
assert (Hs : (w_sid anchored < w_next_pid anchored)%nat) by (vm_compute; lia).
assert (Hcfg : configured_delay installation = Some 5) by reflexivity.
split; [exact Hrun|]. split; [exact Hf|]. split; [exact Hp|]. split; [exact Hs|].
split; [exact Hcfg|].
destruct (CleanupFacts.anchor_cleanup installation "/tmp/tmp0a1b2c3d" anchored cleaning
            (Ok tt) anchor Hrun Hf Hp Hs) as (Hsched & _ & Honce & _).
destruct (Hsched 5 eq_refl Hcfg ltac:(lia) eq_refl)
  as (Hthere & d & _ & _ & _ & _ & Hruns & _).
split; [exact Hthere|].
assert (Hsid : w_sid cleaning = 40%nat) by (vm_compute; reflexivity).
split; [|split].
- destruct (Hruns [Hangup 40; Tick 3]) as [H _].
  { rewrite Hsid. repeat constructor. }
  destruct (H ltac:(cbn; lia)) as (_ & Hfile & _). exact Hfile.
- destruct (Hruns [Hangup 40; Tick 3; Tick 2]) as [_ H].
  { rewrite Hsid. repeat constructor. }
  destruct (H ltac:(cbn; lia)) as (_ & Hfile & _). exact Hfile.
- specialize (Honce [Tick 5; Tick 5; Removed "/tmp/tmp0a1b2c3d"; Tick 60]).
  assert (H0 : unlink_calls "/tmp/tmp0a1b2c3d" (w_trace anchored) = 0%nat)
    by (vm_compute; reflexivity).
  rewrite H0 in Honce. exact Honce.
Defined.

(** C8 refuted: with a delay of [-5] the cleanup starts and reports
    success, but no process is left to remove the anchor; an hour
    later the file is still there and [os.unlink] has not been
    called. *)
Lemma negative_delay_leaves_anchor :
  configured_delay hasty = Some (-5)
  /\ fst (ProxyShell.doConnect_cleanup hasty "/tmp/tmp0a1b2c3d" anchored) = Ok tt
  /\ w_procs (snd (ProxyShell.doConnect_cleanup hasty "/tmp/tmp0a1b2c3d" anchored)) = []
  /\ w_fs (steps [Tick 3600]
                 (snd (ProxyShell.doConnect_cleanup hasty "/tmp/tmp0a1b2c3d" anchored)))
       !! "/tmp/tmp0a1b2c3d"
     = Some anchor
  /\ unlink_calls "/tmp/tmp0a1b2c3d"
       (w_trace (steps [Tick 3600]
                       (snd (ProxyShell.doConnect_cleanup hasty "/tmp/tmp0a1b2c3d"
                                                          anchored))))
     = 0%nat.
Proof. vm_compute. repeat split. Qed.

(** Eleven bytes through a buffer of four, one byte back, then the end of
    the stream on A: all of it arrived, in order, before the bridge
    stopped. *)
Lemma relay_byte_exact_witness :
  (0 < bufferSize bridge)%nat
  /\ fst (run bridge true traffic) = Some (ClosedByPeer A)
  /\ delivered (end_b (snd (run bridge true traffic))) `prefix_of` written A traffic
  /\ exists done ev rest,
      traffic = done ++ ev :: rest
      /\ fst (run bridge true done) = None
      /\ Relay.ends bridge done ev (ClosedByPeer A)
      /\ delivered (end_b (snd (run bridge true traffic))) = written A done
      /\ delivered (end_a (snd (run bridge true traffic))) = written B done.
Proof.
assert (Hbuf : (0 < bufferSize bridge)%nat) by (cbn; lia).
assert (Hr : fst (run bridge true traffic) = Some (ClosedByPeer A))
  by (vm_compute; reflexivity).
split; [exact Hbuf|]. split; [exact Hr|].
destruct (RelayFacts.relay_byte_exact bridge true traffic Hbuf) as (Hb & _ & Hex).
split; [exact Hb|].
rewrite Hr in Hex. exact Hex.
Defined.

End Examples.

(* ===================================================================== *)
(** * The menu: numbers shown and numbers typed *)
(* ===================================================================== *)

Module NumberFacts.
Import Py Sys Format Utils Menu TextFacts MenuFacts Effects.

Lemma digit_val_chr m : (m < 10)%nat -> digit_val (chr (48 + m)) = Some (Z.of_nat m).
Proof.
intros H. do 10 (destruct m as [|m]; [reflexivity|]). lia.
Qed.

Lemma digits_only_app a b : digits_only (a +:+ b) = digits_only a && digits_only b.
Proof.
induction a as [|c a IH]; [reflexivity|].
change (match digit_val c with Some _ => digits_only (a +:+ b) | None => false end
        = match digit_val c with Some _ => digits_only a | None => false end
          && digits_only b).
destruct (digit_val c); [exact IH|reflexivity].
Qed.

Lemma digits_val_app a b :
  forall acc, digits_only a = true ->
    Json.digits_val (a +:+ b) acc = Json.digits_val b (Json.digits_val a acc).
Proof.
induction a as [|x a IH]; intros acc Ha; [reflexivity|].
cbn [digits_only] in Ha.
change (match digit_val x with
        | Some v => Json.digits_val (a +:+ b) (10 * acc + v)
        | None => acc
        end
        = Json.digits_val b match digit_val x with
                            | Some v => Json.digits_val a (10 * acc + v)
                            | None => acc
                            end).
destruct (digit_val x); [now apply IH|discriminate].
Qed.

(** The digits [str] writes for [n], read back from the left. *)
Lemma dec_digits_val fuel :
  forall n acc, (n < fuel)%nat ->
    exists d, dec_digits fuel n acc = d +:+ acc
              /\ digits_only d = true /\ d <> EmptyString
              /\ forall a, Json.digits_val d a
                           = a * 10 ^ Z.of_nat (String.length d) + Z.of_nat n.
Proof.
induction fuel as [|fuel IH]; intros n acc Hn; [lia|].
cbn [dec_digits].
assert (Hm : (n mod 10 < 10)%nat) by (apply Nat.mod_upper_bound; lia).
pose proof (digit_val_chr _ Hm) as Hc.
destruct (Nat.eqb_spec (n / 10) 0) as [Hq|Hq].
- exists (String (chr (48 + n mod 10)) "").
  split; [reflexivity|]. split; [cbn [digits_only]; now rewrite Hc|].
  split; [discriminate|]. intros a.
  cbn [Json.digits_val String.length]. rewrite Hc.
  pose proof (Nat.div_mod_eq n 10) as Hdm. rewrite Hq in Hdm.
  change (10 ^ Z.of_nat 1) with 10. lia.
- assert (Hlt : (n / 10 < fuel)%nat).
  { pose proof (Nat.div_lt n 10). assert (0 < n)%nat by (destruct n; [easy|lia]). lia. }
  destruct (IH (n / 10)%nat (String (chr (48 + n mod 10)) acc) Hlt)
    as (d & Hd & Hdig & Hne & Hval).
  exists (d +:+ String (chr (48 + n mod 10)) "").
  split; [rewrite Hd, append_assoc; reflexivity|].
  split; [rewrite digits_only_app, Hdig; cbn [digits_only andb]; now rewrite Hc|].
  split; [destruct d; [congruence|discriminate]|].
  intros a. rewrite digits_val_app by exact Hdig.
  cbn [Json.digits_val]. rewrite Hc, Hval, length_append.
  cbn [String.length]. rewrite Nat2Z.inj_add, Z.pow_add_r by lia.
  change (10 ^ Z.of_nat 1) with 10.
  pose proof (Nat.div_mod_eq n 10) as Hdm.
  assert (Z.of_nat n = 10 * Z.of_nat (n / 10) + Z.of_nat (n mod 10)) by lia.
  lia.
Qed.

Lemma str_nat_digits n :
  digits_only (str_nat n) = true /\ str_nat n <> EmptyString
  /\ Json.digits_val (str_nat n) 0 = Z.of_nat n.
Proof.
unfold str_nat.
destruct (dec_digits_val (S n) n "" ltac:(lia)) as (d & -> & Hd & Hne & Hv).
rewrite append_nil_r. split; [exact Hd|]. split; [exact Hne|].
rewrite Hv. lia.
Qed.

(** [int_digits] on digits only: their value, and how many they are. *)
Lemma int_digits_only s :
  forall acc seen b,
    digits_only s = true -> (s <> EmptyString \/ b = true) ->
    int_digits s acc seen b
    = Some (Json.digits_val s acc, (seen + String.length s)%nat).
Proof.
induction s as [|c s IH]; intros acc seen b Hd Hne.
- destruct Hne as [Hne| ->]; [congruence|]. cbn. now rewrite Nat.add_0_r.
- cbn [digits_only] in Hd. cbn [int_digits Json.digits_val String.length].
  destruct (digit_val c) as [d|] eqn:Hc; [|discriminate].
  assert (Hu : Ascii.eqb c "_" = false).
  { destruct (Ascii.eqb_spec c "_") as [->|]; [discriminate Hc|reflexivity]. }
  rewrite Hu, (IH _ _ _ Hd (or_intror eq_refl)). f_equal. f_equal. lia.
Qed.

Lemma digits_not_space c d : digit_val c = Some d -> mem_ascii c whitespace = false.
Proof.
unfold digit_val. intros H.
destruct (((48 <=? ord c) && (ord c <=? 57))%nat) eqn:Hr; [|discriminate].
apply andb_true_iff in Hr as [H1 H2].
apply Nat.leb_le in H1, H2.
unfold mem_ascii, whitespace. apply not_true_iff_false. intros Hin.
apply existsb_exists in Hin as (x & Hx & Heq).
apply Ascii.eqb_eq in Heq. subst x.
apply in_map_iff in Hx as (k & Hk & Hin).
assert (Hord : ord (chr k) = k).
{ unfold ord, chr. apply nat_ascii_embedding.
  cbn in Hin. repeat (destruct Hin as [<-|Hin]; [lia|]). easy. }
rewrite <- Hk, Hord in H1, H2.
cbn in Hin. repeat (destruct Hin as [<-|Hin]; [lia|]). easy.
Qed.

Lemma rstrip_digits chars s :
  digits_only s = true -> (forall c d, digit_val c = Some d -> mem_ascii c chars = false) ->
  rstrip chars s = s.
Proof.
intros Hd Hc. induction s as [|c s IH]; [reflexivity|].
cbn [digits_only] in Hd. destruct (digit_val c) as [d|] eqn:Hv; [|discriminate].
cbn [rstrip]. rewrite (IH Hd). destruct s; [|reflexivity].
now rewrite (Hc _ _ Hv).
Qed.

Lemma lstrip_digits chars s :
  digits_only s = true -> (forall c d, digit_val c = Some d -> mem_ascii c chars = false) ->
  lstrip chars s = s.
Proof.
intros Hd Hc. destruct s as [|c s]; [reflexivity|].
cbn [digits_only] in Hd. destruct (digit_val c) as [d|] eqn:Hv; [|discriminate].
cbn [lstrip]. now rewrite (Hc _ _ Hv).
Qed.

(** [int] reads a run of digits as the number they spell, up to the
    limit on their count. *)
Lemma int_of_digits s :
  digits_only s = true -> s <> EmptyString ->
  (String.length s <= int_max_str_digits)%nat ->
  Py.int s = Some (Json.digits_val s 0).
Proof.
intros Hd Hne Hlen. unfold Py.int, strip.
rewrite (rstrip_digits _ _ Hd digits_not_space), (lstrip_digits _ _ Hd digits_not_space).
assert (Hu : int_unsigned s = Some (Json.digits_val s 0)).
{ unfold int_unsigned. rewrite (int_digits_only _ _ _ false Hd (or_introl Hne)).
  cbn [Nat.add]. apply Nat.leb_le in Hlen. now rewrite Hlen. }
destruct s as [|c r]; [congruence|].
cbn [digits_only] in Hd. destruct (digit_val c) as [d|] eqn:Hc; [|discriminate].
destruct (Ascii.eqb_spec c "+") as [->|_]; [discriminate Hc|].
destruct (Ascii.eqb_spec c "-") as [->|_]; [discriminate Hc|].
destruct c as [[] [] [] [] [] [] [] []]; try exact Hu; discriminate Hc.
Qed.

Lemma str_nat_one_digit n : (n < 10)%nat -> String.length (str_nat n) = 1%nat.
Proof.
intros H. do 10 (destruct n as [|n]; [reflexivity|]). lia.
Qed.

(** The number the menu shows for position [n] is text that [int] reads
    back as [n]. *)
Lemma format_02_read n :
  (String.length (str_nat n) <= int_max_str_digits)%nat ->
  digits_only (format_02 n) = true /\ format_02 n <> EmptyString
  /\ Py.int (format_02 n) = Some (Z.of_nat n).
Proof.
intros Hlen. destruct (str_nat_digits n) as (Hd & Hne & Hv).
unfold format_02. destruct (Nat.ltb_spec n 10) as [Hn|Hn].
- assert (Hd' : digits_only ("0" +:+ str_nat n) = true) by exact Hd.
  split; [exact Hd'|]. split; [discriminate|].
  rewrite int_of_digits; [|exact Hd'|discriminate|].
  + change (Json.digits_val ("0" +:+ str_nat n) 0) with (Json.digits_val (str_nat n) 0).
    now rewrite Hv.
  + change (String.length ("0" +:+ str_nat n)) with (S (String.length (str_nat n))).
    rewrite (str_nat_one_digit _ Hn). unfold int_max_str_digits. lia.
- split; [exact Hd|]. split; [exact Hne|].
  rewrite int_of_digits by assumption. now rewrite Hv.
Qed.

Lemma digits_one_line s : digits_only s = true -> one_line s = true.
Proof.
induction s as [|c s IH]; [reflexivity|].
cbn [digits_only one_line]. destruct (digit_val c) eqn:Hc; [|discriminate].
intros H. rewrite (IH H).
destruct (Ascii.eqb_spec c NL) as [->|]; [discriminate Hc|reflexivity].
Qed.

Lemma rstrip_line_end s : rstrip [CR; NL] (s +:+ nl) = rstrip [CR; NL] s.
Proof.
induction s as [|c s IH]; [reflexivity|].
change (match rstrip [CR; NL] (s +:+ nl) with
        | EmptyString => if mem_ascii c [CR; NL] then EmptyString else String c EmptyString
        | String x r => String c (String x r)
        end
        = match rstrip [CR; NL] s with
          | EmptyString => if mem_ascii c [CR; NL] then EmptyString else String c EmptyString
          | String x r => String c (String x r)
          end).
now rewrite IH.
Qed.

Lemma digits_not_line_end c d : digit_val c = Some d -> mem_ascii c [CR; NL] = false.
Proof.
intros H. unfold mem_ascii. cbn [existsb].
destruct (Ascii.eqb_spec c CR) as [->|]; [discriminate H|].
destruct (Ascii.eqb_spec c NL) as [->|]; [discriminate H|]. reflexivity.
Qed.

Lemma entered_digits s : digits_only s = true -> entered s = s.
Proof.
intros H. unfold entered. rewrite rstrip_line_end.
exact (rstrip_digits _ _ H digits_not_line_end).
Qed.

(** Where the menu shows the entry at position [i]. *)
Lemma numbered_at consoles :
  forall k i e, consoles !! i = Some e ->
    exists before after,
      numbered k consoles
      = before +:+ (format_02 (k + i) +:+ " " +:+ vm e +:+ "[" +:+ vmid e +:+ "]" +:+ nl)
        +:+ after.
Proof.
induction consoles as [|x rest IH]; intros k i e Hi; [discriminate|].
destruct i as [|i].
- injection Hi as ->. exists EmptyString, (numbered (S k) rest).
  rewrite Nat.add_0_r. cbn [numbered]. rewrite !append_assoc. reflexivity.
- destruct (IH (S k) i e Hi) as (b & a & Hn).
  exists (format_02 k +:+ " " +:+ vm x +:+ "[" +:+ vmid x +:+ "]" +:+ nl +:+ b), a.
  cbn [numbered]. rewrite Hn, Nat.add_succ_r. rewrite !append_assoc. reflexivity.
Qed.

(** X1.  The number the menu displays next to an entry, typed back as it
    is shown, selects that entry: the menu line of the entry at position
    [i] starts with [i] written with at least two digits, and a line
    holding exactly that text makes [selectConsole] return the entry,
    after one prompt.  (Python's [int] refuses more than 4300 digits, so
    the position must be writable within that.) *)
Theorem shown_number_selects (menu : string) (consoles : list Console) (i : nat)
        (e : Console) (rest : list key) (w : world) :
  consoles !! i = Some e ->
  (String.length (str_nat i) <= int_max_str_digits)%nat ->
  w_stdin w = keys (format_02 i +:+ nl) ++ rest ->
  (exists before after,
      prompt menu consoles
      = before +:+ (format_02 i +:+ " " +:+ vm e +:+ "[" +:+ vmid e +:+ "]" +:+ nl)
        +:+ after)
  /\ selectConsole menu consoles w = (Ok e, prompted (prompt menu consoles) rest w).
Proof.
intros Hi Hlen Hin.
destruct (format_02_read i Hlen) as (Hd & Hne & Hint).
split.
- destruct (numbered_at consoles 0 i e Hi) as (b & a & Hn).
  exists (menu +:+ b), (a +:+ menu_footer).
  unfold prompt. rewrite Hn. cbn [Nat.add]. rewrite !append_assoc. reflexivity.
- apply (turn_chosen menu consoles (format_02 i) rest w e);
    [now apply digits_one_line|exact Hin|].
  unfold chosen. rewrite (entered_digits _ Hd), Hint.
  pose proof (lookup_lt_Some _ _ _ Hi) as Hlt.
  destruct (Z.ltb_spec (Z.of_nat i) 0) as [?|_]; [lia|].
  destruct (Z.geb_spec (Z.of_nat i) (Z.of_nat (length consoles))) as [?|_]; [lia|].
  cbn [orb]. now rewrite Nat2Z.id.
Qed.

End NumberFacts.

(* ===================================================================== *)
(** * The menu: what the loop writes and what it leaves alone *)
(* ===================================================================== *)

Module LoopFacts.
Import Py Sys Format Utils Menu TextFacts MenuFacts Effects.

Lemma take_line_suffix ks :
  forall l r, take_line ks = (l, r) -> exists used, ks = used ++ r.
Proof.
induction ks as [|k ks IH]; intros l r H.
- injection H as <- <-. now exists [].
- destruct k as [c|]; cbn [take_line] in H.
  + destruct (Ascii.eqb c NL).
    * injection H as <- <-. now exists [Chr c].
    * destruct (take_line ks) as [[l'|] r'] eqn:Ht.
      -- injection H as <- <-. destruct (IH _ _ eq_refl) as (u & ->). now exists (Chr c :: u).
      -- injection H as <- <-. destruct (IH _ _ eq_refl) as (u & ->). now exists (Chr c :: u).
  + injection H as <- <-. now exists [Intr].
Qed.

Lemma lookup_In {X} (l : list X) :
  forall n x, l !! n = Some x -> In x l.
Proof.
induction l as [|y l IH]; intros n x H; [discriminate|].
destruct n as [|n]; [injection H as ->; now left|].
right. exact (IH n x H).
Qed.

(** The loop, turn after turn. *)
Lemma select_loop_accounting m consoles fuel :
  forall w, (length (w_stdin w) < fuel)%nat ->
    exists k used,
      w_stdin w = used ++ w_stdin (snd (select_loop fuel m consoles w))
      /\ w_stdout (snd (select_loop fuel m consoles w)) = w_stdout w +:+ times (S k) m
      /\ w_stderr (snd (select_loop fuel m consoles w))
         = w_stderr w +:+ times k invalid_selection
      /\ w_fs (snd (select_loop fuel m consoles w)) = w_fs w
      /\ w_trace (snd (select_loop fuel m consoles w)) = w_trace w
      /\ w_syslog (snd (select_loop fuel m consoles w)) = w_syslog w
      /\ w_procs (snd (select_loop fuel m consoles w)) = w_procs w
      /\ (forall e, fst (select_loop fuel m consoles w) = Ok e -> In e consoles).
Proof.
induction fuel as [|fuel IH]; intros w Hf; [lia|].
rewrite select_loop_S.
destruct (take_line (w_stdin w)) as [[l|] r] eqn:Ht.
2:{ destruct (take_line_suffix _ _ _ Ht) as (u & Hu).
    exists 0%nat, u. cbn [snd fst times]. unfold prompted.
    cbn [w_stdin w_stdout w_stderr w_fs w_trace w_syslog w_procs with_stdin with_stdout].
    rewrite !append_nil_r. repeat split; try assumption. discriminate. }
destruct (take_line_suffix _ _ _ Ht) as (u & Hu).
assert (Hstop : forall o,
           (forall e, o = Ok e -> In e consoles) ->
           exists k used,
             w_stdin w = used ++ w_stdin (snd (o, prompted m r w))
             /\ w_stdout (snd (o, prompted m r w)) = w_stdout w +:+ times (S k) m
             /\ w_stderr (snd (o, prompted m r w)) = w_stderr w +:+ times k invalid_selection
             /\ w_fs (snd (o, prompted m r w)) = w_fs w
             /\ w_trace (snd (o, prompted m r w)) = w_trace w
             /\ w_syslog (snd (o, prompted m r w)) = w_syslog w
             /\ w_procs (snd (o, prompted m r w)) = w_procs w
             /\ (forall e, fst (o, prompted m r w) = Ok e -> In e consoles)).
{ intros o Ho. exists 0%nat, u. cbn [snd fst times]. unfold prompted.
  cbn [w_stdin w_stdout w_stderr w_fs w_trace w_syslog w_procs with_stdin with_stdout].
  rewrite !append_nil_r. repeat split; assumption. }
assert (Hagain : negb (truthy_str l) = false ->
           exists k used,
             w_stdin w = used ++ w_stdin (snd (select_loop fuel m consoles (refused m r w)))
             /\ w_stdout (snd (select_loop fuel m consoles (refused m r w)))
                = w_stdout w +:+ times (S k) m
             /\ w_stderr (snd (select_loop fuel m consoles (refused m r w)))
                = w_stderr w +:+ times k invalid_selection
             /\ w_fs (snd (select_loop fuel m consoles (refused m r w))) = w_fs w
             /\ w_trace (snd (select_loop fuel m consoles (refused m r w))) = w_trace w
             /\ w_syslog (snd (select_loop fuel m consoles (refused m r w))) = w_syslog w
             /\ w_procs (snd (select_loop fuel m consoles (refused m r w))) = w_procs w
             /\ (forall e, fst (select_loop fuel m consoles (refused m r w)) = Ok e
                           -> In e consoles)).
{ intros Hl. apply truthy_str_nonempty in Hl.
  pose proof (take_line_shorter _ _ _ Ht Hl) as Hlen.
  assert (Hw : w_stdin (refused m r w) = r
               /\ w_stdout (refused m r w) = w_stdout w +:+ m
               /\ w_stderr (refused m r w) = w_stderr w +:+ invalid_selection
               /\ w_fs (refused m r w) = w_fs w
               /\ w_trace (refused m r w) = w_trace w
               /\ w_syslog (refused m r w) = w_syslog w
               /\ w_procs (refused m r w) = w_procs w) by (repeat split; reflexivity).
  destruct Hw as (E1 & E2 & E3 & E4 & E5 & E6 & E7).
  destruct (IH (refused m r w)) as (k & u' & H1 & H2 & H3 & H4 & H5 & H6 & H7 & H8).
  { rewrite E1. lia. }
  exists (S k), (u ++ u').
  rewrite E1 in H1. rewrite E2 in H2. rewrite E3 in H3.
  split; [rewrite <- app_assoc, <- H1; exact Hu|].
  split; [rewrite H2, append_assoc; reflexivity|].
  split; [rewrite H3, append_assoc; reflexivity|].
  repeat split; try congruence. exact H8. }
destruct (negb (truthy_str l)) eqn:Hl; [apply Hstop; discriminate|].
destruct (String.eqb (rstrip [CR; NL] l) "exit"); [apply Hstop; discriminate|].
destruct (Py.int (rstrip [CR; NL] l)) as [i|]; [|now apply Hagain].
destruct ((i <? 0) || (i >=? Z.of_nat (length consoles))); [now apply Hagain|].
destruct (consoles !! Z.to_nat i) as [e|] eqn:He; [|apply Hstop; discriminate].
apply Hstop. intros e' [= <-].
exact (lookup_In _ _ _ He).
Qed.

(** An entry [selectConsole] returns is one of the list. *)
Lemma selectConsole_In menu consoles w e w' :
  selectConsole menu consoles w = (Ok e, w') -> In e consoles.
Proof.
rewrite selectConsole_loop. intros H.
destruct (select_loop_accounting (prompt menu consoles) consoles
            (S (length (w_stdin w))) w ltac:(lia))
  as (k & u & _ & _ & _ & _ & _ & _ & _ & Hin).
apply Hin. now rewrite H.
Qed.

(** X2.  Whatever is typed, [selectConsole] comes to an end, and then,
    for some number [k] of refused answers: it has read a prefix of the
    pending input, written the menu [k + 1] times to standard output and
    the line [Invalid selection] [k] times to standard error, and nothing
    else; files, system calls, the log and the processes are as they
    were.  An entry it returns is one of the list. *)
Theorem selectConsole_accounting (menu : string) (consoles : list Console) (w : world) :
  fst (selectConsole menu consoles w) <> Diverged
  /\ exists k used,
      w_stdin w = used ++ w_stdin (snd (selectConsole menu consoles w))
      /\ w_stdout (snd (selectConsole menu consoles w))
         = w_stdout w +:+ times (S k) (prompt menu consoles)
      /\ w_stderr (snd (selectConsole menu consoles w))
         = w_stderr w +:+ times k ("Invalid selection" +:+ nl)
      /\ w_fs (snd (selectConsole menu consoles w)) = w_fs w
      /\ w_trace (snd (selectConsole menu consoles w)) = w_trace w
      /\ w_syslog (snd (selectConsole menu consoles w)) = w_syslog w
      /\ w_procs (snd (selectConsole menu consoles w)) = w_procs w
      /\ (forall e, fst (selectConsole menu consoles w) = Ok e -> In e consoles).
Proof.
rewrite selectConsole_loop. split.
- apply select_loop_returns. lia.
- apply select_loop_accounting. lia.
Qed.

End LoopFacts.

(* ===================================================================== *)
(** * How outcomes and effects compose *)
(* ===================================================================== *)

Module EffectFacts.
Import Py Sys Format Utils ConfigParser Effects MenuFacts.

Lemma keeps_bind {A B C} (f : world -> C) (c : M A) (k : A -> M B) :
  keeps f c -> (forall a, keeps f (k a)) -> keeps f (bind c k).
Proof.
intros Hc Hk w. unfold bind. specialize (Hc w).
destruct (c w) as [[a|e| |] w1]; cbn [snd] in *; try exact Hc.
now rewrite Hk.
Qed.

Lemma halts_bind {A B} (c : M A) (k : A -> M B) :
  halts c -> (forall a, halts (k a)) -> halts (bind c k).
Proof.
intros Hc Hk w. unfold bind. specialize (Hc w).
destruct (c w) as [[a|e| |] w1]; cbn [fst] in *; try discriminate; [apply Hk|congruence].
Qed.

Lemma never_execs_bind {A B} (c : M A) (k : A -> M B) :
  never_execs c -> (forall a, never_execs (k a)) -> never_execs (bind c k).
Proof.
intros Hc Hk w. unfold bind. specialize (Hc w).
destruct (c w) as [[a|e| |] w1]; cbn [fst] in *; try discriminate; [apply Hk|congruence].
Qed.

Lemma never_returns_bind {A B} (c : M A) (k : A -> M B) :
  (forall a, never_returns (k a)) -> never_returns (bind c k).
Proof.
intros Hk w b. unfold bind.
destruct (c w) as [[a|e| |] w1]; cbn [fst]; try discriminate. apply Hk.
Qed.

(** A computation that is replaced went through its first half, or was
    replaced there. *)
Lemma bind_replaced {A B} (c : M A) (k : A -> M B) w w' :
  bind c k w = (Replaced, w') ->
  c w = (Replaced, w') \/ exists a w1, c w = (Ok a, w1) /\ k a w1 = (Replaced, w').
Proof.
unfold bind. destruct (c w) as [[a|e| |] w1]; try discriminate.
- intros H. right. now exists a, w1.
- intros [= <-]. now left.
Qed.

(** Goals about [keeps], [halts] and [never_execs], taken apart along
    the structure of the computation. *)
Ltac effects :=
  repeat first
    [ solve [eauto]
    | progress unfold lift
    | apply keeps_bind; [|intros ?]
    | apply halts_bind; [|intros ?]
    | apply never_execs_bind; [|intros ?]
    | match goal with
      | |- keeps _ (match ?x with _ => _ end) => destruct x
      | |- halts (match ?x with _ => _ end) => destruct x
      | |- never_execs (match ?x with _ => _ end) => destruct x
      end
    | (intros ?; reflexivity)
    | (intros ?; cbn; discriminate) ].

Lemma halts_selectConsole menu consoles : halts (selectConsole menu consoles).
Proof.
intros w. rewrite selectConsole_loop. apply select_loop_returns. lia.
Qed.

Lemma halts_executeJson E what command : halts (executeJson E what command).
Proof. unfold executeJson, lift. effects. Qed.

Lemma halts_get E s o : halts (get E s o).
Proof. unfold get, lift. effects. Qed.

Lemma halts_getint E s o : halts (getint E s o).
Proof. unfold getint. pose proof (halts_get E s o). effects. Qed.

Lemma halts_getboolean E s o : halts (getboolean E s o).
Proof. unfold getboolean. pose proof (halts_get E s o). effects. Qed.

Lemma halts_simpleDaemon E task : halts (simpleDaemon E task).
Proof.
unfold simpleDaemon. apply halts_bind.
- intros w. unfold os_fork, fork_from. destruct (w_nproc w); cbn; discriminate.
- intros pid. apply halts_bind.
  + intros w. unfold first_child. destruct (detach _ _); [cbn; discriminate|].
    destruct (fork_from pid w) as [[g|e| |] w1]; [|cbn; discriminate..].
    destruct (run_proc _ _ _). cbn. discriminate.
  + intros status. effects.
Qed.

End EffectFacts.

(* ===================================================================== *)
(** * The proxy shell, from its arguments to the hand-over *)
(* ===================================================================== *)

Module ProxyFacts.
Import Py Sys Format Utils ConfigParser ProxyShell Discovery Effects Menu.
Import TextFacts MenuFacts DiscoveryFacts AnchorFacts EffectFacts LoopFacts.

Lemma halts_validations E : halts (validations E).
Proof. unfold validations, lift. effects. Qed.

Lemma halts_doAccept E s : halts (doAccept E s).
Proof.
unfold doAccept.
pose proof (halts_get E "proxy" "console_list").
pose proof (fun c => halts_executeJson E (gettext "Console list") c).
unfold lift. effects.
Qed.

Lemma halts_doInfo E : halts (doInfo E).
Proof.
unfold doInfo. apply halts_bind; [|intros ca; apply halts_bind; [|intros cert]].
- intros w. unfold read_file. destruct (w_fs w !! _) as [f|]; [destruct (readable _ f)|];
    cbn; discriminate.
- intros w. unfold read_file. destruct (w_fs w !! _) as [f|]; [destruct (readable _ f)|];
    cbn; discriminate.
- intros w. cbn. discriminate.
Qed.

Lemma halts_doList_plain cs : halts (doList_plain cs).
Proof.
induction cs as [|e cs IH]; cbn [doList_plain]; [intros w; cbn; discriminate|].
unfold lift. effects.
Qed.

Lemma halts_doList s fmt : halts (doList s fmt).
Proof.
unfold doList. pose proof halts_doList_plain. effects.
Qed.

Lemma halts_doConnect_select E vm_id vm_name consoles :
  halts (doConnect_select E vm_id vm_name consoles).
Proof.
unfold doConnect_select.
pose proof (halts_get E "proxy" "console_menu_title").
pose proof halts_selectConsole.
unfold lift. effects.
Qed.

Lemma halts_doConnect_known_hosts E entry : halts (doConnect_known_hosts E entry).
Proof.
unfold doConnect_known_hosts.
pose proof (halts_get E "proxy" "ovirt_vmconsole_host_principal").
apply halts_bind; [intros w; cbn; discriminate|intros _].
apply halts_bind.
{ intros w. unfold read_file. destruct (w_fs w !! _) as [f|]; [destruct (readable _ f)|];
    cbn; discriminate. }
intros data. apply halts_bind; [intros w; cbn; discriminate|intros _].
apply halts_bind.
{ intros w. unfold mkstemp. destruct (first_free _ _); cbn; discriminate. }
intros name. unfold lift. effects.
Qed.

Lemma halts_doConnect_cleanup E name : halts (doConnect_cleanup E name).
Proof.
unfold doConnect_cleanup.
pose proof (halts_getint E "proxy" "known_hosts_close_delay").
pose proof (halts_simpleDaemon E).
effects.
Qed.

Lemma halts_os_execv E path argv : halts (os_execv E path argv).
Proof.
intros w. unfold os_execv. destruct (w_fs w !! path) as [f|]; [|cbn; discriminate].
destruct (executable _ f); cbn; discriminate.
Qed.

Lemma halts_doConnect_attach E s entry known_hosts :
  halts (doConnect_attach E s entry known_hosts).
Proof.
unfold doConnect_attach.
pose proof (halts_get E "proxy" "console_attach").
pose proof (halts_get E "proxy" "shell").
pose proof (halts_os_execv E).
unfold lift. effects.
Qed.

Lemma halts_doConnect E s vm_id vm_name : halts (doConnect E s vm_id vm_name).
Proof.
unfold doConnect.
pose proof (halts_doConnect_select E vm_id vm_name).
pose proof (halts_doConnect_known_hosts E).
pose proof (halts_doConnect_cleanup E).
pose proof (halts_doConnect_attach E s).
effects.
Qed.

Lemma halts_userargs_func E s : halts (userargs_func E s).
Proof.
unfold userargs_func.
pose proof (halts_doInfo E). pose proof (halts_doConnect E s). pose proof (halts_doList s).
effects.
Qed.

Lemma halts_parser_parse_args {A} said (parsed : exn + A) :
  halts (ArgumentParser.parse_args said parsed).
Proof.
unfold ArgumentParser.parse_args. destruct parsed as [[]|a]; intros w; cbn; discriminate.
Qed.

(** What was parsed, when the parser returns. *)
Lemma parser_parse_args_ok {A} said (parsed : exn + A) w a w1 :
  ArgumentParser.parse_args said parsed w = (Ok a, w1) -> parsed = inr a /\ w1 = w.
Proof.
unfold ArgumentParser.parse_args. destruct parsed as [[]|a']; try discriminate.
now intros [= -> ->].
Qed.

Lemma halts_main_try E argv cmd : halts (main_try E argv cmd).
Proof.
unfold main_try, parse_args.
pose proof (halts_parser_parse_args (e_argv_exit E) argv).
pose proof (halts_parser_parse_args (e_command_exit E) cmd).
pose proof (halts_getboolean E "proxy" "debug").
pose proof (halts_validations E).
pose proof (halts_doAccept E).
pose proof (halts_userargs_func E).
unfold lift. effects.
Qed.

Lemma never_returns_doConnect_attach E s entry known_hosts :
  never_returns (doConnect_attach E s entry known_hosts).
Proof.
unfold doConnect_attach.
do 7 (apply never_returns_bind; intros ?).
intros w r. discriminate.
Qed.

Lemma never_returns_doConnect E s vm_id vm_name :
  never_returns (doConnect E s vm_id vm_name).
Proof.
unfold doConnect. do 5 (apply never_returns_bind; intros ?).
apply never_returns_doConnect_attach.
Qed.

(** [doAccept] only fills in the console list. *)
Lemma doAccept_self E s w s' w' :
  doAccept E s w = (Ok s', w') -> _args s' = _args s /\ _userargs s' = _userargs s.
Proof.
unfold doAccept. intros H.
apply bind_ok in H as (tpl & w1 & _ & H).
apply bind_ok in H as (command & w2 & _ & H).
apply bind_ok in H as (out & w3 & _ & H).
apply bind_ok in H as (consoles & w4 & _ & H).
injection H as <- _. now split.
Qed.

(** What [main_try] has gone through when it ends normally. *)
Lemma main_try_ok E argv cmd w w' :
  main_try E argv cmd w = (Ok tt, w') ->
  exists a u s w1,
    cmd = inr u /\ _args s = a /\ _userargs s = u
    /\ userargs_func E s w1 = (Ok tt, w').
Proof.
unfold main_try. intros H.
apply bind_ok in H as ([] & w1 & _ & H).
apply bind_ok in H as (ar & w2 & _ & H).
apply bind_ok in H as (u & w3 & Hu & H).
apply bind_ok in H as (b & w4 & _ & H).
apply bind_ok in H as ([] & wa & _ & H).
apply bind_ok in H as ([] & wb & _ & H).
apply bind_ok in H as ([] & w5 & _ & H).
apply bind_ok in H as (s & w6 & Hs & H).
apply doAccept_self in Hs as [Ha Hu'].
exists ar, u, s, w6. cbn [_args _userargs] in Ha, Hu'.
apply parser_parse_args_ok in Hu as [-> _].
repeat split; assumption.
Qed.

(** X3.  The proxy shell's [main] always comes to an end, whatever its
    arguments and whatever is typed; and for the user command [connect]
    it never returns 0: a connect session either hands the process over
    to the attach command ([os.execv]) or ends with an error, since
    nothing follows the [os.execv] of [doConnect] but a [raise]. *)
Theorem connect_never_returns_zero (E : env) (argv : exn + namespace) (w : world) :
  (forall cmd, fst (main E argv cmd w) <> Diverged)
  /\ (forall d vm_id vm_name,
         fst (main E argv (inr (Connect d vm_id vm_name)) w) <> Ok 0).
Proof.
split.
- intros cmd. rewrite proxy_main_handlers.
  pose proof (halts_main_try E argv cmd w) as H.
  destruct (main_try E argv cmd w) as [[[]|e| |] w1]; cbn [fst] in *; try discriminate.
  + destruct e; cbn [is_Exception]; discriminate.
  + congruence.
- intros d vm_id vm_name. rewrite proxy_main_handlers.
  destruct (main_try E argv (inr (Connect d vm_id vm_name)) w) as [[[]|e| |] w1] eqn:Htry;
    cbn [fst]; try discriminate.
  + apply main_try_ok in Htry as (a & u & s & w2 & [= <-] & _ & Hu & Hf).
    unfold userargs_func in Hf. rewrite Hu in Hf.
    pose proof (never_returns_doConnect E s vm_id vm_name w2 tt) as Hn.
    rewrite Hf in Hn. now contradiction Hn.
  + destruct e; cbn [is_Exception]; discriminate.
Qed.

Lemma never_execs_select_loop m consoles fuel :
  forall w, fst (select_loop fuel m consoles w) <> Replaced.
Proof.
induction fuel as [|fuel IH]; intros w; [cbn; discriminate|].
rewrite select_loop_S.
destruct (take_line (w_stdin w)) as [[l|] r]; [|cbn; discriminate].
destruct (negb (truthy_str l)); [cbn; discriminate|].
destruct (String.eqb _ _); [cbn; discriminate|].
destruct (Py.int _) as [i|]; [|apply IH].
destruct (_ || _); [apply IH|].
destruct (consoles !! _); cbn; discriminate.
Qed.

Lemma never_execs_get E s o : never_execs (get E s o).
Proof. unfold get. effects. Qed.

Lemma never_execs_doConnect_select E vm_id vm_name consoles :
  never_execs (doConnect_select E vm_id vm_name consoles).
Proof.
unfold doConnect_select.
pose proof (never_execs_get E "proxy" "console_menu_title").
assert (forall menu, never_execs (selectConsole menu consoles)).
{ intros menu w. rewrite selectConsole_loop. apply never_execs_select_loop. }
effects.
Qed.

Lemma never_execs_doConnect_known_hosts E entry :
  never_execs (doConnect_known_hosts E entry).
Proof.
unfold doConnect_known_hosts.
pose proof (never_execs_get E "proxy" "ovirt_vmconsole_host_principal").
apply never_execs_bind; [intros w; cbn; discriminate|intros _].
apply never_execs_bind.
{ intros w. unfold read_file. destruct (w_fs w !! _) as [f|]; [destruct (readable _ f)|];
    cbn; discriminate. }
intros data. apply never_execs_bind; [intros w; cbn; discriminate|intros _].
apply never_execs_bind.
{ intros w. unfold mkstemp. destruct (first_free _ _); cbn; discriminate. }
intros name. effects.
Qed.

Lemma never_execs_simpleDaemon E task : never_execs (simpleDaemon E task).
Proof.
unfold simpleDaemon. apply never_execs_bind.
- intros w. unfold os_fork, fork_from. destruct (w_nproc w); cbn; discriminate.
- intros pid. apply never_execs_bind.
  + intros w. unfold first_child. destruct (detach _ _); [cbn; discriminate|].
    destruct (fork_from pid w) as [[g|e| |] w1]; [|cbn; discriminate..].
    destruct (run_proc _ _ _). cbn. discriminate.
  + intros status. effects.
Qed.

Lemma never_execs_doConnect_cleanup E name : never_execs (doConnect_cleanup E name).
Proof.
unfold doConnect_cleanup, getint.
pose proof (never_execs_get E "proxy" "known_hosts_close_delay").
pose proof (never_execs_simpleDaemon E).
effects.
Qed.

Lemma format_opening console host entity entityid known_hosts :
  format (gettext ("Opening console '{console}@{host}' on behalf of "
                   +:+ "'{entity}'[{entityid}]"))
         [("host", FStr host); ("console", FStr console); ("entityid", FStr entityid);
          ("entity", FStr entity); ("known_hosts_file", FStr known_hosts)]
  = inr ("Opening console '" +:+ console +:+ "@" +:+ host +:+ "' on behalf of '"
         +:+ entity +:+ "'[" +:+ entityid +:+ "]").
Proof. reflexivity. Qed.

(** Where [doConnect_attach] ends when the process is replaced. *)
Lemma doConnect_attach_replaced E s entry known_hosts w w' :
  doConnect_attach E s entry known_hosts w = (Replaced, w') ->
  exists shell tpl cmd,
    e_config E "proxy" "shell" = inr shell
    /\ e_config E "proxy" "console_attach" = inr tpl
    /\ str_format E tpl [("host", FStr (host entry)); ("console", FStr (console entry));
                         ("entityid", FStr (entityid (_args s)));
                         ("entity", FStr (entity (_args s)));
                         ("known_hosts_file", FStr known_hosts)] = inr cmd
    /\ (exists f, w_fs w !! shell = Some f /\ executable (effective E) f = true)
    /\ w_trace w' = w_trace w ++ [SysExecv shell [shell; "-c"; cmd]]
    /\ w_syslog w'
       = w_syslog w
         ++ [(INFO, "Opening console '" +:+ console entry +:+ "@" +:+ host entry
                    +:+ "' on behalf of '" +:+ entity (_args s) +:+ "'["
                    +:+ entityid (_args s) +:+ "]");
             (DEBUG, "Executing: " +:+ cmd)]
    /\ w_fs w' = w_fs w /\ w_procs w' = w_procs w
    /\ w_stdout w' = w_stdout w /\ w_stderr w' = w_stderr w.
Proof.
unfold doConnect_attach. rewrite format_opening. intros H.
apply bind_replaced in H as [H|(msg & w1 & H1 & H)]; [discriminate|].
injection H1 as <- <-.
apply bind_replaced in H as [H|([] & w2 & H2 & H)]; [discriminate|].
injection H2 as <-.
apply bind_replaced in H as [H|(tpl & w3 & H3 & H)].
{ unfold get in H. destruct (e_config E "proxy" "console_attach"); discriminate. }
unfold get in H3. destruct (e_config E "proxy" "console_attach") as [?|tpl'] eqn:Htpl;
  [discriminate|]. injection H3 as <- <-.
apply bind_replaced in H as [H|(cmd & w4 & H4 & H)].
{ destruct (str_format E tpl' _); discriminate. }
destruct (str_format E tpl' _) as [?|cmd'] eqn:Hcmd; [discriminate|]. injection H4 as <- <-.
apply bind_replaced in H as [H|([] & w5 & H5 & H)]; [discriminate|].
injection H5 as <-.
apply bind_replaced in H as [H|(shell & w6 & H6 & H)].
{ unfold get in H. destruct (e_config E "proxy" "shell"); discriminate. }
unfold get in H6. destruct (e_config E "proxy" "shell") as [?|shell'] eqn:Hsh;
  [discriminate|]. injection H6 as <- <-.
apply bind_replaced in H as [H|(u & w7 & H7 & H)]; [|discriminate].
unfold os_execv in H. cbn [w_fs with_syslog] in H.
destruct (w_fs w !! shell') as [f|] eqn:Hf; [|discriminate].
destruct (executable (effective E) f) eqn:Hx; [|discriminate].
injection H as <-.
exists shell', tpl', cmd'.
cbn [w_trace w_syslog w_fs w_procs w_stdout w_stderr with_trace with_syslog].
rewrite <- app_assoc.
split; [reflexivity|]. split; [reflexivity|]. split; [exact Hcmd|].
split; [now exists f|]. now repeat split.
Qed.

Lemma select_loop_answerable m consoles fuel :
  forall w, (length (w_stdin w) < fuel)%nat ->
    answerable (fun e => In e consoles) (fst (select_loop fuel m consoles w)).
Proof.
induction fuel as [|fuel IH]; intros w Hf; [lia|].
rewrite select_loop_S.
destruct (take_line (w_stdin w)) as [[l|] r] eqn:Ht; [|exact I].
destruct (negb (truthy_str l)) eqn:Hl; [exact I|].
assert (Hr : (length (w_stdin (refused m r w)) < fuel)%nat).
{ apply truthy_str_nonempty in Hl. pose proof (take_line_shorter _ _ _ Ht Hl).
  change (w_stdin (refused m r w)) with r. lia. }
destruct (String.eqb _ _); [exact I|].
destruct (Py.int _) as [i|]; [|exact (IH _ Hr)].
destruct (Z.ltb_spec i 0) as [?|Hi0]; [exact (IH _ Hr)|].
destruct (Z.geb_spec i (Z.of_nat (length consoles))) as [?|Hi1]; [exact (IH _ Hr)|].
cbn [orb].
destruct (consoles !! Z.to_nat i) as [e|] eqn:He.
- exact (lookup_In _ _ _ He).
- apply lookup_ge_None in He. lia.
Qed.

(** X4.  The selection of [doConnect] ends, for every list, every
    criteria and every input, in one of three ways the remote party is
    answerable for: an entry of the list, a user-visible error, or a
    cancellation ([exit], the interrupt key).  As long as the option
    [console_menu_title] can be read it never ends in an internal error:
    a line that is no integer is caught ([except ValueError]), an index
    is checked before it is used, and the single entry is only taken
    from a list of one. *)
Theorem selection_is_answerable (E : env) (vm_id vm_name : option string)
        (consoles : list Console) (title : string) (w : world) :
  e_config E "proxy" "console_menu_title" = inr title ->
  answerable (fun e => In e consoles)
             (fst (doConnect_select E vm_id vm_name consoles w)).
Proof.
intros Htitle. unfold doConnect_select.
destruct (given vm_id) as [id|].
{ destruct (List.find _ consoles) as [x|] eqn:Hx.
  - now apply find_some in Hx as [Hx _].
  - unfold bind. rewrite SelectionFacts.unavailable_id. exact I. }
destruct (given vm_name) as [name|].
{ destruct (List.find _ consoles) as [x|] eqn:Hx.
  - now apply find_some in Hx as [Hx _].
  - unfold bind. rewrite SelectionFacts.unavailable_name. exact I. }
destruct (Nat.eqb_spec (length consoles) 0) as [_|_]; [exact I|].
destruct (Nat.eqb_spec (length consoles) 1) as [H1|_].
{ destruct (consoles !! 0%nat) as [x|] eqn:Hx.
  - exact (lookup_In _ _ _ Hx).
  - apply lookup_ge_None in Hx. lia. }
unfold bind at 1. unfold get. rewrite Htitle. cbn [lift ret].
rewrite selectConsole_loop. apply select_loop_answerable. lia.
Qed.

(** An entry the selection returns is one of the list. *)
Lemma doConnect_select_In E vm_id vm_name consoles w e w' :
  doConnect_select E vm_id vm_name consoles w = (Ok e, w') -> In e consoles.
Proof.
unfold doConnect_select. destruct (given vm_id) as [id|].
{ destruct (List.find _ consoles) as [x|] eqn:Hx.
  - intros [= <- _]. now apply find_some in Hx as [Hx _].
  - intros H. apply bind_ok in H as (? & ? & _ & H). discriminate. }
destruct (given vm_name) as [name|].
{ destruct (List.find _ consoles) as [x|] eqn:Hx.
  - intros [= <- _]. now apply find_some in Hx as [Hx _].
  - intros H. apply bind_ok in H as (? & ? & _ & H). discriminate. }
destruct (length consoles =? 0)%nat; [discriminate|].
destruct (length consoles =? 1)%nat.
{ destruct (consoles !! 0%nat) as [x|] eqn:Hx; [|discriminate].
  intros [= <- _]. exact (lookup_In _ _ _ Hx). }
intros H. apply bind_ok in H as (title & w1 & _ & H).
exact (selectConsole_In _ _ _ _ _ H).
Qed.

(** X5.  Whenever [doConnect] hands the session over, the process is
    replaced by the configured shell, a file the effective user may
    execute, run with [-c] and the attach command, which is what
    [str.format] makes of the template [console_attach] with the host and
    console of an entry of the discovered list, the entity and its id,
    and the path of the trust anchor written for that entry (whatever
    fields the template uses); this [os.execv] is the last system call,
    and the record [Opening console ... on behalf of ...] has been logged
    at level INFO just before. *)
Theorem handover (E : env) (s : self) (vm_id vm_name : option string) (w w' : world) :
  doConnect E s vm_id vm_name w = (Replaced, w') ->
  exists consoles entry known_hosts shell tpl cmd,
    _consoles s = Some consoles
    /\ In entry consoles
    /\ (exists w1 w2, doConnect_known_hosts E entry w1 = (Ok known_hosts, w2))
    /\ e_config E "proxy" "shell" = inr shell
    /\ e_config E "proxy" "console_attach" = inr tpl
    /\ str_format E tpl [("host", FStr (host entry)); ("console", FStr (console entry));
                         ("entityid", FStr (entityid (_args s)));
                         ("entity", FStr (entity (_args s)));
                         ("known_hosts_file", FStr known_hosts)] = inr cmd
    /\ (exists f, w_fs w' !! shell = Some f /\ executable (effective E) f = true)
    /\ (exists calls, w_trace w' = calls ++ [SysExecv shell [shell; "-c"; cmd]])
    /\ (exists records,
           w_syslog w'
           = records
             ++ [(INFO, "Opening console '" +:+ console entry +:+ "@" +:+ host entry
                        +:+ "' on behalf of '" +:+ entity (_args s) +:+ "'["
                        +:+ entityid (_args s) +:+ "]");
                 (DEBUG, "Executing: " +:+ cmd)]).
Proof.
unfold doConnect. intros H.
apply bind_replaced in H as [H|([] & w1 & H1 & H)].
{ destruct (e_isatty E); discriminate. }
apply bind_replaced in H as [H|(consoles & w2 & H2 & H)].
{ destruct (_consoles s); discriminate. }
destruct (_consoles s) as [cs|] eqn:Hcs; [|discriminate]. injection H2 as <- <-.
apply bind_replaced in H as [H|(entry & w3 & H3 & H)].
{ pose proof (never_execs_doConnect_select E vm_id vm_name cs w1) as Hn.
  rewrite H in Hn. now contradiction Hn. }
apply bind_replaced in H as [H|(known_hosts & w4 & H4 & H)].
{ pose proof (never_execs_doConnect_known_hosts E entry w3) as Hn.
  rewrite H in Hn. now contradiction Hn. }
apply bind_replaced in H as [H|([] & w5 & H5 & H)].
{ pose proof (never_execs_doConnect_cleanup E known_hosts w4) as Hn.
  rewrite H in Hn. now contradiction Hn. }
apply doConnect_attach_replaced in H
  as (shell & tpl & cmd & Hsh & Htpl & Hcmd & (f & Hf & Hx) & Htr & Hlog & Hfs & _).
exists cs, entry, known_hosts, shell, tpl, cmd.
split; [reflexivity|]. split; [exact (doConnect_select_In _ _ _ _ _ _ _ H3)|].
split; [now exists w3, w4|]. split; [exact Hsh|]. split; [exact Htpl|].
split; [exact Hcmd|]. split; [exists f; now rewrite Hfs|].
split; [now exists (w_trace w5)|now exists (w_syslog w5)].
Qed.


Lemma keeps_bind_ok {A B C} (f : world -> C) (c : M A) (k : A -> M B) :
  keeps f c ->
  (forall w a w1, c w = (Ok a, w1) -> f (snd (k a w1)) = f w1) ->
  keeps f (bind c k).
Proof.
intros Hc Hk w. unfold bind. specialize (Hc w). specialize (Hk w).
destruct (c w) as [[a|e| |] w1]; cbn [snd] in *; try exact Hc.
now rewrite (Hk a w1 eq_refl).
Qed.

Section Untouched.
Context {C : Type} (f : world -> C).
Hypothesis f_stdout : forall s w, f (with_stdout s w) = f w.
Hypothesis f_syslog : forall l w, f (with_syslog l w) = f w.
Hypothesis f_trace : forall t w, f (with_trace t w) = f w.
Hypothesis f_stderr : forall s w, f (with_stderr s w) = f w.

(** A component of the world that writing, logging and recording system
    calls do not change is left alone by everything but [connect]. *)
Lemma keeps_executeJson E what command : keeps f (executeJson E what command).
Proof.
intros w. destruct (e_popen E command) as [[rc out] err] eqn:Hp.
rewrite (executeJson_cases _ _ _ _ _ _ _ Hp). unfold ran, noted.
destruct (negb (rc =? 0)); [cbn [snd]; now rewrite f_syslog, f_trace, f_syslog|].
destruct (Json.loads out) as [e|v]; [cbn [snd]; now rewrite f_trace, f_syslog|].
destruct (Json.truthy v); cbn [snd];
  [now rewrite f_trace, f_syslog|now rewrite f_syslog, f_trace, f_syslog].
Qed.

Lemma keeps_doAccept E s : keeps f (doAccept E s).
Proof.
unfold doAccept, get. pose proof (keeps_executeJson E (gettext "Console list")). effects.
Qed.

Lemma keeps_doInfo E : keeps f (doInfo E).
Proof.
intros w. unfold doInfo, bind, read_file.
destruct (w_fs w !! _) as [ca|]; [|cbn [snd]; apply f_trace].
destruct (readable _ ca); [|cbn [snd]; apply f_trace].
cbn [w_fs with_trace].
destruct (w_fs w !! _) as [cert|]; [|cbn [snd]; now rewrite !f_trace].
destruct (readable _ cert); cbn [snd stdout_write]; [now rewrite f_stdout, !f_trace|].
now rewrite !f_trace.
Qed.

Lemma keeps_doList s fmt : keeps f (doList s fmt).
Proof.
intros w. unfold doList.
destruct (String.eqb fmt "plain").
- destruct (_consoles s) as [cs|]; [|reflexivity].
  clear s. revert w. induction cs as [|e cs IH]; intros w; [reflexivity|].
  cbn [doList_plain]. unfold bind at 1.
  destruct (lift _ w) as [[line|x| |] w1] eqn:Hl.
  + assert (w1 = w) as ->.
    { unfold lift in Hl. destruct (format _ _); now injection Hl. }
    unfold bind. cbn [stdout_write]. now rewrite IH, f_stdout.
  + unfold lift in Hl. destruct (format _ _); injection Hl as _ <-; reflexivity.
  + unfold lift in Hl. destruct (format _ _); discriminate.
  + unfold lift in Hl. destruct (format _ _); discriminate.
- destruct (String.eqb fmt "json"); [cbn [snd stdout_write]; apply f_stdout|reflexivity].
Qed.

Lemma keeps_validations E : keeps f (validations E).
Proof.
intros w. unfold validations.
destruct (e_getpwnam E _) as [uid|]; [|reflexivity].
destruct (negb _); [|reflexivity].
unfold bind. cbn [logger]. unfold lift.
destruct (format _ _); cbn [snd raise ret]; apply f_syslog.
Qed.

Lemma keeps_userargs_func E s :
  (forall d vm_id vm_name, _userargs s <> Connect d vm_id vm_name) ->
  keeps f (userargs_func E s).
Proof.
intros Hu. unfold userargs_func. destruct (_userargs s) as [d|d|d i n|d fmt].
- intros w. apply f_stdout.
- apply keeps_doInfo.
- now contradiction (Hu d i n).
- apply keeps_doList.
Qed.

Lemma keeps_parser_parse_args {A} said (parsed : exn + A) :
  keeps f (ArgumentParser.parse_args said parsed).
Proof.
intros w. unfold ArgumentParser.parse_args. destruct parsed as [[]|a]; try reflexivity.
cbn. now rewrite f_stderr, f_stdout.
Qed.

Lemma keeps_main_try E argv cmd :
  (forall d vm_id vm_name, cmd <> inr (Connect d vm_id vm_name)) ->
  keeps f (main_try E argv cmd).
Proof.
intros Hcmd. unfold main_try.
apply keeps_bind; [destruct (e_load_config E); intros w; reflexivity|intros _].
apply keeps_bind.
{ unfold parse_args. apply keeps_bind; [apply keeps_parser_parse_args|].
  intros []; intros w; reflexivity. }
intros a.
apply keeps_bind_ok; [apply keeps_parser_parse_args|].
intros w u w1 Hu.
assert (Hcmd' : forall d vm_id vm_name, u <> Connect d vm_id vm_name).
{ intros d i n ->. apply parser_parse_args_ok in Hu as [-> _].
  now contradiction (Hcmd d i n). }
revert w1 Hu. intros w1 _. revert w1.
change (keeps f (bind (getboolean E "proxy" "debug")
                      (fun _ => bind (logger DEBUG (version_record E))
                      (fun _ => bind (logger DEBUG (e_arguments E))
                      (fun _ => bind (validations E)
                                     (fun _ => bind (doAccept E (Self a u None))
                                                    (fun s => userargs_func E s))))))).
apply keeps_bind; [unfold getboolean, get; effects|intros _].
apply keeps_bind; [intros w0; apply f_syslog|intros _].
apply keeps_bind; [intros w0; apply f_syslog|intros _].
apply keeps_bind; [apply keeps_validations|intros _].
apply keeps_bind_ok; [apply keeps_doAccept|].
intros w2 s w3 Hs. apply doAccept_self in Hs as [_ Hs]. cbn [_userargs] in Hs.
apply keeps_userargs_func. now rewrite Hs.
Qed.

(** What [main] adds after its [try] is a report. *)
Lemma main_reports E argv cmd w :
  f (snd (main E argv cmd w)) = f (snd (main_try E argv cmd w)).
Proof.
rewrite proxy_main_handlers.
destruct (main_try E argv cmd w) as [[[]|e| |] w1]; cbn [snd]; try reflexivity.
unfold reported_visible, reported_internal, noted.
destruct e; cbn [is_Exception snd]; try reflexivity;
  now rewrite f_stderr, !f_syslog.
Qed.

End Untouched.

Lemma never_execs_bind_ok {A B} (c : M A) (k : A -> M B) :
  never_execs c ->
  (forall w a w1, c w = (Ok a, w1) -> fst (k a w1) <> Replaced) ->
  never_execs (bind c k).
Proof.
intros Hc Hk w. unfold bind. specialize (Hc w). specialize (Hk w).
destruct (c w) as [[a|e| |] w1]; cbn [fst] in *; try discriminate;
  [now apply (Hk a w1)|congruence].
Qed.

Lemma never_execs_executeJson E what command : never_execs (executeJson E what command).
Proof.
intros w. destruct (e_popen E command) as [[rc out] err] eqn:Hp.
rewrite (executeJson_cases _ _ _ _ _ _ _ Hp).
destruct (negb (rc =? 0)); [cbn; discriminate|].
destruct (Json.loads out) as [e|v]; [cbn; discriminate|].
destruct (Json.truthy v); cbn; discriminate.
Qed.

Lemma never_execs_doList_plain cs : never_execs (doList_plain cs).
Proof.
induction cs as [|e cs IH]; cbn [doList_plain]; [intros w; cbn; discriminate|].
effects.
Qed.

Lemma never_execs_main_try E argv cmd :
  (forall d vm_id vm_name, cmd <> inr (Connect d vm_id vm_name)) ->
  never_execs (main_try E argv cmd).
Proof.
intros Hcmd. unfold main_try.
assert (Hparser : forall A said (parsed : exn + A),
           never_execs (ArgumentParser.parse_args said parsed)).
{ intros A said parsed w. unfold ArgumentParser.parse_args.
  destruct parsed as [[]|a]; cbn; discriminate. }
apply never_execs_bind; [destruct (e_load_config E); intros w; cbn; discriminate|intros _].
apply never_execs_bind.
{ unfold parse_args. apply never_execs_bind; [apply Hparser|].
  intros []; intros w; cbn; discriminate. }
intros a.
apply never_execs_bind_ok; [apply Hparser|].
intros w u w1 Hu.
assert (Hcmd' : forall d vm_id vm_name, u <> Connect d vm_id vm_name).
{ intros d i n ->. apply parser_parse_args_ok in Hu as [-> _].
  now contradiction (Hcmd d i n). }
revert w1 Hu. intros w1 _. revert w1.
change (never_execs (bind (getboolean E "proxy" "debug")
                      (fun _ => bind (logger DEBUG (version_record E))
                      (fun _ => bind (logger DEBUG (e_arguments E))
                      (fun _ => bind (validations E)
                                     (fun _ => bind (doAccept E (Self a u None))
                                                    (fun s => userargs_func E s))))))).
apply never_execs_bind; [unfold getboolean, get; effects|intros _].
apply never_execs_bind; [intros w0; cbn; discriminate|intros _].
apply never_execs_bind; [intros w0; cbn; discriminate|intros _].
apply never_execs_bind; [unfold validations; effects|intros _].
apply never_execs_bind_ok.
{ unfold doAccept, get. pose proof (never_execs_executeJson E (gettext "Console list")).
  effects. }
intros w2 s w3 Hs. apply doAccept_self in Hs as [_ Hs]. cbn [_userargs] in Hs.
unfold userargs_func. rewrite Hs. destruct u as [d|d|d i n|d fmt].
- cbn. discriminate.
- unfold doInfo, bind, read_file.
  destruct (w_fs w3 !! _) as [ca|]; [|cbn; discriminate].
  destruct (readable _ ca); [|cbn; discriminate].
  cbn [w_fs with_trace].
  destruct (w_fs w3 !! _) as [cert|]; [|cbn; discriminate].
  destruct (readable _ cert); cbn; discriminate.
- now contradiction (Hcmd' d i n).
- unfold doList. destruct (String.eqb fmt "plain").
  + destruct (_consoles s) as [cs|]; [|cbn; discriminate].
    apply never_execs_doList_plain.
  + destruct (String.eqb fmt "json"); cbn; discriminate.
Qed.

(** X6.  Of the user commands of the proxy shell only [connect]
    leaves anything behind: with [help], [info] or [list] (and when the
    command line of the user cannot be parsed at all) the shell itself
    creates, changes and removes no file, leaves no process behind and
    never hands the process over to another program. *)
Theorem only_connect_leaves_traces (E : env) (argv : exn + namespace)
        (cmd : exn + userargs) (w : world) :
  (forall d vm_id vm_name, cmd <> inr (Connect d vm_id vm_name)) ->
  w_fs (snd (main E argv cmd w)) = w_fs w
  /\ w_procs (snd (main E argv cmd w)) = w_procs w
  /\ fst (main E argv cmd w) <> Replaced.
Proof.
intros Hcmd.
split; [|split].
- rewrite (main_reports w_fs) by reflexivity.
  now apply (keeps_main_try w_fs).
- rewrite (main_reports w_procs) by reflexivity.
  now apply (keeps_main_try w_procs).
- rewrite proxy_main_handlers.
  pose proof (never_execs_main_try E argv cmd Hcmd w) as H.
  destruct (main_try E argv cmd w) as [[[]|e| |] w1]; cbn [fst] in *;
    try discriminate; [|congruence].
  destruct e; cbn [is_Exception]; discriminate.
Qed.

End ProxyFacts.

(* ===================================================================== *)
(** * Both shells: the account check comes first *)
(* ===================================================================== *)

Module AccountFacts.
Import Py Sys Format Utils ConfigParser Discovery Effects.
Import TextFacts DiscoveryFacts EffectFacts.

Lemma bind_raises {A B} (c : M A) (k : A -> M B) w e w1 :
  c w = (Raise e, w1) -> bind c k w = (Raise e, w1).
Proof. unfold bind. now intros ->. Qed.

Lemma bind_returns {A B} (c : M A) (k : A -> M B) w a w1 :
  c w = (Ok a, w1) -> bind c k w = k a w1.
Proof. unfold bind. now intros ->. Qed.

(** [getboolean] changes nothing: a value or an exception. *)
Lemma getboolean_pure E s o w :
  (exists b, getboolean E s o w = (Ok b, w)) \/ (exists e, getboolean E s o w = (Raise e, w)).
Proof.
unfold getboolean, get, bind. destruct (e_config E s o) as [e|v]; cbn [lift raise ret].
- right. now exists e.
- destruct (existsb _ _); [left; now eexists|].
  destruct (existsb _ _); [left; now eexists|right; now eexists].
Qed.

(** Under another account the check raises, and at most logs. *)
Lemma proxy_validations_wrong E w :
  e_getpwnam E (VMCONSOLE_USER E) <> Some (e_euid E) ->
  exists e l, ProxyShell.validations E w = (Raise e, with_syslog l w).
Proof.
intros H. unfold ProxyShell.validations.
destruct (e_getpwnam E (VMCONSOLE_USER E)) as [uid|].
- destruct (Nat.eqb_spec uid (e_euid E)) as [->|_]; [congruence|].
  cbn [negb]. eexists _, _. reflexivity.
- eexists _, (w_syslog w). unfold raise. now destruct w.
Qed.

Lemma host_validations_wrong E w :
  e_getpwnam E (VMCONSOLE_USER E) <> Some (e_euid E) ->
  exists e l, HostShell.validations E w = (Raise e, with_syslog l w).
Proof.
intros H. unfold HostShell.validations.
destruct (e_getpwnam E (VMCONSOLE_USER E)) as [uid|].
- destruct (Nat.eqb_spec uid (e_euid E)) as [->|_]; [congruence|].
  cbn [negb]. eexists _, _. reflexivity.
- eexists _, (w_syslog w). unfold raise. now destruct w.
Qed.

(** The three ways [parse_args] ends: with the namespace; with an
    exception of its caller's making, nothing written; or by
    [SystemExit], after [argparse] has said why. *)
Lemma parser_parse_args_cases {A} said (parsed : exn + A) w :
  (exists a, parsed = inr a /\ ArgumentParser.parse_args said parsed w = (Ok a, w))
  \/ (exists e, ArgumentParser.parse_args said parsed w = (Raise e, w))
  \/ (exists c,
         parsed = inl (SystemExit c)
         /\ ArgumentParser.parse_args said parsed w
            = (Raise (SystemExit c),
               with_stderr (w_stderr w +:+ snd said)
                           (with_stdout (w_stdout w +:+ fst said) w))).
Proof.
destruct parsed as [e|a]; [|left; now exists a].
right. destruct e; try (left; eexists; reflexivity).
right. eexists. split; reflexivity.
Qed.

Lemma turned_away_log said l w : turned_away said w (with_syslog l w).
Proof. repeat split. now left. Qed.

Lemma turned_away_self said w : turned_away said w w.
Proof. repeat split. now left. Qed.

Lemma proxy_main_try_wrong E argv cmd w :
  e_getpwnam E (VMCONSOLE_USER E) <> Some (e_euid E) ->
  exists e w',
    ProxyShell.main_try E argv cmd w = (Raise e, w')
    /\ ((forall c, argv <> inl (SystemExit c)) -> (forall c, cmd <> inl (SystemExit c)) ->
        w_stdout w' = w_stdout w)
    /\ turned_away [e_argv_exit E; e_command_exit E] w w'.
Proof.
intros H. unfold ProxyShell.main_try.
destruct (e_load_config E) as [e|].
{ exists e, w. split; [reflexivity|]. split; [reflexivity|apply turned_away_self]. }
rewrite (bind_returns _ _ w tt w eq_refl).
unfold ProxyShell.parse_args at 1.
destruct (parser_parse_args_cases (e_argv_exit E) argv w)
  as [(ns & -> & Hp) | [(e & Hp) | (c & -> & Hp)]].
2:{ exists e, w. rewrite (bind_raises _ _ _ _ _ (bind_raises _ _ _ _ _ Hp)).
    split; [reflexivity|]. split; [reflexivity|apply turned_away_self]. }
2:{ eexists _, _. rewrite (bind_raises _ _ _ _ _ (bind_raises _ _ _ _ _ Hp)).
    split; [reflexivity|].
    split; [intros Hne; now contradiction (Hne c)|].
    repeat split. right. exists (e_argv_exit E). split; [now left|reflexivity]. }
destruct ns as [d|d id ent].
{ eexists _, w. split; [reflexivity|]. split; [reflexivity|apply turned_away_self]. }
rewrite (bind_returns _ _ _ _ _ (bind_returns _ _ _ _ _ Hp)). cbn [ret].
destruct (parser_parse_args_cases (e_command_exit E) cmd w)
  as [(u & -> & Hu) | [(e & Hu) | (c & -> & Hu)]].
2:{ exists e, w. rewrite (bind_raises _ _ _ _ _ Hu).
    split; [reflexivity|]. split; [reflexivity|apply turned_away_self]. }
2:{ eexists _, _. rewrite (bind_raises _ _ _ _ _ Hu).
    split; [reflexivity|].
    split; [intros _ Hne; now contradiction (Hne c)|].
    repeat split. right. exists (e_command_exit E). split; [now right; left|reflexivity]. }
rewrite (bind_returns _ _ _ _ _ Hu).
destruct (getboolean_pure E "proxy" "debug" w) as [(b & Hb)|(e & He)].
2:{ exists e, w. rewrite (bind_raises _ _ _ _ _ He).
    split; [reflexivity|]. split; [reflexivity|apply turned_away_self]. }
rewrite (bind_returns _ _ _ _ _ Hb).
unfold bind at 1. cbn [logger]. unfold bind at 1. cbn [logger].
set (w0 := with_syslog _ (with_syslog _ w)).
destruct (proxy_validations_wrong E w0 H) as (e & l & Hv).
exists e, (with_syslog l w0). rewrite (bind_raises _ _ _ _ _ Hv).
split; [reflexivity|]. split; [reflexivity|]. repeat split. now left.
Qed.

Lemma host_main_try_wrong E cmd traffic w :
  e_getpwnam E (VMCONSOLE_USER E) <> Some (e_euid E) ->
  exists e w',
    HostShell.main_try E cmd traffic w = (Raise e, w')
    /\ ((forall c, cmd <> inl (SystemExit c)) -> w_stdout w' = w_stdout w)
    /\ turned_away [e_command_exit E] w w'.
Proof.
intros H. unfold HostShell.main_try.
destruct (e_load_config E) as [e|].
{ exists e, w. split; [reflexivity|]. split; [reflexivity|apply turned_away_self]. }
rewrite (bind_returns _ _ w tt w eq_refl).
destruct (parser_parse_args_cases (e_command_exit E) cmd w)
  as [(a & -> & Hu) | [(e & Hu) | (c & -> & Hu)]].
2:{ exists e, w. rewrite (bind_raises _ _ _ _ _ Hu).
    split; [reflexivity|]. split; [reflexivity|apply turned_away_self]. }
2:{ eexists _, _. rewrite (bind_raises _ _ _ _ _ Hu).
    split; [reflexivity|].
    split; [intros Hne; now contradiction (Hne c)|].
    repeat split. right. exists (e_command_exit E). split; [now left|reflexivity]. }
rewrite (bind_returns _ _ _ _ _ Hu).
destruct (getboolean_pure E "host" "debug" w) as [(b & Hb)|(e & He)].
2:{ exists e, w. rewrite (bind_raises _ _ _ _ _ He).
    split; [reflexivity|]. split; [reflexivity|apply turned_away_self]. }
rewrite (bind_returns _ _ _ _ _ Hb).
unfold bind at 1. cbn [logger]. unfold bind at 1. cbn [logger].
set (w0 := with_syslog _ (with_syslog _ w)).
destruct (host_validations_wrong E w0 H) as (e & l & Hv).
exists e, (with_syslog l w0). rewrite (bind_raises _ _ _ _ _ Hv).
split; [reflexivity|]. split; [reflexivity|]. repeat split. now left.
Qed.

(** What [main] adds to the world after its [try]: a report on stderr
    and in the log. *)
Lemma turned_away_reported said e w w' :
  turned_away said w w' ->
  turned_away said w (reported_internal e w')
  /\ (forall m, turned_away said w (reported_visible m w')).
Proof. intros (H1 & H2 & H3 & H4). split; [|intros m]; repeat split; assumption. Qed.

(** X7.  Unless the process runs under the account the package was
    built for ([pwd.getpwnam(VMCONSOLE_USER).pw_uid == os.geteuid()]),
    neither shell does any of what a session is for: [main] does not
    return 0 and does not hand over to another program; no external
    command is run, no key or certificate read, no socket probed, no
    temporary file made and no process started; files and processes are
    as they were.  The command line is parsed before the account is
    checked: standard output is as it was too, unless [argparse] itself
    ended the parsing ([SystemExit], which leaves [main]), and then it
    holds what [argparse] wrote there, the help for [-h], and no
    more. *)
Theorem wrong_account_runs_nothing (E : env) (argv : exn + ProxyShell.namespace)
        (cmd : exn + ProxyShell.userargs) (hcmd : exn + HostShell.args)
        (traffic : list SocketProxy.event) (w : world) :
  e_getpwnam E (VMCONSOLE_USER E) <> Some (e_euid E) ->
  (fst (ProxyShell.main E argv cmd w) <> Ok 0
   /\ fst (ProxyShell.main E argv cmd w) <> Replaced
   /\ w_trace (snd (ProxyShell.main E argv cmd w)) = w_trace w
   /\ w_fs (snd (ProxyShell.main E argv cmd w)) = w_fs w
   /\ w_procs (snd (ProxyShell.main E argv cmd w)) = w_procs w
   /\ ((forall c, argv <> inl (SystemExit c)) -> (forall c, cmd <> inl (SystemExit c)) ->
       w_stdout (snd (ProxyShell.main E argv cmd w)) = w_stdout w)
   /\ (w_stdout (snd (ProxyShell.main E argv cmd w)) = w_stdout w
       \/ exists said,
           In said [e_argv_exit E; e_command_exit E]
           /\ w_stdout (snd (ProxyShell.main E argv cmd w)) = w_stdout w +:+ fst said))
  /\ (fst (HostShell.main E hcmd traffic w) <> Ok 0
      /\ fst (HostShell.main E hcmd traffic w) <> Replaced
      /\ w_trace (snd (HostShell.main E hcmd traffic w)) = w_trace w
      /\ w_fs (snd (HostShell.main E hcmd traffic w)) = w_fs w
      /\ w_procs (snd (HostShell.main E hcmd traffic w)) = w_procs w
      /\ ((forall c, hcmd <> inl (SystemExit c)) ->
          w_stdout (snd (HostShell.main E hcmd traffic w)) = w_stdout w)
      /\ (w_stdout (snd (HostShell.main E hcmd traffic w)) = w_stdout w
          \/ w_stdout (snd (HostShell.main E hcmd traffic w))
             = w_stdout w +:+ fst (e_command_exit E))).
Proof.
intros H. split.
- destruct (proxy_main_try_wrong E argv cmd w H) as (e & w' & Htry & Hout & Haway).
  rewrite proxy_main_handlers, Htry.
  destruct (turned_away_reported _ e _ _ Haway) as [Hi Hv].
  assert (Hcases :
            forall r : outcome Z * world,
              (r = (Ok 1, w') \/ r = (Raise e, w') \/ r = (Ok 1, reported_internal e w')
               \/ exists m, r = (Ok 1, reported_visible m w')) ->
              fst r <> Ok 0 /\ fst r <> Replaced
              /\ w_trace (snd r) = w_trace w /\ w_fs (snd r) = w_fs w
              /\ w_procs (snd r) = w_procs w
              /\ ((forall c, argv <> inl (SystemExit c)) ->
                  (forall c, cmd <> inl (SystemExit c)) ->
                  w_stdout (snd r) = w_stdout w)
              /\ (w_stdout (snd r) = w_stdout w
                  \/ exists said,
                      In said [e_argv_exit E; e_command_exit E]
                      /\ w_stdout (snd r) = w_stdout w +:+ fst said)).
  { intros r [-> | [-> | [-> | (m & ->)]]]; cbn [fst snd].
    - destruct Haway as (H1 & H2 & H3 & H4). repeat split; try assumption; discriminate.
    - destruct Haway as (H1 & H2 & H3 & H4). repeat split; try assumption; discriminate.
    - destruct Hi as (H1 & H2 & H3 & H4).
      repeat split; try assumption; try discriminate; try exact Hout.
    - destruct (Hv m) as (H1 & H2 & H3 & H4).
      repeat split; try assumption; try discriminate; try exact Hout. }
  apply Hcases.
  destruct e; cbn [is_Exception]; auto; right; right; right; now eexists.
- destruct (host_main_try_wrong E hcmd traffic w H) as (e & w' & Htry & Hout & Haway).
  rewrite host_main_handlers, Htry.
  destruct (turned_away_reported _ e _ _ Haway) as [Hi Hv].
  assert (Hcases :
            forall r : outcome Z * world,
              (r = (Raise e, w') \/ r = (Ok 1, reported_internal e w')
               \/ exists m, r = (Ok 1, reported_visible m w')) ->
              fst r <> Ok 0 /\ fst r <> Replaced
              /\ w_trace (snd r) = w_trace w /\ w_fs (snd r) = w_fs w
              /\ w_procs (snd r) = w_procs w
              /\ ((forall c, hcmd <> inl (SystemExit c)) -> w_stdout (snd r) = w_stdout w)
              /\ (w_stdout (snd r) = w_stdout w
                  \/ w_stdout (snd r) = w_stdout w +:+ fst (e_command_exit E))).
  { assert (Hone : forall w2, turned_away [e_command_exit E] w w2 ->
                     w_stdout w2 = w_stdout w
                     \/ w_stdout w2 = w_stdout w +:+ fst (e_command_exit E)).
    { intros w2 (_ & _ & _ & [Hs | (s & [<- | []] & Hs)]); [now left|now right]. }
    intros r [-> | [-> | (m & ->)]]; cbn [fst snd].
    - pose proof (Hone _ Haway). destruct Haway as (H1 & H2 & H3 & H4).
      repeat split; try assumption; discriminate.
    - pose proof (Hone _ Hi). destruct Hi as (H1 & H2 & H3 & H4).
      repeat split; try assumption; try discriminate; try exact Hout.
    - pose proof (Hone _ (Hv m)). destruct (Hv m) as (H1 & H2 & H3 & H4).
      repeat split; try assumption; try discriminate; try exact Hout. }
  apply Hcases.
  destruct e; cbn [is_Exception]; auto; right; right; now eexists.
Qed.

(** X8.  The sub-command [help] on the proxy shell's own command line
    cannot work: [parse_args] reads [args.entity], an attribute only the
    [accept] sub-command defines, so the [AttributeError] ends the
    session as an internal error, status 1, before the account is checked
    or anything is run, and whatever the user command is. *)
Theorem proxy_argv_help_fails (E : env) (d : bool) (cmd : exn + ProxyShell.userargs)
        (w : world) :
  e_load_config E = None ->
  ProxyShell.main E (inr (ProxyShell.NsHelp d)) cmd w
  = (Ok 1,
     reported_internal (AttributeError "'Namespace' object has no attribute 'entity'") w).
Proof.
intros Hload.
apply proxy_main_internal; [|reflexivity].
unfold ProxyShell.main_try. rewrite Hload.
rewrite (bind_returns _ _ w tt w eq_refl).
now apply bind_raises.
Qed.

End AccountFacts.

(* ===================================================================== *)
(** * The host shell: which socket is opened *)
(* ===================================================================== *)

Module SocketFacts.
Import Py Sys Format Utils ConfigParser HostShell Discovery Effects.
Import TextFacts DiscoveryFacts AnchorFacts HostFacts AccountFacts.

(** [os.access(path, F_OK | R_OK | W_OK)]. *)
Lemma os_access_rw E path w :
  os_access E path (N.lor F_OK (N.lor R_OK W_OK)) w
  = (Ok match w_fs w !! path with
        | Some f => readable (real E) f && writable (real E) f
        | None => false
        end,
     with_trace (w_trace w ++ [SysAccess path (N.lor F_OK (N.lor R_OK W_OK))]) w).
Proof.
unfold os_access. destruct (w_fs w !! path) as [f|]; reflexivity.
Qed.

(** X9.  [doConnect] of the host shell goes on to open a socket only
    for a console name without a path separator, and only when the path
    [consoledir/name] exists and the real user of the process, for whom
    [os.access] asks, may both read and write it (as the superuser, or
    by the permission bits of the owner, of the group or of the others,
    whichever this user falls under); these conditions are also
    sufficient.  The file system is only looked at. *)
Theorem socket_opened_is_usable (E : env) (console : string) (w : world) :
  (forall p w',
      doConnect_socket E console w = (Ok p, w') ->
      has_sep console = false
      /\ w_fs w' = w_fs w
      /\ exists dir f,
          e_config E "host" "consoledir" = inr dir
          /\ p = path_join dir console
          /\ w_fs w !! p = Some f
          /\ readable (real E) f = true /\ writable (real E) f = true)
  /\ (forall dir f,
         has_sep console = false ->
         e_config E "host" "consoledir" = inr dir ->
         w_fs w !! path_join dir console = Some f ->
         readable (real E) f = true -> writable (real E) f = true ->
         fst (doConnect_socket E console w) = Ok (path_join dir console)).
Proof.
split.
- intros p w' H. unfold doConnect_socket in H.
  rewrite bare_name_check in H.
  apply bind_ok in H as ([] & w1 & H1 & H).
  destruct (has_sep console) eqn:Hsep; [discriminate|]. injection H1 as <-.
  apply bind_ok in H as (dir & w2 & H2 & H).
  unfold get in H2. destruct (e_config E "host" "consoledir") as [?|dir'] eqn:Hdir;
    [discriminate|]. injection H2 as <- <-.
  apply bind_ok in H as ([] & w3 & H3 & H). injection H3 as <-.
  apply bind_ok in H as (found & w4 & H4 & H). injection H4 as _ <-.
  apply bind_ok in H as ([] & w5 & H5 & H).
  assert (Hw5 : w_fs w5 = w_fs w).
  { destruct (negb found); injection H5 as <-; reflexivity. }
  apply bind_ok in H as (usable & w6 & H6 & H).
  rewrite os_access_rw in H6. injection H6 as <- <-.
  apply bind_ok in H as ([] & w7 & H7 & H).
  rewrite Hw5 in H7.
  destruct (w_fs w !! path_join dir' console) as [f|] eqn:Hf.
  2:{ cbn [negb] in H7. apply bind_ok in H7 as (? & ? & _ & H7). discriminate. }
  destruct (readable (real E) f && writable (real E) f) eqn:Hrw.
  2:{ cbn [negb] in H7. apply bind_ok in H7 as (? & ? & _ & H7). discriminate. }
  injection H7 as <-. injection H as <- <-.
  apply andb_true_iff in Hrw as [Hr Hw].
  split; [reflexivity|]. split; [exact Hw5|].
  exists dir', f. repeat split; assumption.
- intros dir f Hsep Hdir Hf Hr Hw.
  destruct (socket_probed E console w dir Hsep Hdir) as (r & w' & Heq & [->|Hr'] & _);
    rewrite Heq; [reflexivity|].
  exfalso. subst r. unfold doConnect_socket in Heq.
  rewrite bare_name_check, Hsep in Heq.
  unfold bind at 1 in Heq. cbn [negb ret] in Heq.
  unfold bind at 1 in Heq. unfold get at 1 in Heq. rewrite Hdir in Heq. cbn [lift ret] in Heq.
  unfold bind at 1 in Heq. cbn [logger] in Heq.
  unfold bind at 1 in Heq. unfold os_access at 1 in Heq.
  cbn [w_fs with_syslog] in Heq. rewrite Hf in Heq.
  unfold bind at 1 in Heq.
  match type of Heq with
  | context [negb ?b] => destruct (negb b)
  end.
  + cbn [logger] in Heq. unfold bind at 1 in Heq. rewrite os_access_rw in Heq.
    cbn [w_fs with_syslog with_trace] in Heq. rewrite Hf, Hr, Hw in Heq.
    cbn in Heq. discriminate.
  + cbn [ret] in Heq. unfold bind at 1 in Heq. rewrite os_access_rw in Heq.
    cbn [w_fs with_syslog with_trace] in Heq. rewrite Hf, Hr, Hw in Heq.
    cbn in Heq. discriminate.
Qed.

(** X10.  A console name that holds a path separator is refused by the
    host shell before anything is looked up: once the session has logged
    its version and its arguments it ends with status 1, the remote
    party is shown [ERROR: Invalid console name], and nothing has been
    probed or opened. *)
Theorem separator_name_refused (E : env) (d b : bool) (entityid entity : option string)
        (name : string) (traffic : list SocketProxy.event) (w : world) :
  has_sep name = true ->
  e_load_config E = None ->
  getboolean E "host" "debug" w = (Ok b, w) ->
  e_getpwnam E (VMCONSOLE_USER E) = Some (e_euid E) ->
  e_isatty E = true ->
  main E (inr (Connect d entityid entity name)) traffic w
  = (Ok 1, reported_visible "Invalid console name" (announced (version_record E) E w))
  /\ w_trace (reported_visible "Invalid console name" (announced (version_record E) E w))
     = w_trace w
  /\ w_stderr (reported_visible "Invalid console name" (announced (version_record E) E w))
     = w_stderr w +:+ "ERROR: Invalid console name" +:+ nl.
Proof.
intros Hsep Hload Hb Huser Htty.
split; [|split; reflexivity].
rewrite host_main_handlers.
assert (Htry : main_try E (inr (Connect d entityid entity name)) traffic w
               = (Raise (UserVisibleRuntimeError "Invalid console name"),
                  announced (version_record E) E w)).
{ unfold main_try. rewrite Hload.
  rewrite (bind_returns _ _ w tt w eq_refl).
  rewrite (bind_returns _ _ w (Connect d entityid entity name) w eq_refl).
  rewrite (bind_returns _ _ _ _ _ Hb).
  unfold bind at 1. cbn [logger]. unfold bind at 1. cbn [logger].
  change (with_syslog _ (with_syslog _ w)) with (announced (version_record E) E w).
  set (w0 := announced (version_record E) E w).
  assert (Hv : validations E w0 = (Ok tt, w0)).
  { unfold validations. now rewrite Huser, Nat.eqb_refl. }
  rewrite (bind_returns _ _ _ _ _ Hv).
  unfold args_func. now apply separator_rejected. }
now rewrite Htry.
Qed.

End SocketFacts.

(* ===================================================================== *)
(** * What the commands print *)
(* ===================================================================== *)

Module OutputFacts.
Import Py Sys Format Utils ConfigParser Discovery Effects.
Import TextFacts DiscoveryFacts AnchorFacts EffectFacts AccountFacts.

Lemma read_file_cases E path w :
  read_file E path w
  = (if can_read E w path then Ok (content w path)
     else Raise (OSError (match w_fs w !! path with
                          | Some _ => "[Errno 13] Permission denied: " +:+ repr path
                          | None => "[Errno 2] No such file or directory: " +:+ repr path
                          end)),
     with_trace (w_trace w ++ [SysOpenRead path]) w).
Proof.
unfold read_file, can_read, content.
destruct (w_fs w !! path) as [f|]; [destruct (readable (effective E) f)|]; reflexivity.
Qed.

Lemma can_read_traced E w t path : can_read E (with_trace t w) path = can_read E w path.
Proof. reflexivity. Qed.

Lemma content_traced w t path : content (with_trace t w) path = content w path.
Proof. reflexivity. Qed.

(** X11.  [doInfo] prints all of its three lines or none.  In either
    shell, when the CA key and the shell's certificate both exist and
    the effective user may read them (as the superuser, or by the
    permission bits of the owner, of the group or of the others), it
    writes [package=], [ssh-ca-key=] and the certificate line to standard
    output, each value being what the file reads as in text mode (a
    carriage return, alone or before a line feed, as a line feed) with
    its trailing line feeds removed; when one of the files is missing or
    unreadable it raises [OSError] and has written nothing.  Files are
    only read. *)
Theorem doInfo_all_or_nothing (E : env) (w : world) :
  (can_read E w (path_join (pkgpkidir E) "ca.pub")
   && can_read E w (path_join (pkgpkidir E) "proxy-ssh_host_rsa-cert.pub") = true ->
   fst (ProxyShell.doInfo E w) = Ok tt
   /\ w_stdout (snd (ProxyShell.doInfo E w))
      = w_stdout w
        +:+ ("package=ovirt-vmconsole-proxy-shell" +:+ nl
             +:+ "ssh-ca-key="
             +:+ rstrip [NL] (content w (path_join (pkgpkidir E) "ca.pub")) +:+ nl
             +:+ "ssh-proxy-cert="
             +:+ rstrip [NL] (content w (path_join (pkgpkidir E)
                                                   "proxy-ssh_host_rsa-cert.pub"))
             +:+ nl))
  /\ (can_read E w (path_join (pkgpkidir E) "ca.pub")
      && can_read E w (path_join (pkgpkidir E) "proxy-ssh_host_rsa-cert.pub") = false ->
      (exists m, fst (ProxyShell.doInfo E w) = Raise (OSError m))
      /\ w_stdout (snd (ProxyShell.doInfo E w)) = w_stdout w)
  /\ w_fs (snd (ProxyShell.doInfo E w)) = w_fs w
  /\ (can_read E w (path_join (pkgpkidir E) "ca.pub")
      && can_read E w (path_join (pkgpkidir E) "host-ssh_host_rsa-cert.pub") = true ->
      fst (HostShell.doInfo E w) = Ok tt
      /\ w_stdout (snd (HostShell.doInfo E w))
         = w_stdout w
           +:+ ("package=ovirt-vmconsole-host-shell" +:+ nl
                +:+ "ssh-ca-key="
                +:+ rstrip [NL] (content w (path_join (pkgpkidir E) "ca.pub")) +:+ nl
                +:+ "ssh-host-cert="
                +:+ rstrip [NL] (content w (path_join (pkgpkidir E)
                                                      "host-ssh_host_rsa-cert.pub"))
                +:+ nl))
  /\ (can_read E w (path_join (pkgpkidir E) "ca.pub")
      && can_read E w (path_join (pkgpkidir E) "host-ssh_host_rsa-cert.pub") = false ->
      (exists m, fst (HostShell.doInfo E w) = Raise (OSError m))
      /\ w_stdout (snd (HostShell.doInfo E w)) = w_stdout w)
  /\ w_fs (snd (HostShell.doInfo E w)) = w_fs w.
Proof.
unfold ProxyShell.doInfo, HostShell.doInfo, bind.
rewrite !read_file_cases.
destruct (can_read E w (path_join (pkgpkidir E) "ca.pub")) eqn:Hca.
- cbv beta iota. rewrite !can_read_traced, !content_traced.
  destruct (can_read E w (path_join (pkgpkidir E) "proxy-ssh_host_rsa-cert.pub"));
    destruct (can_read E w (path_join (pkgpkidir E) "host-ssh_host_rsa-cert.pub"));
    cbn [andb fst snd];
    repeat split; try discriminate; try reflexivity; eauto.
- cbn [andb fst snd]. repeat split; try discriminate; eauto.
Qed.

Lemma format_plain_line id name :
  format ("{vmid}" +:+ String (chr 9) "{vm}" +:+ nl) [("vmid", FStr id); ("vm", FStr name)]
  = inr (id +:+ String (chr 9) name +:+ nl).
Proof.
change (@inr exn string (id +:+ String (chr 9) (name +:+ String NL ""))
        = inr (id +:+ String (chr 9) name +:+ nl)).
reflexivity.
Qed.

Lemma doList_plain_writes cs :
  forall w, ProxyShell.doList_plain cs w = (Ok tt, with_stdout (w_stdout w +:+ listing cs) w).
Proof.
induction cs as [|e cs IH]; intros w.
- cbn [ProxyShell.doList_plain listing]. rewrite append_nil_r. now destruct w.
- cbn [ProxyShell.doList_plain listing]. rewrite format_plain_line.
  unfold bind at 1. cbn [lift ret]. unfold bind at 1. cbn [stdout_write].
  rewrite IH. cbn [w_stdout with_stdout].
  rewrite !append_assoc. reflexivity.
Qed.

Lemma until_found stop a r :
  lacks stop a = true -> until stop (a +:+ String stop r) = (a, Some r).
Proof.
induction a as [|c a IH]; intros H.
- change (until stop (String stop r) = (EmptyString, Some r)).
  cbn [until]. now rewrite Ascii.eqb_refl.
- cbn [lacks] in H. apply andb_true_iff in H as [Hc Ha]. apply negb_true_iff in Hc.
  change (until stop (String c (a +:+ String stop r)) = (String c a, Some r)).
  cbn [until]. now rewrite Hc, (IH Ha).
Qed.

Lemma listing_length cs : (length cs <= String.length (listing cs))%nat.
Proof.
induction cs as [|e cs IH]; [apply Nat.le_0_l|].
change (listing (e :: cs)) with (vmid e +:+ String (chr 9) (vm e +:+ String NL (listing cs))).
change (length (e :: cs)) with (S (length cs)).
rewrite length_append. cbn [String.length]. rewrite length_append. cbn [String.length]. lia.
Qed.

Lemma read_lines_listing cs :
  Forall (fun e => lacks (chr 9) (vmid e) = true /\ lacks NL (vm e) = true) cs ->
  forall fuel, (length cs <= fuel)%nat ->
    read_lines fuel (listing cs) = map (fun e => (vmid e, vm e)) cs.
Proof.
induction 1 as [|e cs [Hid Hname] _ IH]; intros fuel Hf.
- destruct fuel; reflexivity.
- destruct fuel as [|fuel]; [cbn [length] in Hf; lia|].
  change (listing (e :: cs))
    with (vmid e +:+ String (chr 9) (vm e +:+ String NL (listing cs))).
  cbn [read_lines map].
  rewrite (until_found _ _ _ Hid), (until_found _ _ _ Hname), IH;
    [reflexivity|cbn [length] in Hf; lia].
Qed.

(** X12.  With the format [plain], [doList] writes one line per console
    of the discovered list, in its order: the id, a tab, the name; and
    nothing else happens.  As long as no id holds a tab and no name a
    line feed, the listing is unambiguous: cutting each line at its first
    tab gives back the ids and names, in order. *)
Theorem doList_plain_round_trip (s : ProxyShell.self) (cs : list Console) (w : world) :
  ProxyShell._consoles s = Some cs ->
  ProxyShell.doList s "plain" w = (Ok tt, with_stdout (w_stdout w +:+ listing cs) w)
  /\ (Forall (fun e => lacks (chr 9) (vmid e) = true /\ lacks NL (vm e) = true) cs ->
      read_listing (listing cs) = map (fun e => (vmid e, vm e)) cs).
Proof.
intros Hcs. split.
- unfold ProxyShell.doList. rewrite Hcs. cbn [String.eqb Ascii.eqb Bool.eqb].
  apply doList_plain_writes.
- intros Hok. unfold read_listing. apply read_lines_listing; [exact Hok|].
  apply listing_length.
Qed.

(** X13.  [executeJson] runs its command once and is itself silent:
    the one system call it adds is that command, and it writes nothing to
    standard output or standard error.  What it logs is logged at level
    DEBUG only: the command before it runs, and after a failure one more
    record (the command's error output after a non-zero exit, its
    standard output when the parsed value is refused); on success
    nothing of the output is logged. *)
Theorem executeJson_quiet (E : env) (what command : string) (w : world) :
  w_trace (snd (executeJson E what command w)) = w_trace w ++ [SysPopen command]
  /\ w_stdout (snd (executeJson E what command w)) = w_stdout w
  /\ w_stderr (snd (executeJson E what command w)) = w_stderr w
  /\ exists more,
      w_syslog (snd (executeJson E what command w))
      = w_syslog w ++ (DEBUG, "Executing: " +:+ command) :: more
      /\ Forall (fun record => fst record = DEBUG) more
      /\ (length more <= 1)%nat
      /\ (forall v, fst (executeJson E what command w) = Ok v -> more = []).
Proof.
destruct (e_popen E command) as [[rc out] err] eqn:Hp.
rewrite (executeJson_cases _ _ _ _ _ _ _ Hp).
unfold ran, noted.
destruct (negb (rc =? 0)).
{ cbn [snd fst w_trace w_stdout w_stderr w_syslog with_trace with_syslog].
  repeat (split; [reflexivity|]). eexists. split; [now rewrite <- app_assoc|].
  split; [now repeat constructor|]. split; [cbn; lia|discriminate]. }
destruct (Json.loads out) as [e|v].
{ cbn [snd fst w_trace w_stdout w_stderr w_syslog with_trace with_syslog].
  repeat (split; [reflexivity|]). exists []. split; [reflexivity|].
  split; [constructor|]. split; [cbn; lia|reflexivity]. }
destruct (Json.truthy v).
{ cbn [snd fst w_trace w_stdout w_stderr w_syslog with_trace with_syslog].
  repeat (split; [reflexivity|]). exists []. split; [reflexivity|].
  split; [constructor|]. split; [cbn; lia|reflexivity]. }
cbn [snd fst w_trace w_stdout w_stderr w_syslog with_trace with_syslog].
repeat (split; [reflexivity|]). eexists. split; [now rewrite <- app_assoc|].
split; [now repeat constructor|]. split; [cbn; lia|discriminate].
Qed.

End OutputFacts.

(* ===================================================================== *)
(** * [simpleDaemon]: when it starts, what it holds, when it never cleans *)
(* ===================================================================== *)

Module DaemonFacts.
Import Py Sys Format Utils ConfigParser ProxyShell Cleanup Effects.
Import TextFacts AnchorFacts CleanupFacts AccountFacts.

(** With a limit of at least one, the three standard descriptors are on
    [os.devnull] and nothing else below the limit is open. *)
Lemma detach_descriptors n p :
  (0 < n)%nat ->
  detach n p
  = inr (Proc (p_pid p) (p_pid p) "/"
              (<[2%nat := "/dev/null"]>
                 (<[1%nat := "/dev/null"]>
                    (<[0%nat := "/dev/null"]> (close_below n (p_fds p)))))
              (p_wake p) (p_code p)).
Proof.
intros Hn. unfold detach.
assert (H0 : close_below n (p_fds p) !! 0%nat = None).
{ unfold close_below. apply map_lookup_filter_None. right. intros x _. cbn. lia. }
rewrite (lowest_free_zero _ H0). unfold dup2.
rewrite lookup_insert_eq. rewrite lookup_insert_ne by discriminate.
rewrite lookup_insert_eq. reflexivity.
Qed.

Lemma close_below_lookup n (fds : gmap nat string) k :
  close_below n fds !! k = if (n <=? k)%nat then fds !! k else None.
Proof.
unfold close_below. destruct (Nat.leb_spec n k) as [Hle|Hlt].
- destruct (fds !! k) as [x|] eqn:Hk.
  + apply map_lookup_filter_Some. split; [exact Hk|exact Hle].
  + apply map_lookup_filter_None. now left.
- apply map_lookup_filter_None. right. intros x _. cbn. lia.
Qed.

(** X14.  [simpleDaemon] succeeds exactly when two more processes can
    be created (the limit on processes being what makes [os.fork] fail
    here).  When not even the first [os.fork] is possible, its [OSError]
    propagates and nothing has happened.  When the first child cannot
    fork in its turn, it leaves with status 1 through
    [finally: os._exit(1)] and the caller raises
    [Daemon not exited properly]: no process stays behind, the task has
    not run, and no file is touched. *)
Theorem simpleDaemon_needs_two_processes (E : env) (task : list action) (w : world) :
  (fst (simpleDaemon E task w) = Ok tt <-> (2 <= w_nproc w)%nat)
  /\ (w_nproc w = 0%nat ->
      simpleDaemon E task w
      = (Raise (OSError "[Errno 11] Resource temporarily unavailable"), w))
  /\ (w_nproc w = 1%nat ->
      fst (simpleDaemon E task w) = Raise (RuntimeError "Daemon not exited properly")
      /\ w_fs (snd (simpleDaemon E task w)) = w_fs w
      /\ w_procs (snd (simpleDaemon E task w)) = w_procs w
      /\ w_trace (snd (simpleDaemon E task w))
         = w_trace w ++ [SysFork (w_pid w) (w_next_pid w);
                         SysExit (w_next_pid w) 1;
                         SysWaitpid (w_next_pid w) 1]).
Proof.
pose proof (simpleDaemon_cases E task w) as H.
destruct (w_nproc w) as [|[|n]].
- rewrite H. cbn [fst]. split; [split; [discriminate|lia]|].
  split; [reflexivity|discriminate].
- rewrite H. cbn [fst snd]. split; [split; [discriminate|lia]|].
  split; [discriminate|]. intros _. repeat split.
- destruct H as (child & _ & ->). cbn [fst].
  split; [split; [lia|reflexivity]|]. split; discriminate.
Qed.

(** X15.  The process [simpleDaemon] leaves behind shares nothing with
    the session below the descriptor limit (the hard limit on open
    files, or 1024 when there is none): with a limit of at least one, its
    descriptors 0, 1 and 2 are open on [os.devnull], every other
    descriptor below the limit is closed, and only descriptors at or
    above the limit are inherited.  Its working directory is [/], its
    session is a new one, led by the first child; the descriptors of the
    caller are untouched.  This is the process of a delay [time.sleep]
    takes; it turns down a longer one, and then no process is left at
    all. *)
Theorem daemon_descriptors (E : env) (t : Z) (name : string) (w w1 : world) :
  simpleDaemon E (delayedUnlink t name) w = (Ok tt, w1) ->
  0 < t ->
  (0 < maxfd E)%nat ->
  (sleeps (w_now w) t = true ->
   exists d,
     w_procs w1 = w_procs w ++ [d]
     /\ p_cwd d = "/"
     /\ p_sid d = w_next_pid w
     /\ p_fds d !! 0%nat = Some "/dev/null"
     /\ p_fds d !! 1%nat = Some "/dev/null"
     /\ p_fds d !! 2%nat = Some "/dev/null"
     /\ (forall n, (2 < n)%nat ->
           p_fds d !! n = if (maxfd E <=? n)%nat then w_fds w !! n else None)
     /\ w_fds w1 = w_fds w)
  /\ (sleeps (w_now w) t = false -> w_procs w1 = w_procs w /\ w_fds w1 = w_fds w).
Proof.
intros H Ht Hmax.
pose proof (simpleDaemon_cases E (delayedUnlink t name) w) as Hc.
destruct (w_nproc w) as [|[|n]].
- rewrite H in Hc. discriminate.
- rewrite H in Hc. discriminate.
- destruct Hc as (child & Hd & Hs). rewrite H in Hs.
  rewrite (detach_descriptors _ _ Hmax) in Hd. injection Hd as <-.
  rewrite run_delayedUnlink in Hs. cbn [p_sid p_cwd p_fds p_pid] in Hs.
  match type of Hs with context [sleeps (w_now ?x) t] =>
    change (w_now x) with (w_now w) in Hs end.
  destruct (sleeps (w_now w) t); cbn [negb] in Hs.
  2:{ injection Hs as ->. split; [discriminate|]. intros _. unfold proc_exit.
      cbn [w_procs w_fds with_trace with_procs with_forked option_list].
      now rewrite app_nil_r. }
  destruct (Z.eqb_spec t 0) as [?|_]; [lia|].
  injection Hs as ->. split; [|discriminate]. intros _.
  eexists. cbn [w_procs w_fds with_trace with_procs with_forked option_list].
  split; [reflexivity|]. cbn [p_cwd p_sid p_fds].
  split; [reflexivity|]. split; [reflexivity|].
  split; [now rewrite lookup_insert_ne, lookup_insert_ne, lookup_insert_eq|].
  split; [now rewrite lookup_insert_ne, lookup_insert_eq|].
  split; [now rewrite lookup_insert_eq|].
  split; [|reflexivity].
  intros k Hk. rewrite !lookup_insert_ne by lia. apply close_below_lookup.
Qed.

(** X16.  A negative [known_hosts_close_delay] is accepted, and then the
    trust anchor is never removed: the cleanup is started as usual and
    reports success, but [time.sleep] refuses the negative length inside
    the detached process, which ends at once, its error unseen.  No
    process is left, [os.unlink] is never called, and the file stays
    until somebody else removes it. *)
Theorem negative_delay_never_cleans (E : env) (name : string) (w : world)
        (v : string) (delay : Z) (f : file) :
  e_config E "proxy" "known_hosts_close_delay" = inr v ->
  Py.int v = Some delay ->
  delay < 0 ->
  (2 <= w_nproc w)%nat ->
  w_fs w !! name = Some f ->
  w_procs w = [] ->
  fst (doConnect_cleanup E name w) = Ok tt
  /\ w_procs (snd (doConnect_cleanup E name w)) = []
  /\ forall evs,
      Forall (spares name) evs ->
      w_fs (steps evs (snd (doConnect_cleanup E name w))) !! name = Some f
      /\ unlink_calls name (w_trace (steps evs (snd (doConnect_cleanup E name w))))
         = unlink_calls name (w_trace w).
Proof.
intros Hv Hint Hneg Hn Hf Hp.
assert (Heq : exists w1,
           doConnect_cleanup E name w = (Ok tt, w1)
           /\ w_procs w1 = [] /\ w_fs w1 = w_fs w
           /\ unlink_calls name (w_trace w1) = unlink_calls name (w_trace w)).
{ unfold doConnect_cleanup.
  unfold bind at 1. cbn [logger].
  assert (Hget : forall w0, getint E "proxy" "known_hosts_close_delay" w0 = (Ok delay, w0)).
  { intros w0. unfold getint, get, bind. rewrite Hv. cbn [lift ret]. now rewrite Hint. }
  rewrite (bind_returns _ _ _ _ _ (Hget _)).
  set (w0 := with_syslog (w_syslog w ++ [(DEBUG, "Cleanup daemon")]) w).
  pose proof (simpleDaemon_cases E (delayedUnlink delay name) w0) as Hc.
  change (w_nproc w0) with (w_nproc w) in Hc.
  destruct (w_nproc w) as [|[|n]]; [lia|lia|].
  destruct Hc as (child & _ & ->).
  rewrite run_delayedUnlink.
  assert (Hsl : forall now, sleeps now delay = false).
  { intros now. unfold sleeps. destruct (Z.leb_spec 0 delay); [lia|reflexivity]. }
  rewrite Hsl. cbn [negb].
  eexists. split; [reflexivity|]. unfold proc_exit, w0.
  cbn [w_procs w_fs w_trace with_trace with_procs with_forked with_syslog option_list p_pid].
  split; [now rewrite Hp|]. split; [reflexivity|].
  rewrite <- !app_assoc, unlink_calls_app. cbn. lia. }
destruct Heq as (w1 & -> & H1 & H2 & H3). cbn [fst snd].
split; [reflexivity|]. split; [exact H1|].
intros evs Hevs.
destruct (steps_idle name evs w1 H1) as (_ & H5 & H4).
rewrite (H4 Hevs), H5, H2, H3. now split.
Qed.

(** X17.  The trust anchor outlives a cleanup that could not be
    started.  [doConnect] has no handler around its steps: when the
    cleanup raises (the delay is missing or not an integer, or a process
    cannot be created) the exception ends [doConnect], no process has
    been left to remove the file, [os.unlink] is never called, and the
    file stays until somebody else removes it. *)
Theorem anchor_left_behind (E : env) (name : string) (w w' : world) (e : exn) (f : file) :
  doConnect_cleanup E name w = (Raise e, w') ->
  w_fs w !! name = Some f ->
  w_procs w = [] ->
  w_procs w' = []
  /\ (forall s entry k,
         bind (doConnect_cleanup E name) (fun _ => doConnect_attach E s entry k) w
         = (Raise e, w'))
  /\ forall evs,
      Forall (spares name) evs ->
      w_fs (steps evs w') !! name = Some f
      /\ unlink_calls name (w_trace (steps evs w')) = unlink_calls name (w_trace w).
Proof.
intros H Hf Hp.
assert (Hw : w_procs w' = [] /\ w_fs w' = w_fs w
             /\ unlink_calls name (w_trace w') = unlink_calls name (w_trace w)).
{ unfold doConnect_cleanup in H. unfold bind at 1 in H. cbn [logger] in H.
  set (w0 := with_syslog (w_syslog w ++ [(DEBUG, "Cleanup daemon")]) w) in H.
  unfold bind at 1 in H.
  destruct (getint E "proxy" "known_hosts_close_delay" w0) as [[t|x| |] w1] eqn:Hg;
    try discriminate.
  - assert (w1 = w0) as ->.
    { unfold getint, get, bind in Hg.
      destruct (e_config E "proxy" "known_hosts_close_delay") as [?|v]; [discriminate|].
      cbn [lift ret] in Hg. destruct (Py.int v); now injection Hg. }
    pose proof (simpleDaemon_cases E (delayedUnlink t name) w0) as Hc.
    change (w_nproc w0) with (w_nproc w) in Hc.
    destruct (w_nproc w) as [|[|n]].
    + rewrite H in Hc. injection Hc as _ ->. now repeat split.
    + rewrite H in Hc. injection Hc as _ ->.
      cbn [w_procs w_fs w_trace with_trace with_forked w0 with_syslog].
      split; [exact Hp|]. split; [reflexivity|].
      rewrite unlink_calls_app. cbn. lia.
    + destruct Hc as (child & _ & Hc). rewrite H in Hc. discriminate.
  - injection H as _ <-.
    unfold getint, get, bind in Hg.
    destruct (e_config E "proxy" "known_hosts_close_delay") as [?|v].
    + injection Hg as _ <-. now repeat split.
    + cbn [lift ret] in Hg. destruct (Py.int v); [discriminate|].
      injection Hg as _ <-. now repeat split. }
destruct Hw as (H1 & H2 & H3).
split; [exact H1|]. split; [intros s entry k; now apply bind_raises|].
intros evs Hevs.
destruct (steps_idle name evs w' H1) as (_ & H5 & H4).
rewrite (H4 Hevs), H5, H2, H3. now split.
Qed.

End DaemonFacts.

(* ===================================================================== *)
(** * What reaches syslog *)
(* ===================================================================== *)

Module LoggingFacts.
Import Py Logging Effects TextFacts.

Lemma replace_nl_cons new c r :
  replace nl new (String c r)
  = if Ascii.eqb c NL then new +:+ replace nl new r else String c (replace nl new r).
Proof.
unfold replace, nl. cbn [replace_from String.prefix String.length Nat.sub].
assert (Hp : String.prefix "" r = true) by now destruct r.
destruct (ascii_dec NL c) as [<-|Hne].
- now rewrite Hp, Ascii.eqb_refl.
- destruct (Ascii.eqb_spec c NL) as [->|_]; [congruence|reflexivity].
Qed.

Lemma lacks_app c a b : lacks c (a +:+ b) = lacks c a && lacks c b.
Proof.
induction a as [|x a IH]; [reflexivity|].
change (negb (Ascii.eqb x c) && lacks c (a +:+ b)
        = negb (Ascii.eqb x c) && lacks c a && lacks c b).
now rewrite IH, andb_assoc.
Qed.

Lemma replace_nl_lacks new s : lacks NL new = true -> lacks NL (replace nl new s) = true.
Proof.
intros Hnew. induction s as [|c s IH]; [reflexivity|].
rewrite replace_nl_cons. destruct (Ascii.eqb c NL) eqn:Hc.
- now rewrite lacks_app, Hnew, IH.
- cbn [lacks]. now rewrite Hc, IH.
Qed.

Lemma replace_nl_id new s : lacks NL s = true -> replace nl new s = s.
Proof.
induction s as [|c s IH]; [reflexivity|].
cbn [lacks]. intros H. apply andb_true_iff in H as [Hc Hs]. apply negb_true_iff in Hc.
now rewrite replace_nl_cons, Hc, (IH Hs).
Qed.

Lemma replace_nl_app new a b :
  replace nl new (a +:+ b) = replace nl new a +:+ replace nl new b.
Proof.
induction a as [|c a IH]; [reflexivity|].
change (String c a +:+ b) with (String c (a +:+ b)).
rewrite !replace_nl_cons, IH. destruct (Ascii.eqb c NL); [|reflexivity].
now rewrite append_assoc.
Qed.

(** X18.  Whatever a record holds (a message of several lines, the
    traceback that [exc_info=True] appends), the text [_MyFormatter]
    hands to syslog is a single line: every line feed of the formatted
    record has become [ | ], the pieces in between are unchanged and in
    order, and a record without line feeds is passed on as it is. *)
Theorem syslog_record_single_line (process : string) (pid : nat) (record : LogRecord) :
  lacks NL (MyFormatter_format process pid record) = true
  /\ (lacks NL (Formatter_format process pid record) = true ->
      MyFormatter_format process pid record = Formatter_format process pid record)
  /\ (forall before after,
         Formatter_format process pid record = before +:+ nl +:+ after ->
         MyFormatter_format process pid record
         = replace nl " | " before +:+ " | " +:+ replace nl " | " after).
Proof.
unfold MyFormatter_format. split; [|split].
- now apply replace_nl_lacks.
- apply replace_nl_id.
- intros before after ->. rewrite !replace_nl_app.
  change (replace nl " | " nl) with " | ". reflexivity.
Qed.

End LoggingFacts.

(* ===================================================================== *)
(** * Which configuration files count *)
(* ===================================================================== *)

Module LoadConfigFacts.
Import Py Sys LoadConfig.

Lemma compare_same a : forall b, String.compare a b = OrdersEx.String_as_OT.compare a b.
Proof.
induction a as [|x a IH]; intros [|y b]; reflexivity.
Qed.

Lemma compare_lt_trans a b c :
  String.compare a b = Lt -> String.compare b c = Lt -> String.compare a c = Lt.
Proof.
rewrite !compare_same. intros H1 H2.
exact (@transitivity _ _ (@StrictOrder_Transitive _ _ OrdersEx.String_as_OT.lt_strorder)
         a b c H1 H2).
Qed.

#[local] Instance str_le_total : Total str_le.
Proof.
intros a b. unfold str_le, String.leb.
rewrite (String.compare_antisym b a).
destruct (String.compare a b); cbn; auto.
Qed.

#[local] Instance str_le_trans : Transitive str_le.
Proof.
intros a b c. unfold str_le, String.leb.
destruct (String.compare a b) eqn:Hab; [| |discriminate].
- apply String.compare_eq_iff in Hab. now subst b.
- destruct (String.compare b c) eqn:Hbc; [| |discriminate].
  + apply String.compare_eq_iff in Hbc. subst c. now rewrite Hab.
  + now rewrite (compare_lt_trans _ _ _ Hab Hbc).
Qed.

Lemma str_le_lt a b : str_le a b -> a <> b -> String.ltb a b = true.
Proof.
unfold str_le, String.leb, String.ltb.
destruct (String.compare a b) eqn:Hab; try discriminate; [|reflexivity].
apply String.compare_eq_iff in Hab. congruence.
Qed.

Lemma In_sorted l x : In x (sorted l) <-> In x l.
Proof.
unfold sorted. rewrite <- !list_elem_of_In.
now rewrite (sorting.merge_sort_Permutation str_le l).
Qed.

Lemma NoDup_glob_conf dir (fs : gmap string file) : NoDup (glob_conf dir fs).
Proof.
unfold glob_conf. apply NoDup_ListNoDup, List.NoDup_filter, NoDup_ListNoDup.
apply (NoDup_fst_map_to_list fs).
Qed.

Lemma In_glob_conf dir (fs : gmap string file) path :
  In path (glob_conf dir fs)
  <-> is_Some (fs !! path)
      /\ exists name, entry_name dir path = Some name /\ matches_conf name = true.
Proof.
unfold glob_conf. rewrite List.filter_In, <- list_elem_of_In, list_elem_of_fmap.
split.
- intros [([p f] & -> & Hin) Hm]. apply elem_of_map_to_list in Hin. cbn [fst] in *.
  split; [now exists f|].
  destruct (entry_name dir p) as [name|]; [|discriminate]. now exists name.
- intros [[f Hf] (name & Hn & Hm)]. split.
  + exists (path, f). split; [reflexivity|]. now apply elem_of_map_to_list.
  + now rewrite Hn.
Qed.

Lemma sorted_increasing l :
  List.NoDup l ->
  forall i j p q,
    sorted l !! i = Some p -> sorted l !! j = Some q -> (i < j)%nat ->
    String.ltb p q = true.
Proof.
intros Hnd.
assert (Hss : Sorted.StronglySorted str_le (sorted l)).
{ apply sorting.StronglySorted_merge_sort; typeclasses eauto. }
assert (Hnd' : NoDup (sorted l)).
{ unfold sorted. rewrite (sorting.merge_sort_Permutation str_le l).
  now apply NoDup_ListNoDup. }
induction Hss as [|x rest Hss IH Hall]; intros i j p q Hi Hj Hlt; [discriminate|].
apply NoDup_cons in Hnd' as [Hx Hrest].
destruct j as [|j]; [lia|]. cbn in Hj.
destruct i as [|i].
- injection Hi as <-.
  assert (Hq : q ∈ rest) by (eapply list_elem_of_lookup_2; exact Hj).
  apply str_le_lt.
  + rewrite List.Forall_forall in Hall. apply Hall. now apply list_elem_of_In.
  + intros ->. contradiction.
- cbn in Hi. apply (IH Hrest i j); [assumption..|lia].
Qed.


Section Reading.
Variable parse : string -> exn + items.
Variable who : ids.
Variable fs : gmap string file.




(** X19.  [loadConfig] reads the packaged defaults first and then the
    files of the directory [location] whose names end in [.conf] and do
    not start with a dot, and no others, in increasing order of their
    names.  A file that is missing or cannot be opened is passed over:
    with no file at all, the result is an empty configuration, not an
    error. *)
Theorem loadConfig_reads_in_name_order (defaults location dir : string) :
  dirname location = Some dir ->
  exists confs,
    loadConfig parse who fs defaults location
    = Some (read parse who fs (defaults :: confs) ∅)
    /\ (forall path,
           In path confs
           <-> is_Some (fs !! path)
               /\ exists name, entry_name dir path = Some name
                               /\ matches_conf name = true)
    /\ (forall i j p q,
           confs !! i = Some p -> confs !! j = Some q -> (i < j)%nat ->
           String.ltb p q = true)
    /\ (fs !! defaults = None -> confs = [] ->
        loadConfig parse who fs defaults location = Some (inr ∅)).
Proof.
intros Hdir. exists (sorted (glob_conf dir fs)).
unfold loadConfig. rewrite Hdir. split; [reflexivity|]. split; [|split].
- intros path. rewrite In_sorted. apply In_glob_conf.
- apply sorted_increasing. apply NoDup_ListNoDup, NoDup_glob_conf.
- intros Hd ->. cbn [app read]. now rewrite Hd.
Qed.



End Reading.

End LoadConfigFacts.

(* ===================================================================== *)
(** * More of the theorems at work *)
(* ===================================================================== *)

Module Scenarios.
Import Py Sys Format Utils Menu Discovery Cleanup Effects.
Import Sample Cases.

(** The second console is shown as [01]; typing [01] selects it. *)
Lemma shown_number_selects_witness :
  [alpha; beta] !! 1%nat = Some beta
  /\ (String.length (str_nat 1) <= int_max_str_digits)%nat
  /\ selectConsole "Consoles:" [alpha; beta] (session (keys ("01" +:+ nl)))
     = (Ok beta,
        prompted (prompt "Consoles:" [alpha; beta]) [] (session (keys ("01" +:+ nl)))).
Proof.
assert (H : (String.length (str_nat 1) <= int_max_str_digits)%nat) by (vm_compute; lia).
split; [reflexivity|]. split; [exact H|].
exact (proj2 (NumberFacts.shown_number_selects "Consoles:" [alpha; beta] 1 beta []
                (session (keys ("01" +:+ nl))) eq_refl H eq_refl)).
Defined.

(** The sample session with its single console: handed over to
    [/bin/sh -c ...]. *)
Lemma handover_witness :
  ProxyShell.doConnect installation selected None None (session []) = (Replaced, handed_over)
  /\ exists cmd calls,
      w_trace handed_over = calls ++ [SysExecv "/bin/sh" ["/bin/sh"; "-c"; cmd]].
Proof.
assert (Hrun : ProxyShell.doConnect installation selected None None (session [])
               = (Replaced, handed_over)) by (vm_compute; reflexivity).
split; [exact Hrun|].
destruct (ProxyFacts.handover installation selected None None (session []) handed_over Hrun)
  as (cs & entry & kh & shell & tpl & cmd & _ & _ & _ & Hsh & _ & _ & _ & (calls & Htr) & _).
vm_compute in Hsh. injection Hsh as <-.
now exists cmd, calls.
Defined.

(** Run by another user, the proxy shell does nothing. *)
Lemma wrong_account_runs_nothing_witness :
  e_getpwnam intruder (VMCONSOLE_USER intruder) <> Some (e_euid intruder)
  /\ fst (ProxyShell.main intruder accept connect (session [])) <> Ok 0
  /\ w_trace (snd (ProxyShell.main intruder accept connect (session []))) = [].
Proof.
assert (H : e_getpwnam intruder (VMCONSOLE_USER intruder) <> Some (e_euid intruder))
  by (vm_compute; discriminate).
split; [exact H|].
destruct (AccountFacts.wrong_account_runs_nothing intruder accept connect
            (inr (HostShell.Help false None None)) [] (session []) H)
  as ((H1 & _ & H2 & _) & _).
split; [exact H1|exact H2].
Defined.

(** [ovirt-vmconsole-proxy-shell help]. *)
Lemma proxy_argv_help_fails_witness :
  e_load_config installation = None
  /\ fst (ProxyShell.main installation (inr (ProxyShell.NsHelp false)) connect (session []))
     = Ok 1.
Proof.
split; [reflexivity|].
now rewrite (AccountFacts.proxy_argv_help_fails installation false connect (session [])
               eq_refl).
Defined.

(** The socket of [alpha] on the sample host: the session is not its
    owner, but of its group, which may read and write. *)
Lemma socket_opened_is_usable_witness :
  readable (real installation) (File EmptyString 432 107 36) = true
  /\ writable (real installation) (File EmptyString 432 107 36) = true
  /\ fst (HostShell.doConnect_socket installation "alpha.sock" host)
     = Ok "/var/run/ovirt-vmconsole-console/alpha.sock".
Proof.
split; [reflexivity|]. split; [reflexivity|].
destruct (SocketFacts.socket_opened_is_usable installation "alpha.sock" host) as [_ H].
exact (H "/var/run/ovirt-vmconsole-console" (File EmptyString 432 107 36)
         eq_refl eq_refl eq_refl eq_refl eq_refl).
Defined.

(** A name that tries to leave the console directory. *)
Lemma separator_name_refused_witness :
  has_sep "../../etc/passwd" = true
  /\ HostShell.main installation
       (inr (HostShell.Connect false None None "../../etc/passwd")) [] host
     = (Ok 1,
        reported_visible "Invalid console name"
                         (announced (HostShell.version_record installation) installation
                                    host)).
Proof.
split; [reflexivity|].
exact (proj1 (SocketFacts.separator_name_refused installation false false None None
                "../../etc/passwd" [] host eq_refl eq_refl eq_refl eq_refl eq_refl)).
Defined.

(** [info] on the sample host. *)
Lemma doInfo_all_or_nothing_witness :
  fst (HostShell.doInfo installation host) = Ok tt
  /\ w_stdout (snd (HostShell.doInfo installation host))
     = "package=ovirt-vmconsole-host-shell" +:+ nl
       +:+ "ssh-ca-key=ssh-rsa AAAAB3Nza ca" +:+ nl
       +:+ "ssh-host-cert=ssh-rsa-cert-v01 AAAAHHNza host" +:+ nl.
Proof.
destruct (OutputFacts.doInfo_all_or_nothing installation host) as (_ & _ & _ & H & _).
destruct (H eq_refl) as [H1 H2]. split; [exact H1|]. rewrite H2. reflexivity.
Defined.

(** The plain listing of the two sample consoles, and back. *)
Lemma doList_plain_round_trip_witness :
  ProxyShell._consoles listed = Some [alpha; beta]
  /\ w_stdout (snd (ProxyShell.doList listed "plain" (session [])))
     = "0001" +:+ String (chr 9) "alpha" +:+ nl +:+ "0002" +:+ String (chr 9) "beta" +:+ nl
  /\ read_listing (Effects.listing [alpha; beta]) = [("0001", "alpha"); ("0002", "beta")].
Proof.
split; [reflexivity|].
destruct (OutputFacts.doList_plain_round_trip listed [alpha; beta] (session []) eq_refl)
  as [H1 H2].
split; [rewrite H1; reflexivity|].
apply H2. repeat constructor.
Defined.

(** The process left behind for the sample anchor. *)
Lemma daemon_descriptors_witness :
  simpleDaemon installation (ProxyShell.delayedUnlink 5 "/tmp/tmp0a1b2c3d") anchored
  = (Ok tt, started)
  /\ 0 < 5
  /\ (0 < maxfd installation)%nat
  /\ exists d,
      w_procs started = [d]
      /\ p_fds d !! 0%nat = Some "/dev/null"
      /\ p_fds d !! 1%nat = Some "/dev/null"
      /\ p_fds d !! 2%nat = Some "/dev/null".
Proof.
assert (Hrun : simpleDaemon installation (ProxyShell.delayedUnlink 5 "/tmp/tmp0a1b2c3d")
                            anchored = (Ok tt, started)) by (vm_compute; reflexivity).
assert (Hmax : (0 < maxfd installation)%nat) by (vm_compute; lia).
split; [exact Hrun|]. split; [lia|]. split; [exact Hmax|].
destruct (DaemonFacts.daemon_descriptors installation 5 "/tmp/tmp0a1b2c3d" anchored started
            Hrun ltac:(lia) Hmax) as [H _].
destruct (H eq_refl) as (d & Hp & _ & _ & H0 & H1 & H2 & _).
exists d. now repeat split.
Defined.

(** A delay of minus five seconds: the anchor is still there after an
    hour. *)
Lemma negative_delay_never_cleans_witness :
  Sample.config "proxy" "debug" = inr "False"
  /\ e_config hasty "proxy" "known_hosts_close_delay" = inr "-5"
  /\ Py.int "-5" = Some (-5)
  /\ fst (ProxyShell.doConnect_cleanup hasty "/tmp/tmp0a1b2c3d" anchored) = Ok tt
  /\ w_fs (steps [Tick 3600]
                 (snd (ProxyShell.doConnect_cleanup hasty "/tmp/tmp0a1b2c3d" anchored)))
     !! "/tmp/tmp0a1b2c3d" = Some anchor.
Proof.
split; [reflexivity|]. split; [reflexivity|]. split; [reflexivity|].
assert (Hn : (2 <= w_nproc anchored)%nat) by (vm_compute; lia).
assert (Hf : w_fs anchored !! "/tmp/tmp0a1b2c3d" = Some anchor) by (vm_compute; reflexivity).
destruct (DaemonFacts.negative_delay_never_cleans hasty "/tmp/tmp0a1b2c3d" anchored
            "-5" (-5) anchor eq_refl eq_refl ltac:(lia) Hn Hf eq_refl)
  as (H1 & _ & H2).
split; [exact H1|].
apply (H2 [Tick 3600]). repeat constructor.
Defined.

(** A delay that is no number: [doConnect] fails, the anchor stays. *)
Lemma anchor_left_behind_witness :
  ProxyShell.doConnect_cleanup careless "/tmp/tmp0a1b2c3d" anchored
  = (Raise (ValueError "invalid literal for int() with base 10: 'soon'"), unstarted)
  /\ w_fs (steps [Hangup 40; Tick 3600] unstarted) !! "/tmp/tmp0a1b2c3d" = Some anchor.
Proof.
assert (Hrun : ProxyShell.doConnect_cleanup careless "/tmp/tmp0a1b2c3d" anchored
               = (Raise (ValueError "invalid literal for int() with base 10: 'soon'"),
                  unstarted)) by (vm_compute; reflexivity).
assert (Hf : w_fs anchored !! "/tmp/tmp0a1b2c3d" = Some anchor) by (vm_compute; reflexivity).
split; [exact Hrun|].
destruct (DaemonFacts.anchor_left_behind careless "/tmp/tmp0a1b2c3d" anchored unstarted _
            anchor Hrun Hf eq_refl) as (_ & _ & H).
apply (H [Hangup 40; Tick 3600]). repeat constructor.
Defined.

(** The files of the sample [conf.d] that count, in their order. *)
Lemma loadConfig_reads_in_name_order_witness :
  LoadConfig.dirname (conf_d +:+ "/") = Some conf_d
  /\ exists confs,
      LoadConfig.loadConfig one_value reader conf_files defaults (conf_d +:+ "/")
      = Some (LoadConfig.read one_value reader conf_files (defaults :: confs) ∅)
      /\ (In (conf_d +:+ "/10-site.conf") confs /\ In (conf_d +:+ "/20-local.conf") confs)
      /\ ~ In (conf_d +:+ "/.20-local.conf.swp") confs
      /\ ~ In (conf_d +:+ "/README") confs.
Proof.
assert (Hd : LoadConfig.dirname (conf_d +:+ "/") = Some conf_d) by (vm_compute; reflexivity).
split; [exact Hd|].
destruct (LoadConfigFacts.loadConfig_reads_in_name_order one_value reader conf_files
            defaults (conf_d +:+ "/") conf_d Hd) as (confs & Heq & Hin & _).
assert (H10 : conf_files !! (conf_d +:+ "/10-site.conf") = Some (File "True" 420 0 0))
  by (vm_compute; reflexivity).
assert (H20 : conf_files !! (conf_d +:+ "/20-local.conf") = Some (File "False" 420 0 0))
  by (vm_compute; reflexivity).
assert (N10 : LoadConfig.entry_name conf_d (conf_d +:+ "/10-site.conf")
              = Some "10-site.conf") by (vm_compute; reflexivity).
assert (N20 : LoadConfig.entry_name conf_d (conf_d +:+ "/20-local.conf")
              = Some "20-local.conf") by (vm_compute; reflexivity).
assert (Nswp : LoadConfig.entry_name conf_d (conf_d +:+ "/.20-local.conf.swp")
               = Some ".20-local.conf.swp") by (vm_compute; reflexivity).
assert (Nnote : LoadConfig.entry_name conf_d (conf_d +:+ "/README") = Some "README")
  by (vm_compute; reflexivity).
exists confs. split; [exact Heq|]. split; [split|split].
- apply Hin. split; [exists (File "True" 420 0 0); exact H10|].
  exists "10-site.conf". split; [exact N10|vm_compute; reflexivity].
- apply Hin. split; [exists (File "False" 420 0 0); exact H20|].
  exists "20-local.conf". split; [exact N20|vm_compute; reflexivity].
- intros H. apply Hin in H as (_ & name & Hn & Hm).
  rewrite Nswp in Hn. injection Hn as <-.
  assert (Hno : LoadConfig.matches_conf ".20-local.conf.swp" = false)
    by (vm_compute; reflexivity).
  rewrite Hno in Hm. discriminate Hm.
- intros H. apply Hin in H as (_ & name & Hn & Hm).
  rewrite Nnote in Hn. injection Hn as <-.
  assert (Hno : LoadConfig.matches_conf "README" = false) by (vm_compute; reflexivity).
  rewrite Hno in Hm. discriminate Hm.
Defined.

(** Leaving the sample menu with [exit] is a cancellation. *)
Lemma selection_is_answerable_witness :
  e_config installation "proxy" "console_menu_title" = inr ""
  /\ fst (ProxyShell.doConnect_select installation None None [alpha; beta]
                                      (session (keys ("exit" +:+ nl))))
     = Raise UserExit
  /\ answerable (fun e => In e [alpha; beta])
                (fst (ProxyShell.doConnect_select installation None None [alpha; beta]
                                                  (session (keys ("exit" +:+ nl))))).
Proof.
split; [reflexivity|]. split; [vm_compute; reflexivity|].
exact (ProxyFacts.selection_is_answerable installation None None [alpha; beta] ""
         (session (keys ("exit" +:+ nl))) eq_refl).
Defined.

(** [list] on the sample installation leaves the files as they were. *)
Lemma only_connect_leaves_traces_witness :
  (forall d vm_id vm_name,
      @inr exn ProxyShell.userargs (ProxyShell.List_ false "plain")
      <> inr (ProxyShell.Connect d vm_id vm_name))
  /\ w_fs (snd (ProxyShell.main installation accept (inr (ProxyShell.List_ false "plain"))
                                (session []))) = files
  /\ fst (ProxyShell.main installation accept (inr (ProxyShell.List_ false "plain"))
                          (session [])) = Ok 0.
Proof.
assert (H : forall d vm_id vm_name,
           @inr exn ProxyShell.userargs (ProxyShell.List_ false "plain")
           <> inr (ProxyShell.Connect d vm_id vm_name)) by (intros d i n; discriminate).
split; [exact H|]. split; [|vm_compute; reflexivity].
exact (proj1 (ProxyFacts.only_connect_leaves_traces installation accept
                (inr (ProxyShell.List_ false "plain")) (session []) H)).
Defined.

(** With room for one more process only, the cleanup cannot start. *)
Lemma simpleDaemon_needs_two_processes_witness :
  w_nproc crowded = 1%nat
  /\ fst (simpleDaemon installation (ProxyShell.delayedUnlink 5 "/tmp/tmp0a1b2c3d") crowded)
     = Raise (RuntimeError "Daemon not exited properly")
  /\ w_procs (snd (simpleDaemon installation
                                (ProxyShell.delayedUnlink 5 "/tmp/tmp0a1b2c3d") crowded))
     = [].
Proof.
split; [reflexivity|].
destruct (DaemonFacts.simpleDaemon_needs_two_processes installation
            (ProxyShell.delayedUnlink 5 "/tmp/tmp0a1b2c3d") crowded) as (_ & _ & H).
destruct (H eq_refl) as (H1 & _ & H2 & _). split; [exact H1|exact H2].
Defined.


End Scenarios.
